(** * LogPose ingestion worker (atlas_worker): a shallow embedding

    The development follows the package layout of
    [packages/worker/src/atlas_worker]:

    - [Py]               the Python primitives the worker relies on
                         (byte/str helpers, [int], truncation of floats);
    - [FloatMetadata], [FloatStatus]   the pydantic models of [models/argo.py];
    - [Helper]           [utils/helper.py]: float-type classifier, status rule,
                         battery estimator;
    - [AggregateParser]  [netcdf_aggregate_parser.py]: [extract_string],
                         [parse_date], [parse_metadata_file];
    - [ParquetConverter] [converter.py]: the profile x level flattening;
    - [ArgoSyncWorker]   [argo_sync/sync.py]: per-float download and the
                         manifest merge;
    - [PgClient]         [db/pg.py]: the combined upsert and the processing log;
    - [Main]             [main.py]: the pipeline loop;
    - [PyStr], [Np]      the [str] methods and the numpy indexing and
                         conversions used by the parsers;
    - [IndexParser]      [argo_sync/sync.py]: [_parse_index_for_floats];
    - [ProfileStats]     [netcdf_aggregate_parser.py]: [get_profile_stats],
                         [_extract_latest_battery_voltage];
    - [NetCDFParserWorker]  [netcdf_parser.py]: [process_directory];
    - [LambdaHandler]    [lambda_handler.py]: the Lambda entry point.

    Numbers: Python [int] is [Z]; a finite Python [float] is modelled by the
    rational it denotes ([Q], exact arithmetic), NaN by a constructor of its
    own where the code tests for it; [Binary64] repeats the lithium curve
    on IEEE 754 doubles, to evaluate it bit for bit.  Python sets are
    [gset], dictionaries used as tables are [gmap], the manifest's JSON
    arrays are lists. *)

From Stdlib Require Import QArith Qround ZArith Lia Lqa Ascii String List Bool.
From Stdlib Require PrimFloat FloatOps SpecFloat.
From stdpp Require Import gmap strings list fin_maps pretty.

Local Open Scope string_scope.
Local Open Scope Z_scope.

(* ===================================================================== *)
(** ** Python primitives *)
(* ===================================================================== *)

Module Py.

(** ASCII whitespace, the characters [bytes.strip()] removes. *)
Definition is_space (c : ascii) : bool :=
  let n := nat_of_ascii c in
  ((n =? 32) || ((9 <=? n) && (n <=? 13)))%nat.

Definition is_digit (c : ascii) : bool :=
  let n := nat_of_ascii c in ((48 <=? n) && (n <=? 57))%nat.

Definition digit_val (c : ascii) : Z := Z.of_nat (nat_of_ascii c) - 48.

Fixpoint lstrip (s : string) : string :=
  match s with
  | String c s' => if is_space c then lstrip s' else s
  | EmptyString => EmptyString
  end.

Fixpoint rstrip (s : string) : string :=
  match s with
  | String c s' =>
      match rstrip s' with
      | EmptyString => if is_space c then EmptyString else String c EmptyString
      | r => String c r
      end
  | EmptyString => EmptyString
  end.

(** [s.strip()], for bytes and for ASCII text. *)
Definition strip (s : string) : string := rstrip (lstrip s).

Definition upper_char (c : ascii) : ascii :=
  let n := nat_of_ascii c in
  if ((97 <=? n) && (n <=? 122))%nat then ascii_of_nat (n - 32) else c.

Definition lower_char (c : ascii) : ascii :=
  let n := nat_of_ascii c in
  if ((65 <=? n) && (n <=? 90))%nat then ascii_of_nat (n + 32) else c.

Fixpoint map_chars (f : ascii -> ascii) (s : string) : string :=
  match s with
  | String c s' => String (f c) (map_chars f s')
  | EmptyString => EmptyString
  end.

(** [s.upper()], [s.lower()] on ASCII text. *)
Definition upper : string -> string := map_chars upper_char.
Definition lower : string -> string := map_chars lower_char.

Fixpoint all_chars (p : ascii -> bool) (s : string) : bool :=
  match s with
  | String c s' => p c && all_chars p s'
  | EmptyString => true
  end.

(** [s.isspace()]: non-empty and only whitespace. *)
Definition isspace (s : string) : bool :=
  match s with EmptyString => false | _ => all_chars is_space s end.

(** [s.isdigit()]: non-empty and only digits. *)
Definition isdigit (s : string) : bool :=
  match s with EmptyString => false | _ => all_chars is_digit s end.

(** Truthiness of a string: [if s]. *)
Definition truthy (s : string) : bool :=
  match s with EmptyString => false | _ => true end.

(** [needle in hay] on strings: substring test. *)
Fixpoint contains (needle hay : string) : bool :=
  String.prefix needle hay ||
  match hay with
  | String _ h => contains needle h
  | EmptyString => false
  end.

(** [x in xs] on a list of strings. *)
Definition mem (x : string) (xs : list string) : bool :=
  existsb (String.eqb x) xs.

(** [sep.join(xs)] *)
Definition join (sep : string) (xs : list string) : string :=
  String.concat sep xs.

(** [s[:n]] *)
Definition take (n : nat) (s : string) : string := String.substring 0 n s.

(** Digits of an integer literal; a single underscore is accepted between
    two digits, as [int] does. *)
Fixpoint int_loop (acc : Z) (after_us : bool) (s : string) : option Z :=
  match s with
  | EmptyString => if after_us then None else Some acc
  | String c s' =>
      if is_digit c then int_loop (10 * acc + digit_val c) false s'
      else if Ascii.eqb c "_" && negb after_us then int_loop acc true s'
      else None
  end.

Definition int_body (s : string) : option Z :=
  match s with
  | String c _ => if is_digit c then int_loop 0 false s else None
  | EmptyString => None
  end.

(** [int(s)] for a string: surrounding whitespace and one sign are accepted;
    [None] stands for the [ValueError] raised on anything else. *)
Definition int_of_str (s : string) : option Z :=
  match strip s with
  | String "+" r => int_body r
  | String "-" r => option_map Z.opp (int_body r)
  | t => int_body t
  end.

(** [int(x)] for a finite float: truncation toward zero. *)
Definition int_of_float (x : Q) : Z := Z.quot (Qnum x) (Z.pos (Qden x)).

(** [x >= y] and [x <= y] on finite floats. *)
Definition ge (x y : Q) : bool := Qle_bool y x.
Definition le (x y : Q) : bool := Qle_bool x y.

End Py.

(** A computation that may raise: [Raises] stands for any exception that
    leaves the expression, to be caught by the nearest enclosing [except]. *)
Inductive pyres (A : Type) : Type :=
| Returns (a : A)
| Raises.
Arguments Returns {A} a.
Arguments Raises {A}.

#[export] Instance pyres_ret : MRet pyres := fun A a => Returns a.
#[export] Instance pyres_fmap : FMap pyres := fun A B f m =>
  match m with
  | Returns a => Returns (f a)
  | Raises => Raises
  end.
#[export] Instance pyres_bind : MBind pyres := fun A B f m =>
  match m with
  | Returns a => f a
  | Raises => Raises
  end.

(** [try: e except Exception: d] *)
Definition try_except {A : Type} (e : pyres A) (d : A) : A :=
  match e with
  | Returns a => a
  | Raises => d
  end.

(** A raising lookup: [None] becomes the exception ([KeyError],
    [IndexError], [ValueError]). *)
Definition raise_if_none {A : Type} (o : option A) : pyres A :=
  match o with
  | Some a => Returns a
  | None => Raises
  end.

(* ===================================================================== *)
(** ** models/argo.py *)
(* ===================================================================== *)

(** A [datetime] by its calendar fields (all values are UTC). *)
Record datetime : Type := mk_datetime {
  year : Z; month : Z; day : Z; hour : Z; minute : Z; second : Z
}.

Module FloatMetadata.
Record t : Type := mk {
  float_id : Z;
  wmo_number : string;
  status : option string;
  float_type : option string;
  data_centre : string;
  project_name : option string;
  operating_institution : option string;
  pi_name : option string;
  platform_type : option string;
  platform_maker : option string;
  float_serial_no : option string;
  launch_date : option datetime;
  launch_lat : option Q;
  launch_lon : option Q;
  start_mission_date : option datetime;
  end_mission_date : option datetime
}.
End FloatMetadata.

Module FloatStatus.
Record t : Type := mk {
  float_id : Z;
  latitude : option Q;
  longitude : option Q;
  cycle_number : option Z;
  battery_percent : option Z;
  last_update : option datetime;
  last_depth : option Q;
  last_temp : option Q;
  last_salinity : option Q
}.
End FloatStatus.

(* ===================================================================== *)
(** ** The decoded NetCDF dataset (what [xr.open_dataset] hands over) *)
(* ===================================================================== *)

(** One array element as the code's [isinstance] tests see it.  Text in the
    files is ASCII, so [bytes.decode] is the identity on the payload.  A
    [datetime64] is given by its offset from 1970-01-01T00:00:00 in seconds. *)
Inductive ncval : Type :=
| NBytes (b : string)
| NStr (s : string)
| NFloat (x : Q)
| NNaN
| NInt (n : Z)
| NDatetime (secs : Q)
| NNaT.

(** A variable: its shape and its values in row-major ([flatten]) order. *)
Record ncvar : Type := mk_ncvar {
  shape : list nat;
  data : list ncval
}.

Record Dataset : Type := mk_dataset {
  sizes : gmap string nat;
  variables : gmap string ncvar
}.

(** [ds[name].values], flattened; [None] where the variable is missing
    (the [KeyError] of [ds[name]]). *)
Definition flat_values (ds : Dataset) (name : string) : option (list ncval) :=
  data <$> variables ds !! name.

(** [arr.item()]: the single element of a size-1 array; [None] is the
    [ValueError] numpy raises otherwise. *)
Definition item (v : ncvar) : option ncval :=
  match data v with
  | [x] => Some x
  | _ => None
  end.

(* ===================================================================== *)
(** ** utils/helper.py *)
(* ===================================================================== *)

Module Helper.

(** The list comprehension that decodes PARAMETER and SENSOR: bytes with a
    non-blank payload are decoded, stripped and lower-cased; non-empty [str]
    elements are lower-cased; everything else is dropped. *)
Definition decode_names (xs : list ncval) : list string :=
  omap (fun p =>
          match p with
          | NBytes b => if Py.truthy b && Py.truthy (Py.strip b)
                        then Some (Py.lower (Py.strip b)) else None
          | NStr s => if Py.truthy s then Some (Py.lower s) else None
          | _ => None
          end) xs.

Definition extract_params (ds : Dataset) : list string :=
  match variables ds !! "PARAMETER" with
  | Some v => decode_names (data v)
  | None => []
  end.

Definition extract_sensors (ds : Dataset) : list string :=
  match variables ds !! "SENSOR" with
  | Some v => decode_names (data v)
  | None => []
  end.

(** PLATFORM_FAMILY: first element of the array, if it is bytes. *)
Definition extract_platform_family (ds : Dataset) : string :=
  match variables ds !! "PLATFORM_FAMILY" with
  | Some v =>
      match data v with
      | NBytes b :: _ => Py.upper (Py.strip b)
      | _ => EmptyString
      end
  | None => EmptyString
  end.

Definition has_oxygen (params : list string) : bool :=
  existsb (fun p => Py.mem p params) ["doxy"; "doxy2"; "doxy3"].

Definition has_optode (sensors : list string) : bool :=
  existsb (fun s => Py.contains "opto" s) sensors.

Definition has_chla (params : list string) : bool :=
  Py.mem "chla" params || Py.contains "chlorophyll" (Py.join " " params).

Definition has_backscatter (params : list string) : bool :=
  existsb (fun x => Py.mem x params)
          ["bbp470"; "bbp532"; "bbp700"; "beta_backscattering"].

Definition has_nitrate (params : list string) : bool :=
  existsb (fun x => Py.mem x params) ["nitrate"; "ntra"; "ntrate"].

Definition has_ph (params : list string) : bool :=
  Py.mem "ph_in_situ_total" params.

Definition has_cdom (params : list string) : bool :=
  Py.mem "cdom" params.

(** The platform families of the Deep Argo check. *)
Definition deep_families : list string :=
  ["DEEP"; "DEEP ARVOR"; "DEEP NINJA"; "DEEP APEX"].

(** [sum([b1, ..., bn])] on booleans. *)
Definition count_true (bs : list bool) : Z :=
  Z.of_nat (List.length (List.filter id bs)).

(** The rule cascade of [classify_float_type], on the decoded parameter and
    sensor names and the platform family. *)
Definition classify_rules
  (params sensors : list string) (platform_family : string) : string :=
  if Py.mem platform_family deep_families then "deep"
  else if has_oxygen params || has_optode sensors then
    if existsb id [has_chla params; has_backscatter params;
                   has_nitrate params; has_ph params; has_cdom params]
    then "biogeochemical"
    else "oxygen"
  else if 2 <=? count_true [has_chla params; has_backscatter params;
                            has_nitrate params; has_ph params]
  then "biogeochemical"
  else if has_chla params || has_backscatter params || has_nitrate params
          || has_ph params || has_cdom params
  then "biogeochemical"
  else if (3 <? Z.of_nat (List.length params))
          || existsb (fun s => Py.contains "bio" s) sensors
  then "biogeochemical"
  else "core".

(** [Helper.classify_float_type(ds)].  On ASCII text none of the decoding
    steps raises, so the ['unknown'] of the [except] branch is not reached. *)
Definition classify_float_type (ds : Dataset) : string :=
  classify_rules (extract_params ds) (extract_sensors ds)
                 (extract_platform_family ds).

Section Clock.
(** [(datetime.now(UTC) - t).days] for the instant the pipeline runs at. *)
Variable days_since : datetime -> Z.

(** [Helper.determine_float_status(ds, recent_profile_time)].  [.item()]
    on an END_MISSION_DATE that is not a single element raises, which the
    [except] turns into ['UNKNOWN']. *)
Definition determine_float_status
  (ds : Dataset) (recent_profile_time : option datetime) : string :=
  let by_activity :=
    match recent_profile_time with
    | Some t =>
        let days_since_last := days_since t in
        if days_since_last <? 45 then "ACTIVE"
        else if days_since_last <? 540 then "INACTIVE"
        else "DEAD"
    | None => "UNKNOWN"
    end in
  match variables ds !! "END_MISSION_DATE" with
  | Some v =>
      match item v with
      | None => "UNKNOWN"
      | Some (NBytes b) =>
          let end_date_str := Py.strip b in
          if Py.truthy end_date_str && negb (Py.isspace end_date_str)
          then "INACTIVE" else by_activity
      | Some _ => by_activity
      end
  | None => by_activity
  end.
End Clock.

(** The nested [lithium_percent(v)]. *)
Definition lithium_percent (v : Q) : Z :=
  if Py.ge v 14.0 then Z.min 100 (Py.int_of_float (90 + (v - 14.0) * 12))
  else if Py.ge v 13.0 then Py.int_of_float (75 + (v - 13.0) * 15)
  else if Py.ge v 12.0 then Py.int_of_float (55 + (v - 12.0) * 20)
  else if Py.ge v 11.6 then Py.int_of_float (40 + (v - 11.6) * 50)
  else if Py.ge v 11.0 then Py.int_of_float (15 + (v - 11.0) * 50)
  else if Py.ge v 10.8 then Py.int_of_float (5 + (v - 10.8) * 50)
  else 0.

(** The nested [deep_arvor_percent(v)]. *)
Definition deep_arvor_percent (v : Q) : Z := lithium_percent (v / 2).

Inductive chemistry_t : Type := lithium | alkaline.

(** Step 1 of [estimate_battery_percent]: chemistry from the launch year. *)
Definition detect_chemistry
  (platform : string) (metadata : option FloatMetadata.t) : chemistry_t :=
  match metadata with
  | Some m =>
      match FloatMetadata.launch_date m with
      | Some launch_date =>
          if String.eqb platform "APEX"
             && negb (year launch_date =? 0) && (year launch_date <=? 2010)
          then alkaline else lithium
      | None => lithium
      end
  | None => lithium
  end.

(** [Helper.estimate_battery_percent(platform_type, cycle_number,
    current_voltage, metadata)]. *)
Definition estimate_battery_percent
  (platform_type : string) (cycle_number : Z) (current_voltage : option Q)
  (metadata : option FloatMetadata.t) : option Z :=
  let platform := Py.strip (Py.upper platform_type) in
  let chemistry := detect_chemistry platform metadata in
  match current_voltage with
  | Some v =>
      match chemistry with
      | alkaline =>
          Some (Z.max 0 (Z.min 100 (Py.int_of_float (100 * (v - 10.5) / 5.0))))
      | lithium =>
          if Py.contains "DEEP ARVOR" platform
          then Some (deep_arvor_percent v)
          else Some (lithium_percent v)
      end
  | None =>
      let typical : Z :=
        if Py.mem platform ["APEX"; "NAVIS"; "SOLO-II"] then 280 else 220 in
      if 0 <? cycle_number
      then Some (Z.max 0 (Z.min 100
             (Py.int_of_float
                (100 * (1 - inject_Z cycle_number / inject_Z typical)))))
      else None
  end.

End Helper.

(* ===================================================================== *)
(** ** The lithium curve on binary64 floats *)
(* ===================================================================== *)

Module Binary64.
Import PrimFloat FloatOps SpecFloat.

(** [int(x)] of a double: truncation toward zero; [None] is the exception
    raised on an infinity or a NaN. *)
Definition int_of_float (x : float) : option Z :=
  match Prim2SF x with
  | S754_zero _ => Some 0
  | S754_finite negative m e =>
      let magnitude :=
        match e with
        | Z0 => Z.pos m
        | Z.pos p => Z.pos m * 2 ^ Z.pos p
        | Z.neg p => Z.pos m / 2 ^ Z.pos p
        end in
      Some (if negative then - magnitude else magnitude)
  | S754_infinity _ | S754_nan => None
  end.

(** [Helper.lithium_percent], every operation an IEEE 754 double
    operation as in CPython. *)
#[warnings="-inexact-float"]
Definition lithium_percent (v : float) : option Z :=
  if (14.0 <=? v)%float
  then Z.min 100 <$> int_of_float (90 + (v - 14.0) * 12)%float
  else if (13.0 <=? v)%float then int_of_float (75 + (v - 13.0) * 15)%float
  else if (12.0 <=? v)%float then int_of_float (55 + (v - 12.0) * 20)%float
  else if (11.6 <=? v)%float then int_of_float (40 + (v - 11.6) * 50)%float
  else if (11.0 <=? v)%float then int_of_float (15 + (v - 11.0) * 50)%float
  else if (10.8 <=? v)%float then int_of_float (5 + (v - 10.8) * 50)%float
  else Some 0.

(** The readings 11.59, 11.6, 11.99, 12.0 and 13.5 V as doubles. *)
#[warnings="-inexact-float"]
Definition v_11_59 : float := 11.59%float.
#[warnings="-inexact-float"]
Definition v_11_6 : float := 11.6%float.
#[warnings="-inexact-float"]
Definition v_11_99 : float := 11.99%float.
Definition v_12_0 : float := 12.0%float.
Definition v_13_5 : float := 13.5%float.

End Binary64.

(* ===================================================================== *)
(** ** workers/netcdf_processor/netcdf_aggregate_parser.py *)
(* ===================================================================== *)

Module AggregateParser.

Section Library.
(** Library functions the parser calls, taken as given:
    [str(x)] of a float, [float(s)] of text ([None]: [ValueError]),
    [datetime.strptime(s, fmt)] ([None]: [ValueError]) and the clock of
    [determine_float_status]. *)
Variable repr_float : Q -> string.
Variable float_of_text : string -> option Q.
Variable strptime : string -> string -> option datetime.
Variable days_since : datetime -> Z.

(** [extract_string(ds, var_name)].  [.item()] turns a [datetime64[ns]]
    into its integer count of nanoseconds and NaT into [None]. *)
Definition extract_string (ds : Dataset) (var_name : string)
  : pyres (option string) :=
  match variables ds !! var_name with
  | None => Returns None
  | Some v =>
      val ← raise_if_none (item v);
      Returns
        match val with
        | NBytes b => Some (Py.strip b)
        | NStr s => Some (Py.strip s)
        | NFloat x => if Qeq_bool x 0 then None else Some (repr_float x)
        | NNaN => Some "nan"
        | NInt n => if n =? 0 then None else Some (pretty n)
        | NDatetime secs =>
            let ns := Qfloor (secs * 1000000000) in
            if ns =? 0 then None else Some (pretty ns)
        | NNaT => None
        end
  end.

(** [parse_date(ds, var_name)] *)
Definition parse_date (ds : Dataset) (var_name : string)
  : pyres (option datetime) :=
  date_str ← extract_string ds var_name;
  Returns
    match date_str with
    | None => None
    | Some s =>
        if negb (Py.truthy s) || Py.isspace s then None
        else if (14 <=? String.length s)%nat
        then strptime (Py.take 14 s) "%Y%m%d%H%M%S"
        else if (8 <=? String.length s)%nat
        then strptime (Py.take 8 s) "%Y%m%d"
        else None
    end.

(** [x or d] for an optional string. *)
Definition or_default (x : option string) (d : string) : string :=
  match x with
  | Some s => if Py.truthy s then s else d
  | None => d
  end.

(** The guarded [float(ds[name].values)] of the launch position: any
    failure, and NaN, leave the coordinate unset. *)
Definition launch_coordinate (ds : Dataset) (name : string) : option Q :=
  match variables ds !! name with
  | Some v =>
      match item v with
      | Some (NFloat x) => Some x
      | Some (NInt n) => Some (inject_Z n)
      | Some (NBytes b) => float_of_text b
      | Some (NStr s) => float_of_text s
      | _ => None
      end
  | None => None
  end.

(** [int(extract_string(ds, "PLATFORM_NUMBER") or 0)] *)
Definition platform_number_int (x : option string) : pyres Z :=
  match x with
  | Some s => if Py.truthy s then raise_if_none (Py.int_of_str s)
              else Returns 0
  | None => Returns 0
  end.

(** The body of the [try] of [parse_metadata_file], on the opened dataset. *)
Definition build_metadata
  (ds : Dataset) (recent_profile_time : option datetime)
  : pyres FloatMetadata.t :=
  let launch_lat := launch_coordinate ds "LAUNCH_LATITUDE" in
  let launch_lon := launch_coordinate ds "LAUNCH_LONGITUDE" in
  platform_number ← extract_string ds "PLATFORM_NUMBER";
  float_id ← platform_number_int platform_number;
  data_centre ← extract_string ds "DATA_CENTRE";
  project_name ← extract_string ds "PROJECT_NAME";
  operating_institution ← extract_string ds "OPERATING_INSTITUTION";
  pi_name ← extract_string ds "PI_NAME";
  platform_type ← extract_string ds "PLATFORM_TYPE";
  platform_maker ← extract_string ds "PLATFORM_MAKER";
  float_serial_no ← extract_string ds "FLOAT_SERIAL_NO";
  launch_date ← parse_date ds "LAUNCH_DATE";
  start_mission_date ← parse_date ds "START_DATE";
  end_mission_date ← parse_date ds "END_MISSION_DATE";
  Returns
    {| FloatMetadata.float_id := float_id;
       FloatMetadata.wmo_number := or_default platform_number EmptyString;
       FloatMetadata.status :=
         Some (Helper.determine_float_status days_since ds recent_profile_time);
       FloatMetadata.float_type := Some (Helper.classify_float_type ds);
       FloatMetadata.data_centre := or_default data_centre EmptyString;
       FloatMetadata.project_name := project_name;
       FloatMetadata.operating_institution := operating_institution;
       FloatMetadata.pi_name := pi_name;
       FloatMetadata.platform_type := platform_type;
       FloatMetadata.platform_maker := platform_maker;
       FloatMetadata.float_serial_no := float_serial_no;
       FloatMetadata.launch_date := launch_date;
       FloatMetadata.launch_lat := launch_lat;
       FloatMetadata.launch_lon := launch_lon;
       FloatMetadata.start_mission_date := start_mission_date;
       FloatMetadata.end_mission_date := end_mission_date |}.

(** [parse_metadata_file(file_path, recent_profile_time)]; the file is given
    by the dataset [xr.open_dataset] yields, [None] when it cannot be
    opened.  Every exception ends in the [except] that returns [None]. *)
Definition parse_metadata_file
  (file : option Dataset) (recent_profile_time : option datetime)
  : option FloatMetadata.t :=
  match file with
  | Some ds =>
      try_except (Some <$> build_metadata ds recent_profile_time) None
  | None => None
  end.

End Library.
End AggregateParser.

(* ===================================================================== *)
(** ** workers/netcdf_processor/converter.py *)
(* ===================================================================== *)

Module ProfileRow.
(** One row dictionary of [ParquetConverter.convert]; a cell holds the
    value [get_value] returned, [None] for Python's [None]. *)
Record t : Type := mk {
  float_id : Z;
  cycle_number : option ncval;
  level : nat;
  profile_timestamp : option datetime;
  latitude : option ncval;
  longitude : option ncval;
  pressure : option ncval;
  temperature : option ncval;
  salinity : option ncval;
  position_qc : option ncval;
  pres_qc : option ncval;
  temp_qc : option ncval;
  psal_qc : option ncval;
  temperature_adj : option ncval;
  salinity_adj : option ncval;
  pressure_adj : option ncval;
  temp_adj_qc : option ncval;
  psal_adj_qc : option ncval;
  data_mode : option ncval;
  oxygen : option ncval;
  oxygen_qc : option ncval;
  chlorophyll : option ncval;
  chlorophyll_qc : option ncval;
  nitrate : option ncval;
  nitrate_qc : option ncval;
  year : option Z;
  month : option Z
}.
End ProfileRow.

Module ParquetConverter.

(** The type dispatch shared by [get_value] and [get_1d_value]: bytes are
    decoded and stripped, a NaN float becomes [None], every other value is
    passed on. *)
Definition decode_cell (val : ncval) : option ncval :=
  match val with
  | NBytes b => Some (NStr (Py.strip b))
  | NFloat x => Some (NFloat x)
  | NNaN => None
  | NInt n => Some (NInt n)
  | other => Some other
  end.

(** [get_1d_value(arr, i)]; an [IndexError] is caught and gives [None]. *)
Definition get_1d_value (arr : option (list ncval)) (i : nat) : option ncval :=
  a ← arr; val ← a !! i; decode_cell val.

Section Convert.
(** Library functions taken as given: [str(x)] of a float, [float(s)] of
    text, [datetime.fromtimestamp(ts, tz=utc)] ([None]: it raises), whether
    pyarrow accepts and writes the table, and the staging directory. *)
Variable repr_float : Q -> string.
Variable float_of_text : string -> option Q.
Variable fromtimestamp : Q -> option datetime.
Variable write_table : list ProfileRow.t -> bool.
Variable staging_path : string.

Section Opened.
Variable ds : Dataset.
Variable float_id : string.

Definition n_prof : nat := default 0%nat (sizes ds !! "N_PROF").
Definition n_levels : nat := default 0%nat (sizes ds !! "N_LEVELS").

(** The nested [get_2d_array(var_name)] *)
Definition get_2d_array (var_name : string) : option (list ncval) :=
  match variables ds !! var_name with
  | Some arr =>
      if decide (shape arr = [n_prof; n_levels]) then Some (data arr) else None
  | None => None
  end.

(** The nested [get_1d_array(var_name)] *)
Definition get_1d_array (var_name : string) : option (list ncval) :=
  match variables ds !! var_name with
  | Some arr =>
      if decide (shape arr = [n_prof]) then Some (data arr) else None
  | None => None
  end.

(** The nested [get_value(arr, i, j)]: [arr[i, j]] of an array of shape
    [(n_prof, n_levels)] is element [i * n_levels + j] of its values. *)
Definition get_value (arr : option (list ncval)) (i j : nat) : option ncval :=
  a ← arr; val ← a !! (i * n_levels + j)%nat; decode_cell val.

Definition pressures := get_2d_array "PRES".
Definition pres_qc := get_2d_array "PRES_QC".
Definition temps := get_2d_array "TEMP".
Definition temp_qc := get_2d_array "TEMP_QC".
Definition salts := get_2d_array "PSAL".
Definition salt_qc := get_2d_array "PSAL_QC".
Definition pres_adj := get_2d_array "PRES_ADJUSTED".
Definition temp_adj := get_2d_array "TEMP_ADJUSTED".
Definition salt_adj := get_2d_array "PSAL_ADJUSTED".
Definition temp_adj_qc := get_2d_array "TEMP_ADJUSTED_QC".
Definition salt_adj_qc := get_2d_array "PSAL_ADJUSTED_QC".
Definition data_mode := get_1d_array "DATA_MODE".
Definition pos_qc := get_1d_array "POSITION_QC".
Definition oxygen := get_2d_array "OXYGEN".
Definition oxygen_qc := get_2d_array "OXYGEN_QC".
Definition chlorophyll := get_2d_array "CHLOROPHYLL".
Definition chlorophyll_qc := get_2d_array "CHLOROPHYLL_QC".
Definition nitrate := get_2d_array "NITRATE".
Definition nitrate_qc := get_2d_array "NITRATE_QC".

(** What is computed once per profile, before the level loop. *)
Record profile_header : Type := mk_header {
  float_int : Z;
  cycle_num : option ncval;
  lat : option ncval;
  lon : option ncval;
  timestamp : option datetime;
  mode_char : option ncval;
  pos_qc_char : option ncval
}.

(** [int(float(float_str)) if float_str else int(float_id)] *)
Definition parse_float_int (raw_float_id : ncval) : pyres Z :=
  let of_text (float_str : string) : pyres Z :=
    if Py.truthy float_str
    then Py.int_of_float <$> raise_if_none (float_of_text float_str)
    else raise_if_none (Py.int_of_str float_id) in
  match raw_float_id with
  | NBytes b => of_text (Py.strip b)
  | NStr s => of_text (Py.strip s)
  | NInt n => of_text (Py.strip (pretty n))
  | NFloat x => of_text (Py.strip (repr_float x))
  | NNaN | NDatetime _ | NNaT => Raises
  end.

(** The guarded timestamp computation: any failure leaves it [None]. *)
Definition parse_timestamp (juldays : list ncval) (prof_idx : nat)
  : option datetime :=
  match juldays !! prof_idx with
  | Some (NDatetime secs) => fromtimestamp secs
  | _ => None
  end.

(** The five required arrays, read with [ds[name].values] ([KeyError] when
    one is missing) and indexed along their single axis. *)
Record required_arrays : Type := mk_required {
  float_ids : list ncval;
  cycles : list ncval;
  juldays : list ncval;
  lats : list ncval;
  lons : list ncval
}.

Definition read_required : pyres required_arrays :=
  a ← raise_if_none (flat_values ds "PLATFORM_NUMBER");
  b ← raise_if_none (flat_values ds "CYCLE_NUMBER");
  c ← raise_if_none (flat_values ds "JULD");
  d ← raise_if_none (flat_values ds "LATITUDE");
  e ← raise_if_none (flat_values ds "LONGITUDE");
  Returns (mk_required a b c d e).

Definition profile_head (req : required_arrays) (prof_idx : nat)
  : pyres profile_header :=
  raw_float_id ← raise_if_none (float_ids req !! prof_idx);
  fi ← parse_float_int raw_float_id;
  Returns
    {| float_int := fi;
       cycle_num := get_1d_value (Some (cycles req)) prof_idx;
       lat := get_1d_value (Some (lats req)) prof_idx;
       lon := get_1d_value (Some (lons req)) prof_idx;
       timestamp := parse_timestamp (juldays req) prof_idx;
       mode_char := get_1d_value data_mode prof_idx;
       pos_qc_char := get_1d_value pos_qc prof_idx |}.

(** The body of the level loop: [None] is the [continue] on a level whose
    pressure is [None]. *)
Definition level_row (h : profile_header) (prof_idx level_idx : nat)
  : option ProfileRow.t :=
  match get_value pressures prof_idx level_idx with
  | None => None
  | Some pres_val =>
      Some
        {| ProfileRow.float_id := float_int h;
           ProfileRow.cycle_number := cycle_num h;
           ProfileRow.level := level_idx;
           ProfileRow.profile_timestamp := timestamp h;
           ProfileRow.latitude := lat h;
           ProfileRow.longitude := lon h;
           ProfileRow.pressure := Some pres_val;
           ProfileRow.temperature := get_value temps prof_idx level_idx;
           ProfileRow.salinity := get_value salts prof_idx level_idx;
           ProfileRow.position_qc := pos_qc_char h;
           ProfileRow.pres_qc := get_value pres_qc prof_idx level_idx;
           ProfileRow.temp_qc := get_value temp_qc prof_idx level_idx;
           ProfileRow.psal_qc := get_value salt_qc prof_idx level_idx;
           ProfileRow.temperature_adj := get_value temp_adj prof_idx level_idx;
           ProfileRow.salinity_adj := get_value salt_adj prof_idx level_idx;
           ProfileRow.pressure_adj := get_value pres_adj prof_idx level_idx;
           ProfileRow.temp_adj_qc := get_value temp_adj_qc prof_idx level_idx;
           ProfileRow.psal_adj_qc := get_value salt_adj_qc prof_idx level_idx;
           ProfileRow.data_mode := mode_char h;
           ProfileRow.oxygen := get_value oxygen prof_idx level_idx;
           ProfileRow.oxygen_qc := get_value oxygen_qc prof_idx level_idx;
           ProfileRow.chlorophyll := get_value chlorophyll prof_idx level_idx;
           ProfileRow.chlorophyll_qc := get_value chlorophyll_qc prof_idx level_idx;
           ProfileRow.nitrate := get_value nitrate prof_idx level_idx;
           ProfileRow.nitrate_qc := get_value nitrate_qc prof_idx level_idx;
           ProfileRow.year := year <$> timestamp h;
           ProfileRow.month := month <$> timestamp h |}
  end.

(** The rows one profile appends: the level loop over [range(n_levels)]. *)
Definition profile_rows (h : profile_header) (prof_idx : nat) : list ProfileRow.t :=
  omap (level_row h prof_idx) (seq 0 n_levels).

(** The profile loop over a list of profile indices; an exception in one
    profile's header leaves the whole loop. *)
Fixpoint profiles_loop (req : required_arrays) (idxs : list nat)
  : pyres (list ProfileRow.t) :=
  match idxs with
  | [] => Returns []
  | prof_idx :: rest =>
      h ← profile_head req prof_idx;
      more ← profiles_loop req rest;
      Returns (profile_rows h prof_idx ++ more)%list
  end.

(** The list [rows] at the end of the two loops. *)
Definition collect_rows : pyres (list ProfileRow.t) :=
  req ← read_required;
  profiles_loop req (seq 0 n_prof).

End Opened.

(** [ParquetConverter.convert(prof_file, float_id)]: the path of the file
    written together with the rows of the table, [None] on every failure.
    The file is given by the dataset [xr.open_dataset] yields, [None] when
    it does not exist or cannot be opened. *)
Definition convert (prof_file : option Dataset) (float_id : string)
  : option (string * list ProfileRow.t) :=
  match prof_file with
  | None => None
  | Some ds =>
      if decide (n_prof ds = 0%nat ∨ n_levels ds = 0%nat) then None
      else
        match collect_rows ds float_id with
        | Raises => None
        | Returns [] => None
        | Returns rows =>
            if write_table rows
            then Some ((staging_path ++ "/" ++ float_id
                          ++ "_profiles.parquet")%string, rows)
            else None
        end
  end.

End Convert.
End ParquetConverter.

(* ===================================================================== *)
(** ** workers/argo_sync/sync.py *)
(* ===================================================================== *)

Module ArgoSyncWorker.

(** The manifest dictionary [{"downloaded": [...], "failed": [...]}]. *)
Record Manifest : Type := mk_manifest {
  downloaded : list string;
  failed : list string
}.

(** What one streamed GET of a per-float file ends in: the body written to
    the staging directory, an [HTTPStatusError] with its status code, or any
    other exception (transport, timeout, write error). *)
Inductive FileOutcome : Type :=
| Downloaded
| HttpStatus (code : Z)
| OtherError.

(** The remote store and the local staging directory as the worker meets
    them in one run.  An index is given by the float ids
    [_parse_index_for_floats] reads from it, [Raises] when its download
    fails; [request float_id filename] is the outcome of that GET;
    [mkdir_ok float_id] tells whether the float's directory can be made. *)
Record Remote : Type := mk_remote {
  index_global_meta : pyres (gset string);
  index_this_week_prof : pyres (gset string);
  request : string -> string -> FileOutcome;
  mkdir_ok : string -> bool
}.

Record Summary : Type := mk_summary {
  total : nat;
  n_downloaded : nat;
  new : nat;
  n_failed : nat
}.

(** The outcome of [syncAll] / [update]: the returned counts, the manifest
    file afterwards ([None]: no file) and the floats a download task was
    started for, in the order of the task list. *)
Record SyncRun : Type := mk_run {
  summary : Summary;
  manifest_file : option Manifest;
  synced : list string
}.

(** [_load_manifest()] *)
Definition _load_manifest (file : option Manifest) : Manifest :=
  match file with
  | Some m => m
  | None => {| downloaded := []; failed := [] |}
  end.

(** The four file names of [sync]. *)
Definition files (float_id : string) : list string :=
  [ (float_id ++ "_meta.nc")%string;
    (float_id ++ "_tech.nc")%string;
    (float_id ++ "_prof.nc")%string;
    (float_id ++ "_Rtraj.nc")%string ].

(** The nested [_download_file]: both [except] clauses return [False]; a
    404 is only logged at a lower severity. *)
Definition _download_file (o : FileOutcome) : bool :=
  match o with
  | Downloaded => true
  | HttpStatus code => if code =? 404 then false else false
  | OtherError => false
  end.

(** [sync(float_id)]: creating the staging directory is outside every
    [try]; the four downloads are gathered and counted. *)
Definition sync (w : Remote) (float_id : string) : pyres bool :=
  if mkdir_ok w float_id then
    let results := map (fun f => _download_file (request w float_id f))
                       (files float_id) in
    let success_count := Helper.count_true results in
    Returns (1 <=? success_count)
  else Raises.

(** The nested [download_with_limit]: an exception of [sync] counts as a
    failed float. *)
Definition download_with_limit (w : Remote) (float_id : string)
  : string * bool :=
  (float_id, try_except (sync w float_id) false).

(** The loop over [zip(float_ids_list, results)]. *)
Fixpoint split_results (results : list (string * bool))
  : list string * list string :=
  match results with
  | [] => ([], [])
  | (fid, success) :: rest =>
      let '(successful, failed) := split_results rest in
      if success then (fid :: successful, failed)
      else (successful, fid :: failed)
  end.

(** The gathered tasks of [_sync_floats_concurrent]: one
    [download_with_limit] per element of [list(float_ids)], the set in some
    fixed order.  The outcome of each request is fixed by [w], so the
    interleaving of the tasks does not show in the results. *)
Definition gather_downloads (w : Remote) (float_ids : gset string)
  : list (string * bool) :=
  let float_ids_list := elements float_ids in
  map (download_with_limit w) float_ids_list.

(** [_sync_floats_concurrent(float_ids)] *)
Definition _sync_floats_concurrent (w : Remote) (float_ids : gset string)
  : list string * list string :=
  if decide (float_ids = ∅) then ([], [])
  else split_results (gather_downloads w float_ids).

(** [xs.remove(x)]: drops the first occurrence. *)
Fixpoint remove_first (x : string) (xs : list string) : list string :=
  match xs with
  | [] => []
  | y :: ys => if decide (x = y) then ys else y :: remove_first x ys
  end.

(** One turn of [for float_id in successful_floats]. *)
Definition mark_successful (m : Manifest) (float_id : string) : Manifest :=
  let d := (downloaded m ++ [float_id])%list in
  if bool_decide (float_id ∈ failed m)
  then {| downloaded := d; failed := remove_first float_id (failed m) |}
  else {| downloaded := d; failed := failed m |}.

(** One turn of [for float_id in failed_floats]. *)
Definition mark_failed (m : Manifest) (float_id : string) : Manifest :=
  if bool_decide (float_id ∉ failed m)
  then {| downloaded := downloaded m;
          failed := (failed m ++ [float_id])%list |}
  else m.

(** Step 4, "Update manifest", of [syncAll] and [update]. *)
Definition update_manifest
  (m : Manifest) (successful_floats failed_floats : list string) : Manifest :=
  foldl mark_failed (foldl mark_successful m successful_floats) failed_floats.

(** Steps 2 to 4 and the return value, shared word for word by [syncAll]
    and [update]. *)
Definition sync_pending
  (w : Remote) (file : option Manifest) (index_floats : gset string)
  : SyncRun :=
  let manifest := _load_manifest file in
  let already_downloaded : gset string := list_to_set (downloaded manifest) in
  let pending_floats := index_floats ∖ already_downloaded in
  if decide (pending_floats = ∅) then
    {| summary := {| total := size index_floats;
                     n_downloaded := size already_downloaded;
                     new := 0; n_failed := 0 |};
       manifest_file := file;
       synced := [] |}
  else
    let '(successful_floats, failed_floats) :=
      _sync_floats_concurrent w pending_floats in
    let manifest' := update_manifest manifest successful_floats failed_floats in
    {| summary := {| total := size index_floats;
                     n_downloaded := length (downloaded manifest');
                     new := length successful_floats;
                     n_failed := length failed_floats |};
       manifest_file := Some manifest';
       synced := (gather_downloads w pending_floats).*1 |}.

(** [syncAll()] *)
Definition syncAll (w : Remote) (file : option Manifest) : pyres SyncRun :=
  all_floats ← index_global_meta w;
  Returns (sync_pending w file all_floats).

(** [update()] *)
Definition update (w : Remote) (file : option Manifest) : pyres SyncRun :=
  weekly_floats ← index_this_week_prof w;
  if decide (weekly_floats = ∅) then
    Returns {| summary := {| total := 0; n_downloaded := 0;
                             new := 0; n_failed := 0 |};
               manifest_file := file;
               synced := [] |}
  else Returns (sync_pending w file weekly_floats).

(** The manifest files the worker itself can leave behind: none at first,
    then whatever a run of [syncAll] or [update] writes over one of them,
    against any remote store. *)
Inductive written_by_worker : option Manifest -> Prop :=
| no_manifest_yet : written_by_worker None
| after_syncAll (w : Remote) (file : option Manifest) (run : SyncRun) :
    written_by_worker file ->
    syncAll w file = Returns run ->
    written_by_worker (manifest_file run)
| after_update (w : Remote) (file : option Manifest) (run : SyncRun) :
    written_by_worker file ->
    update w file = Returns run ->
    written_by_worker (manifest_file run).

End ArgoSyncWorker.

(* ===================================================================== *)
(** ** db/pg.py *)
(* ===================================================================== *)

(** The exception one run of the pipeline reports in its result or in the
    processing log ([str(e)]): the three [ValueError]s of [main.py] and the
    failures of the calls it makes. *)
Inductive pipeline_error : Type :=
| DownloadFailed (float_id : string)
| ClientInitFailed
| ParsingFailed (error : string)
| NoMetadataOrStatus
| ValidationFailed
| InvalidFloatId
| UploadFailed
| ProcessingRaised.

Module PgClient.

(** A value bound to a column.  [SGeom lon lat] is
    [ST_GeomFromEWKT('SRID=4326;POINT(lon lat)')], the coordinates printed
    from the status as they are. *)
Inductive sqlval : Type :=
| SInt (n : Z)
| SText (s : string)
| SFloat (x : Q)
| STimestamp (t : datetime)
| SGeom (lon lat : option Q).

(** What goes into the JSON column [error_details]. *)
Inductive error_details_t : Type :=
| ErrorMessage (e : pipeline_error)
| ErrorCounts (download_failed process_failed : nat).

Record LogEntry : Type := mk_entry {
  operation : string;
  log_status : string;
  successful_float_ids : list Z;
  failed_float_ids : list Z;
  error_details : option error_details_t
}.

(** The three tables; a row maps column names to values, a column that is
    not in the map holds its default (NULL). *)
Record tables : Type := mk_tables {
  argo_float_metadata : gmap Z (gmap string sqlval);
  argo_float_status : gmap Z (gmap string sqlval);
  processing_log : list LogEntry
}.

(** The connection with autocommit off: the state the open transaction
    sees, and the state of the last commit. *)
Record conn : Type := mk_conn {
  current : tables;
  committed : tables
}.

Definition commit (c : conn) : conn :=
  {| current := current c; committed := current c |}.

Definition rollback (c : conn) : conn :=
  {| current := committed c; committed := committed c |}.

(** One entry of [model_dump(exclude_none=True)]. *)
Definition dump_field {A : Type} (name : string) (to_sql : A -> sqlval)
  (x : option A) : list (string * sqlval) :=
  match x with
  | Some a => [(name, to_sql a)]
  | None => []
  end.

(** [metadata.model_dump(exclude_none=True)] *)
Definition dump_metadata (m : FloatMetadata.t) : list (string * sqlval) :=
  ([("float_id", SInt (FloatMetadata.float_id m));
    ("wmo_number", SText (FloatMetadata.wmo_number m))]
   ++ dump_field "status" SText (FloatMetadata.status m)
   ++ dump_field "float_type" SText (FloatMetadata.float_type m)
   ++ [("data_centre", SText (FloatMetadata.data_centre m))]
   ++ dump_field "project_name" SText (FloatMetadata.project_name m)
   ++ dump_field "operating_institution" SText
        (FloatMetadata.operating_institution m)
   ++ dump_field "pi_name" SText (FloatMetadata.pi_name m)
   ++ dump_field "platform_type" SText (FloatMetadata.platform_type m)
   ++ dump_field "platform_maker" SText (FloatMetadata.platform_maker m)
   ++ dump_field "float_serial_no" SText (FloatMetadata.float_serial_no m)
   ++ dump_field "launch_date" STimestamp (FloatMetadata.launch_date m)
   ++ dump_field "launch_lat" SFloat (FloatMetadata.launch_lat m)
   ++ dump_field "launch_lon" SFloat (FloatMetadata.launch_lon m)
   ++ dump_field "start_mission_date" STimestamp
        (FloatMetadata.start_mission_date m)
   ++ dump_field "end_mission_date" STimestamp
        (FloatMetadata.end_mission_date m))%list.

(** [status.model_dump(exclude_none=True)] *)
Definition dump_status (s : FloatStatus.t) : list (string * sqlval) :=
  ([("float_id", SInt (FloatStatus.float_id s))]
   ++ dump_field "latitude" SFloat (FloatStatus.latitude s)
   ++ dump_field "longitude" SFloat (FloatStatus.longitude s)
   ++ dump_field "cycle_number" SInt (FloatStatus.cycle_number s)
   ++ dump_field "battery_percent" SInt (FloatStatus.battery_percent s)
   ++ dump_field "last_update" STimestamp (FloatStatus.last_update s)
   ++ dump_field "last_depth" SFloat (FloatStatus.last_depth s)
   ++ dump_field "last_temp" SFloat (FloatStatus.last_temp s)
   ++ dump_field "last_salinity" SFloat (FloatStatus.last_salinity s))%list.

(** [d.pop(key, None)] on a dictionary kept as an association list. *)
Definition pop (key : string) (d : list (string * sqlval))
  : list (string * sqlval) :=
  List.filter (fun kv => negb (String.eqb (fst kv) key)) d.

(** [metadata_data]: the dump with [updated_at] added. *)
Definition metadata_data (now : datetime) (m : FloatMetadata.t)
  : list (string * sqlval) :=
  (dump_metadata m ++ [("updated_at", STimestamp now)])%list.

(** [status_data]: the dump without latitude and longitude, with [location]
    and [updated_at] added. *)
Definition status_data (now : datetime) (s : FloatStatus.t)
  : list (string * sqlval) :=
  (pop "longitude" (pop "latitude" (dump_status s))
   ++ [("location", SGeom (FloatStatus.longitude s) (FloatStatus.latitude s));
       ("updated_at", STimestamp now)])%list.

(** The [SET col = EXCLUDED.col] list: every dumped column but the key. *)
Definition update_set (cols : list (string * sqlval))
  : list (string * sqlval) :=
  List.filter (fun kv => negb (String.eqb (fst kv) "float_id")) cols.

(** [INSERT INTO t (cols) VALUES (vals) ON CONFLICT (float_id) DO UPDATE
    SET col = EXCLUDED.col, ...] for the row keyed [id]: a new row holds
    the given columns; on conflict the columns of the SET list take the new
    values and every other column keeps what it had. *)
Definition insert_on_conflict_update
  (id : Z) (cols : list (string * sqlval))
  (t : gmap Z (gmap string sqlval)) : gmap Z (gmap string sqlval) :=
  match t !! id with
  | None => <[id := list_to_map cols]> t
  | Some old => <[id := list_to_map (update_set cols) ∪ old]> t
  end.

(** What a table holds in column [col] of the row keyed [id]; [None] when
    there is no such row or the column holds NULL. *)
Definition stored (t : gmap Z (gmap string sqlval)) (id : Z) (col : string)
  : option sqlval :=
  row ← t !! id; row !! col.

(** [batch_upload_data(metadata, status, float_id)].  [accepted] tells
    whether the server executes the statement; if not, [cur.execute]
    raises, the transaction is rolled back and [False] is returned.  The
    CTE writes both tables in one statement. *)
Definition batch_upload_data
  (accepted : bool) (now : datetime)
  (metadata : FloatMetadata.t) (status : FloatStatus.t) (c : conn)
  : bool * conn :=
  if accepted then
    let t := current c in
    (true,
     {| current :=
          {| argo_float_metadata :=
               insert_on_conflict_update (FloatMetadata.float_id metadata)
                 (metadata_data now metadata) (argo_float_metadata t);
             argo_float_status :=
               insert_on_conflict_update (FloatStatus.float_id status)
                 (status_data now status) (argo_float_status t);
             processing_log := processing_log t |};
        committed := committed c |})
  else (false, rollback c).

(** [log_processing(...)]: one row appended when the server accepts the
    insert; a failure is logged and swallowed. *)
Definition log_processing
  (accepted : bool) (entry : LogEntry) (c : conn) : bool * conn :=
  if accepted then
    let t := current c in
    (true,
     {| current :=
          {| argo_float_metadata := argo_float_metadata t;
             argo_float_status := argo_float_status t;
             processing_log := (processing_log t ++ [entry])%list |};
        committed := committed c |})
  else (false, c).

End PgClient.

(* ===================================================================== *)
(** ** main.py *)
(* ===================================================================== *)

Module Main.

(** The status dictionary [get_profile_stats] builds. *)
Record StatusSummary : Type := mk_status_summary {
  float_id : string;
  latitude : option Q;
  longitude : option Q;
  cycle_number : option Z;
  profile_time : option datetime;
  last_depth : option Q;
  last_temp : option Q;
  last_salinity : option Q;
  battery_percent : option Z
}.

(** [FloatStatus.model_validate(d)]: the float id, a string in the
    dictionary, is coerced to an integer ([None]: [ValidationError]);
    [profile_time] is the alias of [last_update]. *)
Definition model_validate (d : StatusSummary) : option FloatStatus.t :=
  match Py.int_of_str (float_id d) with
  | Some n =>
      Some {| FloatStatus.float_id := n;
              FloatStatus.latitude := latitude d;
              FloatStatus.longitude := longitude d;
              FloatStatus.cycle_number := cycle_number d;
              FloatStatus.battery_percent := battery_percent d;
              FloatStatus.last_update := profile_time d;
              FloatStatus.last_depth := last_depth d;
              FloatStatus.last_temp := last_temp d;
              FloatStatus.last_salinity := last_salinity d |}
  | None => None
  end.

(** What [parser.process_directory(fid)] gives: the error dictionary, the
    stats dictionary, or an exception. *)
Inductive ParseOutput : Type :=
| DirError (error : string)
| Stats (metadata : option FloatMetadata.t) (status : option StatusSummary)
        (parquet_path : option string)
| ProcessRaises.

(** Everything outside the pipeline that one run meets: the remote store;
    what the extractor gives for each staged float; whether the database,
    storage and parser clients can be created; whether the server accepts
    the combined upsert of a pair of records, and the insert into the
    processing log; whether the [n]-th commit of the run goes through
    ([false]: it raises); the clock. *)
Record World : Type := mk_world {
  remote : ArgoSyncWorker.Remote;
  process_directory : string -> ParseOutput;
  clients_ok : bool;
  execute_ok : FloatMetadata.t -> FloatStatus.t -> bool;
  log_ok : bool;
  commit_ok : nat -> bool;
  now : datetime
}.

(** The calls the processing phase makes on its collaborators. *)
Inductive event : Type :=
| EProcessDirectory (fid : string)
| EBatchUpload (float_id : Z)
| EUploadFile (fid : string) (local_path : string)
| ELogProcessing (log_status : string)
| ECommit
| EClose.

(** The returned [ProcessResult]; a key that is not set is [None]. *)
Record ProcessResult : Type := mk_result {
  success : bool;
  res_float_id : option string;
  res_total : option nat;
  res_downloaded : option nat;
  res_processed : option nat;
  res_download_failed : option nat;
  res_process_failed : option nat;
  res_error : option pipeline_error
}.

(** The local variables of the processing phase, the connection, the
    number of commits made and the calls made so far. *)
Record LoopState : Type := mk_state {
  processed_count : nat;
  process_failed : nat;
  successful_float_ids : list Z;
  failed_float_ids_list : list Z;
  db : PgClient.conn;
  commits : nat;
  trace : list event
}.

(** Record a call. *)
Definition emit (e : event) (st : LoopState) : LoopState :=
  {| processed_count := processed_count st;
     process_failed := process_failed st;
     successful_float_ids := successful_float_ids st;
     failed_float_ids_list := failed_float_ids_list st;
     db := db st; commits := commits st;
     trace := (trace st ++ [e])%list |}.

(** Carry on with the connection in state [c]. *)
Definition with_db (c : PgClient.conn) (st : LoopState) : LoopState :=
  {| processed_count := processed_count st;
     process_failed := process_failed st;
     successful_float_ids := successful_float_ids st;
     failed_float_ids_list := failed_float_ids_list st;
     db := c; commits := commits st; trace := trace st |}.

(** [processed_count += 1] *)
Definition count_processed (st : LoopState) : LoopState :=
  {| processed_count := S (processed_count st);
     process_failed := process_failed st;
     successful_float_ids := successful_float_ids st;
     failed_float_ids_list := failed_float_ids_list st;
     db := db st; commits := commits st; trace := trace st |}.

(** [successful_float_ids.append(n)] *)
Definition track_success (n : Z) (st : LoopState) : LoopState :=
  {| processed_count := processed_count st;
     process_failed := process_failed st;
     successful_float_ids := (successful_float_ids st ++ [n])%list;
     failed_float_ids_list := failed_float_ids_list st;
     db := db st; commits := commits st; trace := trace st |}.

(** The bookkeeping of the [except] clause. *)
Definition track_failure (fid : string) (st : LoopState) : LoopState :=
  {| processed_count := processed_count st;
     process_failed := S (process_failed st);
     successful_float_ids := successful_float_ids st;
     failed_float_ids_list :=
       if Py.isdigit fid
       then (failed_float_ids_list st ++ option_list (Py.int_of_str fid))%list
       else failed_float_ids_list st;
     db := db st; commits := commits st; trace := trace st |}.

(** How the [try] block of one iteration ends. *)
Inductive body_result : Type :=
| Skipped (st : LoopState)
| Done (st : LoopState)
| Failed (e : pipeline_error) (st : LoopState).

Section Run.
Variable w : World.

(** The [try] block of the loop body for one float. *)
Definition process_float (st : LoopState) (fid : string) : body_result :=
  let st := emit (EProcessDirectory fid) st in
  match process_directory w fid with
  | ProcessRaises => Failed ProcessingRaised st
  | DirError error => Failed (ParsingFailed error) st
  | Stats None _ _ | Stats _ None _ => Failed NoMetadataOrStatus st
  | Stats (Some metadata) (Some status) parquet_path =>
      match model_validate status with
      | None => Failed ValidationFailed st
      | Some status_model =>
          if bool_decide (FloatStatus.latitude status_model = None
                          ∨ FloatStatus.longitude status_model = None)
          then Skipped (count_processed st)
          else
            match Py.int_of_str fid with
            | None => Failed InvalidFloatId st
            | Some n =>
                let st := emit (EBatchUpload n) st in
                let '(upload_success, c) :=
                  PgClient.batch_upload_data
                    (execute_ok w metadata status_model) (now w)
                    metadata status_model (db st) in
                let st := with_db c st in
                if upload_success then
                  let st :=
                    match parquet_path with
                    | Some p => if Py.truthy p then emit (EUploadFile fid p) st
                                else st
                    | None => st
                    end in
                  Done (count_processed (track_success n st))
                else Failed UploadFailed st
            end
      end
  end.

(** Where control goes after one step. *)
Inductive flow : Type :=
| Next (st : LoopState)
| Return (r : ProcessResult) (st : LoopState)
| Raise (st : LoopState).

(** [db.conn.commit()] *)
Definition do_commit (st : LoopState) : flow :=
  if commit_ok w (commits st) then
    Next (emit ECommit
            {| processed_count := processed_count st;
               process_failed := process_failed st;
               successful_float_ids := successful_float_ids st;
               failed_float_ids_list := failed_float_ids_list st;
               db := PgClient.commit (db st);
               commits := S (commits st); trace := trace st |})
  else Raise st.

(** [db.log_processing(...)] *)
Definition do_log (entry : PgClient.LogEntry) (st : LoopState) : LoopState :=
  let st := emit (ELogProcessing (PgClient.log_status entry)) st in
  with_db (snd (PgClient.log_processing (log_ok w) entry (db st))) st.

(** The commit of every tenth float at the end of the loop body. *)
Definition batch_commit (batch : bool) (st : LoopState) : flow :=
  if batch && ((processed_count st + process_failed st) mod 10 =? 0)%nat
  then do_commit st
  else Next st.

(** One iteration of [for fid in float_ids_to_process]; [batch] is
    [sync_all or update]. *)
Definition loop_body (operation : string) (batch : bool)
  (arg_float_id : option string) (st : LoopState) (fid : string) : flow :=
  match process_float st fid with
  | Skipped st => Next st
  | Done st => batch_commit batch st
  | Failed e st =>
      let st := track_failure fid st in
      if negb batch then
        let st :=
          do_log {| PgClient.operation := operation;
                    PgClient.log_status := "FAILED";
                    PgClient.successful_float_ids := [];
                    PgClient.failed_float_ids :=
                      if Py.isdigit fid then option_list (Py.int_of_str fid)
                      else [];
                    PgClient.error_details :=
                      Some (PgClient.ErrorMessage e) |} st in
        match do_commit st with
        | Next st =>
            Return {| success := false; res_float_id := arg_float_id;
                      res_total := None; res_downloaded := None;
                      res_processed := None;
                      res_download_failed := Some 0%nat;
                      res_process_failed := Some 1%nat;
                      res_error := Some e |} st
        | other => other
        end
      else batch_commit batch st
  end.

Fixpoint run_loop (operation : string) (batch : bool)
  (arg_float_id : option string) (st : LoopState)
  (float_ids_to_process : list string) : flow :=
  match float_ids_to_process with
  | [] => Next st
  | fid :: rest =>
      match loop_body operation batch arg_float_id st fid with
      | Next st => run_loop operation batch arg_float_id st rest
      | other => other
      end
  end.

(** [float_id] is set and not empty. *)
Definition given (float_id : option string) : bool :=
  match float_id with
  | Some s => Py.truthy s
  | None => false
  end.

(** How the download phase ends: an early [return], or the work list
    with [total_floats] and [download_failed]. *)
Inductive download_result : Type :=
| DownloadReturn (r : ProcessResult)
| Proceed (float_ids_to_process : list string)
          (total_floats download_failed : nat).

(** Phase 1 of [sync]: the result and the manifest file afterwards. *)
Definition download_phase
  (arg_float_id : option string) (sync_all update skip_download : bool)
  (file : option ArgoSyncWorker.Manifest)
  : pyres (download_result * option ArgoSyncWorker.Manifest) :=
  if sync_all then
    if negb skip_download then
      sync_result ← ArgoSyncWorker.syncAll (remote w) file;
      let file := ArgoSyncWorker.manifest_file sync_result in
      let manifest := ArgoSyncWorker._load_manifest file in
      Returns
        (Proceed (ArgoSyncWorker.downloaded manifest)
           (ArgoSyncWorker.total (ArgoSyncWorker.summary sync_result))
           (ArgoSyncWorker.n_failed (ArgoSyncWorker.summary sync_result)),
         file)
    else
      let manifest := ArgoSyncWorker._load_manifest file in
      Returns
        (Proceed (ArgoSyncWorker.downloaded manifest)
           (length (ArgoSyncWorker.downloaded manifest)) 0%nat,
         file)
  else if update then
    sync_result ← ArgoSyncWorker.update (remote w) file;
    let file := ArgoSyncWorker.manifest_file sync_result in
    let manifest := ArgoSyncWorker._load_manifest file in
    Returns
      (Proceed (ArgoSyncWorker.downloaded manifest)
         (ArgoSyncWorker.total (ArgoSyncWorker.summary sync_result))
         (ArgoSyncWorker.n_failed (ArgoSyncWorker.summary sync_result)),
       file)
  else
    match arg_float_id with
    | None => Raises
    | Some fid =>
        if negb skip_download then
          download_success ← ArgoSyncWorker.sync (remote w) fid;
          if download_success : bool
          then Returns (Proceed [fid] 1%nat 0%nat, file)
          else
            Returns
              (DownloadReturn
                 {| success := false; res_float_id := arg_float_id;
                    res_total := None; res_downloaded := None;
                    res_processed := None;
                    res_download_failed := Some 1%nat;
                    res_process_failed := Some 0%nat;
                    res_error := Some (DownloadFailed fid) |},
               file)
        else Returns (Proceed [fid] 1%nat 0%nat, file)
    end.

(** What one call of [sync] leaves behind: the returned result ([Raises]
    when an exception leaves the call), the manifest file, and the state of
    the processing phase when it was entered. *)
Record Outcome : Type := mk_outcome {
  result : pyres ProcessResult;
  manifest_after : option ArgoSyncWorker.Manifest;
  final : option LoopState
}.

(** The [finally] clause. *)
Definition close (st : LoopState) : option LoopState :=
  Some (emit EClose st).

(** Phase 2 of [sync], entered with a non-empty work list and the
    clients created. *)
Definition process_phase
  (arg_float_id : option string) (sync_all update : bool)
  (float_ids_to_process : list string) (total_floats download_failed : nat)
  (stored : PgClient.tables) : pyres ProcessResult * option LoopState :=
  let operation :=
    if sync_all then "SYNC_ALL"
    else if update then "WEEKLY_UPDATE" else "SYNC" in
  let batch := sync_all || update in
  let st0 :=
    {| processed_count := 0; process_failed := 0;
       successful_float_ids := []; failed_float_ids_list := [];
       db := {| PgClient.current := stored; PgClient.committed := stored |};
       commits := 0; trace := [] |} in
  match run_loop operation batch arg_float_id st0 float_ids_to_process with
  | Return r st => (Returns r, close st)
  | Raise st => (Raises, close st)
  | Next st =>
      let total_failed := (download_failed + process_failed st)%nat in
      let status := if (total_failed =? 0)%nat then "SUCCESS" else "FAILED" in
      let st :=
        do_log {| PgClient.operation := operation;
                  PgClient.log_status := status;
                  PgClient.successful_float_ids := successful_float_ids st;
                  PgClient.failed_float_ids := failed_float_ids_list st;
                  PgClient.error_details :=
                    if (0 <? total_failed)%nat
                    then Some (PgClient.ErrorCounts download_failed
                                 (process_failed st))
                    else None |} st in
      match do_commit st with
      | Next st =>
          if batch then
            (Returns
               {| success := (0 <? processed_count st)%nat
                             || (total_failed =? 0)%nat;
                  res_float_id := None;
                  res_total := Some total_floats;
                  res_downloaded := Some (length float_ids_to_process);
                  res_processed := Some (processed_count st);
                  res_download_failed := Some download_failed;
                  res_process_failed := Some (process_failed st);
                  res_error := None |},
             close st)
          else
            (Returns
               {| success := true; res_float_id := arg_float_id;
                  res_total := None; res_downloaded := None;
                  res_processed := None; res_download_failed := None;
                  res_process_failed := None; res_error := None |},
             close st)
      | Return _ st | Raise st => (Raises, close st)
      end
  end.

(** [sync(float_id, sync_all, update, skip_download)], run against the
    manifest file [file] and the database contents [stored]. *)
Definition sync
  (arg_float_id : option string) (sync_all update skip_download : bool)
  (file : option ArgoSyncWorker.Manifest) (stored : PgClient.tables)
  : Outcome :=
  if negb (given arg_float_id) && negb sync_all && negb update then
    {| result := Raises; manifest_after := file; final := None |}
  else
    match download_phase arg_float_id sync_all update skip_download file with
    | Raises => {| result := Raises; manifest_after := file; final := None |}
    | Returns (DownloadReturn r, file) =>
        {| result := Returns r; manifest_after := file; final := None |}
    | Returns (Proceed float_ids_to_process total_floats download_failed,
               file) =>
        match float_ids_to_process with
        | [] =>
            {| result :=
                 Returns {| success := true; res_float_id := arg_float_id;
                            res_total := Some 0%nat; res_downloaded := None;
                            res_processed := Some 0%nat;
                            res_download_failed := Some download_failed;
                            res_process_failed := Some 0%nat;
                            res_error := None |};
               manifest_after := file; final := None |}
        | _ =>
            if clients_ok w then
              let '(r, st) :=
                process_phase arg_float_id sync_all update
                  float_ids_to_process total_floats download_failed stored in
              {| result := r; manifest_after := file; final := st |}
            else
              {| result :=
                   Returns {| success := false; res_float_id := arg_float_id;
                              res_total := None; res_downloaded := None;
                              res_processed := None;
                              res_download_failed := Some 0%nat;
                              res_process_failed :=
                                Some (length float_ids_to_process);
                              res_error := Some ClientInitFailed |};
                 manifest_after := file; final := None |}
        end
    end.

End Run.

(** A float the extractor gives metadata and a status for, the status
    validating with both coordinates, and whose id reads as an integer
    [n]: nothing stands between it and the upsert. *)
Definition persistable (w : World) (fid : string) (n : Z) : Prop :=
  exists metadata status parquet_path status_model,
    process_directory w fid = Stats (Some metadata) (Some status) parquet_path
    /\ model_validate status = Some status_model
    /\ FloatStatus.latitude status_model <> None
    /\ FloatStatus.longitude status_model <> None
    /\ Py.int_of_str fid = Some n.

(** The state the [try] block leaves, however it ends. *)
Definition body_state (r : body_result) : LoopState :=
  match r with
  | Skipped st | Done st | Failed _ st => st
  end.

(** The state a step leaves, wherever control goes. *)
Definition flow_state (f : flow) : LoopState :=
  match f with
  | Next st | Return _ st | Raise st => st
  end.

(** The floats [process_directory] was called for, in call order. *)
Definition processed_ids (tr : list event) : list string :=
  omap (fun e => match e with
                 | EProcessDirectory fid => Some fid
                 | _ => None
                 end) tr.

(** The float ids [batch_upload_data] was called for, in call order. *)
Definition upserted_ids (tr : list event) : list Z :=
  omap (fun e => match e with
                 | EBatchUpload n => Some n
                 | _ => None
                 end) tr.

End Main.

(* ===================================================================== *)
(** ** The classifier's rule cascade in the words of the design *)
(* ===================================================================== *)

Module Cascade.

(** The conditions of the rules, as propositions over the decoded parameter
    and sensor names. *)
Definition oxygen_channel (params : list string) : Prop :=
  In "doxy" params \/ In "doxy2" params \/ In "doxy3" params.

Definition optode_sensor (sensors : list string) : Prop :=
  exists s, In s sensors /\ Py.contains "opto" s = true.

Definition chlorophyll (params : list string) : Prop :=
  In "chla" params \/ Py.contains "chlorophyll" (Py.join " " params) = true.

Definition backscatter (params : list string) : Prop :=
  In "bbp470" params \/ In "bbp532" params \/ In "bbp700" params
  \/ In "beta_backscattering" params.

Definition nitrate (params : list string) : Prop :=
  In "nitrate" params \/ In "ntra" params \/ In "ntrate" params.

Definition pH (params : list string) : Prop := In "ph_in_situ_total" params.

Definition cdom (params : list string) : Prop := In "cdom" params.

(** Any of chlorophyll, backscatter, nitrate, pH, CDOM. *)
Definition any_bgc (params : list string) : Prop :=
  chlorophyll params \/ backscatter params \/ nitrate params
  \/ pH params \/ cdom params.

(** At least two of chlorophyll, backscatter, nitrate, pH. *)
Definition two_bgc (params : list string) : Prop :=
  (chlorophyll params /\ backscatter params)
  \/ (chlorophyll params /\ nitrate params)
  \/ (chlorophyll params /\ pH params)
  \/ (backscatter params /\ nitrate params)
  \/ (backscatter params /\ pH params)
  \/ (nitrate params /\ pH params).

(** More than three parameters recorded, or a sensor name containing
    "bio". *)
Definition enhanced (params sensors : list string) : Prop :=
  (3 < length params)%nat
  \/ exists s, In s sensors /\ Py.contains "bio" s = true.

(** Rule 1 as the design words it: the family contains "DEEP". *)
Definition family_contains_deep (platform_family : string) : Prop :=
  Py.contains "DEEP" platform_family = true.

(** Rule 1 as the code has it: the family is one of the listed names. *)
Definition deep_family (platform_family : string) : Prop :=
  In platform_family Helper.deep_families.

(** The six rules in order, first match wins: each rule carries the
    failure of the rules before it. *)
Inductive classifies (params sensors : list string) (pf : string)
  : string -> Prop :=
| rule_deep :
    deep_family pf -> classifies params sensors pf "deep"
| rule_oxygen_upgraded :
    ~ deep_family pf ->
    oxygen_channel params \/ optode_sensor sensors ->
    any_bgc params ->
    classifies params sensors pf "biogeochemical"
| rule_oxygen :
    ~ deep_family pf ->
    oxygen_channel params \/ optode_sensor sensors ->
    ~ any_bgc params ->
    classifies params sensors pf "oxygen"
| rule_two_bgc :
    ~ deep_family pf ->
    ~ (oxygen_channel params \/ optode_sensor sensors) ->
    two_bgc params ->
    classifies params sensors pf "biogeochemical"
| rule_one_bgc :
    ~ deep_family pf ->
    ~ (oxygen_channel params \/ optode_sensor sensors) ->
    ~ two_bgc params ->
    any_bgc params ->
    classifies params sensors pf "biogeochemical"
| rule_enhanced :
    ~ deep_family pf ->
    ~ (oxygen_channel params \/ optode_sensor sensors) ->
    ~ any_bgc params ->
    enhanced params sensors ->
    classifies params sensors pf "biogeochemical"
| rule_core :
    ~ deep_family pf ->
    ~ (oxygen_channel params \/ optode_sensor sensors) ->
    ~ any_bgc params ->
    ~ enhanced params sensors ->
    classifies params sensors pf "core".

End Cascade.

(* ===================================================================== *)
(** ** When a depth level holds a pressure, in the words of the design *)
(* ===================================================================== *)

Module Pressure.

(** The entry of the PRES array for a (profile, level) pair; [None] where
    the array is missing, has another shape than (N_PROF, N_LEVELS), or is
    too short. *)
Definition at_level (ds : Dataset) (prof_idx level_idx : nat) : option ncval :=
  a ← ParquetConverter.pressures ds;
  a !! (prof_idx * ParquetConverter.n_levels ds + level_idx)%nat.

(** The fill value of the float files. *)
Definition is_sentinel (x : ncval) : bool :=
  match x with
  | NFloat q => Qeq_bool q 99999
  | NInt n => n =? 99999
  | _ => false
  end.

(** Present and not NaN: what the converter tests. *)
Definition not_nan (v : option ncval) : Prop :=
  exists x, v = Some x /\ x <> NNaN.

(** Present and neither a sentinel nor NaN: what the design asks for. *)
Definition valid (v : option ncval) : Prop :=
  exists x, v = Some x /\ x <> NNaN /\ is_sentinel x = false.

End Pressure.

(* ===================================================================== *)
(** ** Reading the fields of a meta file *)
(* ===================================================================== *)

Module MetaFields.




End MetaFields.

(* ===================================================================== *)
(** ** The records seen as table columns *)
(* ===================================================================== *)

Module Columns.

(** The value an association list binds to a column, first binding first. *)
Fixpoint lookup_column (col : string) (d : list (string * PgClient.sqlval))
  : option PgClient.sqlval :=
  match d with
  | [] => None
  | (k, v) :: rest =>
      if String.eqb col k then Some v else lookup_column col rest
  end.

(** The optional columns of [argo_float_metadata] with the value the new
    record has for each, [None] when the field is [None]. *)
Definition metadata_optional (m : FloatMetadata.t)
  : list (string * option PgClient.sqlval) :=
  [("status", PgClient.SText <$> FloatMetadata.status m);
   ("float_type", PgClient.SText <$> FloatMetadata.float_type m);
   ("project_name", PgClient.SText <$> FloatMetadata.project_name m);
   ("operating_institution",
     PgClient.SText <$> FloatMetadata.operating_institution m);
   ("pi_name", PgClient.SText <$> FloatMetadata.pi_name m);
   ("platform_type", PgClient.SText <$> FloatMetadata.platform_type m);
   ("platform_maker", PgClient.SText <$> FloatMetadata.platform_maker m);
   ("float_serial_no", PgClient.SText <$> FloatMetadata.float_serial_no m);
   ("launch_date", PgClient.STimestamp <$> FloatMetadata.launch_date m);
   ("launch_lat", PgClient.SFloat <$> FloatMetadata.launch_lat m);
   ("launch_lon", PgClient.SFloat <$> FloatMetadata.launch_lon m);
   ("start_mission_date",
     PgClient.STimestamp <$> FloatMetadata.start_mission_date m);
   ("end_mission_date",
     PgClient.STimestamp <$> FloatMetadata.end_mission_date m)].

(** The optional columns of [argo_float_status]. *)
Definition status_optional (s : FloatStatus.t)
  : list (string * option PgClient.sqlval) :=
  [("cycle_number", PgClient.SInt <$> FloatStatus.cycle_number s);
   ("battery_percent", PgClient.SInt <$> FloatStatus.battery_percent s);
   ("last_update", PgClient.STimestamp <$> FloatStatus.last_update s);
   ("last_depth", PgClient.SFloat <$> FloatStatus.last_depth s);
   ("last_temp", PgClient.SFloat <$> FloatStatus.last_temp s);
   ("last_salinity", PgClient.SFloat <$> FloatStatus.last_salinity s)].

(** What the design asks of a column on conflict: the new value, NULL
    when the new value is absent. *)
Definition overwritten (new_value stored : option PgClient.sqlval) : Prop :=
  stored = new_value.

(** What the statement does to a column on conflict: the new value when
    there is one, the value already stored otherwise. *)
Definition merged (new_value old stored : option PgClient.sqlval) : Prop :=
  stored = match new_value with Some v => Some v | None => old end.

End Columns.

(* ===================================================================== *)
(** ** Sample inputs *)
(* ===================================================================== *)

Module Samples.

(** Stand-ins for the library functions, enough to run the samples:
    [float] reads integer literals, [fromtimestamp] knows the epoch. *)
Definition repr_float (x : Q) : string := "0.0".
Definition float_of_text (s : string) : option Q :=
  inject_Z <$> Py.int_of_str s.
Definition strptime (s fmt : string) : option datetime := None.
Definition fromtimestamp (secs : Q) : option datetime :=
  if Qeq_bool secs 0 then Some (mk_datetime 1970 1 1 0 0 0) else None.
Definition days_since (t : datetime) : Z := 5.
Definition write_table (rows : list ProfileRow.t) : bool := true.
Definition staging_path : string := "parquet".

(** A profile file with [n_prof] profiles of [n_levels] levels whose
    pressure array holds [pres] at every place. *)
Definition uniform_profile_file (n_prof n_levels : nat) (pres : ncval)
  : Dataset :=
  {| sizes := list_to_map [("N_PROF", n_prof); ("N_LEVELS", n_levels)];
     variables :=
       list_to_map
         [("PLATFORM_NUMBER",
            mk_ncvar [n_prof] (replicate n_prof (NBytes "2902224 ")));
          ("CYCLE_NUMBER", mk_ncvar [n_prof] (replicate n_prof (NInt 7)));
          ("JULD", mk_ncvar [n_prof] (replicate n_prof (NDatetime 0)));
          ("LATITUDE", mk_ncvar [n_prof] (replicate n_prof (NFloat 16.42)));
          ("LONGITUDE", mk_ncvar [n_prof] (replicate n_prof (NFloat 88.05)));
          ("PRES",
            mk_ncvar [n_prof; n_levels]
              (replicate (n_prof * n_levels) pres))] |}.

(** One profile, one level, the pressure slot holding 99999. *)
Definition sentinel_profile_file : Dataset :=
  uniform_profile_file 1 1 (NFloat 99999).

(** Two profiles of five levels, every pressure a reading of 10.5 dbar. *)
Definition full_profile_file : Dataset :=
  uniform_profile_file 2 5 (NFloat 10.5).


(** A remote store with three floats in the global index and one in the
    weekly index: floats 2902224 and 2902225 have a meta file and nothing
    else, every request for float 2902226 ends in a 404. *)
Definition remote : ArgoSyncWorker.Remote :=
  {| ArgoSyncWorker.index_global_meta :=
       Returns (list_to_set ["2902224"; "2902225"; "2902226"]);
     ArgoSyncWorker.index_this_week_prof :=
       Returns (list_to_set ["2902226"]);
     ArgoSyncWorker.request := fun float_id filename =>
       if String.eqb float_id "2902226" then ArgoSyncWorker.HttpStatus 404
       else if String.eqb filename (float_id ++ "_meta.nc")
            then ArgoSyncWorker.Downloaded
            else ArgoSyncWorker.HttpStatus 404;
     ArgoSyncWorker.mkdir_ok := fun _ => true |}.

(** The metadata of float 2902224 as a first run extracts it, and as a
    later run does from a meta file whose project name cannot be read. *)
Definition metadata_first : FloatMetadata.t :=
  {| FloatMetadata.float_id := 2902224;
     FloatMetadata.wmo_number := "2902224";
     FloatMetadata.status := Some "ACTIVE";
     FloatMetadata.float_type := Some "core";
     FloatMetadata.data_centre := "IN";
     FloatMetadata.project_name := Some "Argo India";
     FloatMetadata.operating_institution := Some "INCOIS";
     FloatMetadata.pi_name := None;
     FloatMetadata.platform_type := Some "ARVOR";
     FloatMetadata.platform_maker := Some "NKE";
     FloatMetadata.float_serial_no := None;
     FloatMetadata.launch_date := Some (mk_datetime 2019 3 15 0 0 0);
     FloatMetadata.launch_lat := Some 16.42%Q;
     FloatMetadata.launch_lon := Some 88.05%Q;
     FloatMetadata.start_mission_date := None;
     FloatMetadata.end_mission_date := None |}.

Definition metadata_later : FloatMetadata.t :=
  {| FloatMetadata.float_id := 2902224;
     FloatMetadata.wmo_number := "2902224";
     FloatMetadata.status := Some "ACTIVE";
     FloatMetadata.float_type := Some "core";
     FloatMetadata.data_centre := "IN";
     FloatMetadata.project_name := None;
     FloatMetadata.operating_institution := Some "INCOIS";
     FloatMetadata.pi_name := None;
     FloatMetadata.platform_type := Some "ARVOR";
     FloatMetadata.platform_maker := Some "NKE";
     FloatMetadata.float_serial_no := None;
     FloatMetadata.launch_date := Some (mk_datetime 2019 3 15 0 0 0);
     FloatMetadata.launch_lat := Some 16.42%Q;
     FloatMetadata.launch_lon := Some 88.05%Q;
     FloatMetadata.start_mission_date := None;
     FloatMetadata.end_mission_date := None |}.

(** The status of float 2902224 at cycle 320 with a battery estimate, and
    at cycle 321 without one. *)
Definition status_first : FloatStatus.t :=
  {| FloatStatus.float_id := 2902224;
     FloatStatus.latitude := Some (-4.8)%Q;
     FloatStatus.longitude := Some 72.1%Q;
     FloatStatus.cycle_number := Some 320;
     FloatStatus.battery_percent := Some 69;
     FloatStatus.last_update := Some (mk_datetime 2025 11 29 3 20 0);
     FloatStatus.last_depth := Some 2000%Q;
     FloatStatus.last_temp := Some 15.2%Q;
     FloatStatus.last_salinity := Some 34.5%Q |}.

Definition status_later : FloatStatus.t :=
  {| FloatStatus.float_id := 2902224;
     FloatStatus.latitude := Some (-4.9)%Q;
     FloatStatus.longitude := Some 72.3%Q;
     FloatStatus.cycle_number := Some 321;
     FloatStatus.battery_percent := None;
     FloatStatus.last_update := Some (mk_datetime 2025 12 9 3 20 0);
     FloatStatus.last_depth := Some 1990%Q;
     FloatStatus.last_temp := Some 15.1%Q;
     FloatStatus.last_salinity := Some 34.5%Q |}.

Definition first_run_time : datetime := mk_datetime 2025 11 30 0 0 0.
Definition later_run_time : datetime := mk_datetime 2025 12 10 0 0 0.

(** An empty database, and the database after the first upload. *)
Definition empty_db : PgClient.conn :=
  let t := {| PgClient.argo_float_metadata := ∅;
              PgClient.argo_float_status := ∅;
              PgClient.processing_log := [] |} in
  {| PgClient.current := t; PgClient.committed := t |}.

(** The rows the first upload writes. *)
Definition metadata_row_first : gmap string PgClient.sqlval :=
  list_to_map (PgClient.metadata_data first_run_time metadata_first).
Definition status_row_first : gmap string PgClient.sqlval :=
  list_to_map (PgClient.status_data first_run_time status_first).

Definition db_after_first : PgClient.conn :=
  PgClient.commit
    (PgClient.batch_upload_data true first_run_time
       metadata_first status_first empty_db).2.

(** What the extractor gives for float 2902225: metadata, and a status
    with a latitude but no longitude. *)
Definition summary_without_longitude : Main.StatusSummary :=
  {| Main.float_id := "2902225";
     Main.latitude := Some 12.5%Q;
     Main.longitude := None;
     Main.cycle_number := Some 12;
     Main.profile_time := Some (mk_datetime 2025 12 1 6 0 0);
     Main.last_depth := Some 1000%Q;
     Main.last_temp := None;
     Main.last_salinity := None;
     Main.battery_percent := Some 90 |}.

(** What it gives for float 2902224: metadata and a full status. *)
Definition summary_with_position : Main.StatusSummary :=
  {| Main.float_id := "2902224";
     Main.latitude := Some (-4.9)%Q;
     Main.longitude := Some 72.3%Q;
     Main.cycle_number := Some 321;
     Main.profile_time := Some (mk_datetime 2025 12 9 3 20 0);
     Main.last_depth := Some 1990%Q;
     Main.last_temp := Some 15.1%Q;
     Main.last_salinity := Some 34.5%Q;
     Main.battery_percent := None |}.

(** A manifest left by an earlier run: one float downloaded, one failed. *)
Definition manifest : ArgoSyncWorker.Manifest :=
  {| ArgoSyncWorker.downloaded := ["2902224"];
     ArgoSyncWorker.failed := ["2902225"] |}.

(** One run's surroundings: the sample store, an extractor that knows the
    two floats above, a database that accepts every statement. *)
Definition world : Main.World :=
  {| Main.remote := remote;
     Main.process_directory := fun fid =>
       if String.eqb fid "2902224"
       then Main.Stats (Some metadata_later) (Some summary_with_position)
              (Some "parquet/2902224_profiles.parquet")
       else if String.eqb fid "2902225"
       then Main.Stats (Some metadata_first) (Some summary_without_longitude)
              None
       else Main.DirError "Directory not found";
     Main.clients_ok := true;
     Main.execute_ok := fun _ _ => true;
     Main.log_ok := true;
     Main.commit_ok := fun _ => true;
     Main.now := later_run_time |}.

(** The processing phase about to start on an empty database. *)
Definition fresh_state : Main.LoopState :=
  {| Main.processed_count := 0; Main.process_failed := 0;
     Main.successful_float_ids := []; Main.failed_float_ids_list := [];
     Main.db := empty_db; Main.commits := 0; Main.trace := [] |}.

End Samples.

(* ===================================================================== *)
(** ** What a meta file says about the end of the mission *)
(* ===================================================================== *)

Module Mission.



End Mission.

(* ===================================================================== *)
(** ** The cells of a table row *)
(* ===================================================================== *)

Module Cells.

(** The cells of a row that come out of [get_value] and [get_1d_value]. *)
Definition of_row (r : ProfileRow.t) : list (option ncval) :=
  [ProfileRow.cycle_number r; ProfileRow.latitude r; ProfileRow.longitude r; ProfileRow.pressure r;
   ProfileRow.temperature r; ProfileRow.salinity r; ProfileRow.position_qc r; ProfileRow.pres_qc r;
   ProfileRow.temp_qc r; ProfileRow.psal_qc r; ProfileRow.temperature_adj r; ProfileRow.salinity_adj r;
   ProfileRow.pressure_adj r; ProfileRow.temp_adj_qc r; ProfileRow.psal_adj_qc r; ProfileRow.data_mode r;
   ProfileRow.oxygen r; ProfileRow.oxygen_qc r; ProfileRow.chlorophyll r; ProfileRow.chlorophyll_qc r;
   ProfileRow.nitrate r; ProfileRow.nitrate_qc r].

(** A cell fit for the table: empty, or a value that is neither NaN nor
    undecoded bytes. *)
Definition clean (c : option ncval) : bool :=
  match c with
  | Some NNaN | Some (NBytes _) => false
  | _ => true
  end.


End Cells.

(* ===================================================================== *)
(** ** Python [str] methods *)
(* ===================================================================== *)

(** Text is given by its code points, all below 256. *)
Module PyStr.

(** The characters [str.strip()] removes and [str.isspace()] accepts:
    tab to carriage return, the four separators 0x1c to 0x1f, the space,
    NEL (0x85) and the no-break space (0xa0). *)
Definition is_space (c : ascii) : bool :=
  let n := nat_of_ascii c in
  (((9 <=? n) && (n <=? 13)) || ((28 <=? n) && (n <=? 32))
   || (n =? 133) || (n =? 160))%nat.

Fixpoint lstrip (s : string) : string :=
  match s with
  | String c s' => if is_space c then lstrip s' else s
  | EmptyString => EmptyString
  end.

Fixpoint rstrip (s : string) : string :=
  match s with
  | String c s' =>
      match rstrip s' with
      | EmptyString => if is_space c then EmptyString else String c EmptyString
      | r => String c r
      end
  | EmptyString => EmptyString
  end.

(** [s.strip()] *)
Definition strip (s : string) : string := rstrip (lstrip s).

(** The line boundaries of [str.splitlines()]: line feed, vertical tab,
    form feed, carriage return, the separators 0x1c to 0x1e and NEL. *)
Definition is_linebreak (c : ascii) : bool :=
  let n := nat_of_ascii c in
  (((10 <=? n) && (n <=? 13)) || ((28 <=? n) && (n <=? 30)) || (n =? 133))%nat.

(** [s.splitlines()]: the lines without their boundaries; a carriage
    return followed by a line feed is one boundary; no empty line is
    reported after a final boundary. *)
Fixpoint splitlines (s : string) : list string :=
  match s with
  | EmptyString => []
  | String c s' =>
      if is_linebreak c then
        EmptyString ::
          match s' with
          | String c' s'' =>
              if Ascii.eqb c "013" && Ascii.eqb c' "010"
              then splitlines s'' else splitlines s'
          | EmptyString => []
          end
      else
        match splitlines s' with
        | line :: rest => String c line :: rest
        | [] => [String c EmptyString]
        end
  end.

(** [s.split(sep)] for a separator of one character: never empty. *)
Fixpoint split (sep : ascii) (s : string) : list string :=
  match s with
  | EmptyString => [EmptyString]
  | String c s' =>
      if Ascii.eqb c sep then EmptyString :: split sep s'
      else
        match split sep s' with
        | field :: rest => String c field :: rest
        | [] => [String c EmptyString]
        end
  end.

(** [s.startswith(p)] *)
Definition startswith (p s : string) : bool := String.prefix p s.

(** [s.replace(old, new)] for a non-empty [old]: the occurrences are
    replaced from the left, without overlap.  [skip] counts the characters
    of an occurrence still to be passed over. *)
Fixpoint replace_from (old new : string) (skip : nat) (s : string) : string :=
  match s with
  | EmptyString => EmptyString
  | String c s' =>
      match skip with
      | S k => replace_from old new k s'
      | O =>
          if String.prefix old s
          then (new ++ replace_from old new (String.length old - 1) s')%string
          else String c (replace_from old new 0 s')
      end
  end.

Definition replace (old new s : string) : string := replace_from old new 0 s.

End PyStr.

(* ===================================================================== *)
(** ** workers/argo_sync/sync.py: the index parser *)
(* ===================================================================== *)

Module IndexParser.

(** What one line of the index adds to the set: nothing for a comment or
    a blank line; otherwise the second component of the path in the first
    comma-separated field, when the first component is the DAC's name. *)
Definition float_id_of_line (dac_name line : string) : option string :=
  if PyStr.startswith "#" line || negb (Py.truthy (PyStr.strip line))
  then None
  else
    match PyStr.split "," line with
    | [] => None
    | file_path :: _ =>
        match PyStr.split "/" file_path with
        | first :: second :: _ =>
            if String.eqb first dac_name then Some second else None
        | _ => None
        end
    end.

(** [ArgoSyncWorker._parse_index_for_floats(content)] *)
Definition _parse_index_for_floats (dac_name content : string) : gset string :=
  foldl (fun float_ids line =>
           match float_id_of_line dac_name line with
           | Some float_id => float_ids ∪ {[float_id]}
           | None => float_ids
           end)
        ∅ (PyStr.splitlines content).

(** No path separator and no field separator in a name. *)
Definition plain (s : string) : Prop :=
  Py.all_chars (fun c => negb (Ascii.eqb c "/") && negb (Ascii.eqb c ",")) s
  = true.

End IndexParser.

(* ===================================================================== *)
(** ** numpy scalars and arrays as the extractor uses them *)
(* ===================================================================== *)

Module Np.

Section Conversions.
(** Taken as given: [float(s)] of text ([Raises]: [ValueError]; [None]: the
    text denotes a NaN), and what [float(x)] and [int(x)] make of a
    [datetime64] that is not NaT, given by its seconds since the epoch. *)
Variable float_of_text : string -> pyres (option Q).
Variable float_of_datetime64 : Q -> pyres Q.
Variable int_of_datetime64 : Q -> pyres Z.

(** [float(x)] of an array element; [None] is NaN. *)
Definition to_float (x : ncval) : pyres (option Q) :=
  match x with
  | NFloat q => Returns (Some q)
  | NNaN => Returns None
  | NInt n => Returns (Some (inject_Z n))
  | NBytes b => float_of_text b
  | NStr s => float_of_text s
  | NDatetime secs => Some <$> float_of_datetime64 secs
  | NNaT => Raises
  end.

(** [int(x)] of an array element: truncation of a float, [ValueError] on
    NaN, the integer literal of a text. *)
Definition to_int (x : ncval) : pyres Z :=
  match x with
  | NInt n => Returns n
  | NFloat q => Returns (Py.int_of_float q)
  | NNaN => Raises
  | NBytes b => raise_if_none (Py.int_of_str b)
  | NStr s => raise_if_none (Py.int_of_str s)
  | NDatetime secs => int_of_datetime64 secs
  | NNaT => Raises
  end.

End Conversions.

(** [np.isnan(x)]: a [TypeError] on text; NaT counts as NaN. *)
Definition isnan (x : ncval) : pyres bool :=
  match x with
  | NFloat _ | NInt _ | NDatetime _ => Returns false
  | NNaN | NNaT => Returns true
  | NBytes _ | NStr _ => Raises
  end.

(** [v.values[i]]: the sub-array at index [i] of the first axis, by its
    elements in row-major order; an [IndexError] on a 0-dimensional
    variable and past the end of the axis. *)
Definition index (v : ncvar) (i : nat) : pyres (list ncval) :=
  match shape v with
  | [] => Raises
  | d :: rest =>
      if (i <? d)%nat then
        let m := foldr Nat.mul 1%nat rest in
        Returns (take m (drop (i * m) (data v)))
      else Raises
  end.

(** An indexing result used as a scalar: conversions and truth tests
    accept one element only. *)
Definition scalar (a : list ncval) : pyres ncval :=
  match a with
  | [x] => Returns x
  | _ => Raises
  end.

End Np.

(* ===================================================================== *)
(** ** The surroundings of the extractor *)
(* ===================================================================== *)

Module Env.

(** Library functions taken as given: [str(x)] of a float and of a
    [datetime64]; [float(s)] of text and the conversions of a
    [datetime64] (see [Np]); [datetime.strptime] and
    [datetime.fromtimestamp] ([None]: they raise); the clock of
    [determine_float_status]; whether pyarrow writes the table, whether the
    Parquet staging directory can be made, and its path. *)
Record Library : Type := mk_library {
  repr_float : Q -> string;
  str_of_datetime64 : Q -> string;
  float_of_text : string -> pyres (option Q);
  float_of_datetime64 : Q -> pyres Q;
  int_of_datetime64 : Q -> pyres Z;
  strptime : string -> string -> option datetime;
  fromtimestamp : Q -> option datetime;
  days_since : datetime -> Z;
  write_table : list ProfileRow.t -> bool;
  staging_ok : bool;
  staging_path : string
}.

(** [float(s)] where a NaN ends like an exception: the guarded reads of
    the launch position leave the coordinate unset on both, and
    [int(float(s))] raises on both. *)
Definition finite_float_of_text (lib : Library) (s : string) : option Q :=
  match float_of_text lib s with
  | Returns (Some q) => Some q
  | _ => None
  end.

(** The local staging directory as one run finds it, with the path
    operations of [pathlib] taken as given: [child p name] is [p / name],
    [open_dataset p] is the dataset [xr.open_dataset(p)] yields, [None]
    when it raises. *)
Record Staging : Type := mk_staging {
  Path : Type;
  stage_path : Path;
  child : Path -> string -> Path;
  parent : Path -> Path;
  stem : Path -> string;
  path_exists : Path -> bool;
  open_dataset : Path -> option Dataset
}.

End Env.

(* ===================================================================== *)
(** ** netcdf_aggregate_parser.py: the status summary *)
(* ===================================================================== *)

Module ProfileStats.

(** The names of the technical parameters that hold a battery voltage. *)
Definition target_keywords : list string :=
  ["BatteryParkNoLoad"; "BatteryInitialAtProfileDepth"; "VOLTAGE_Battery";
   "Battery voltage"].

(** [valid.max()] of a non-empty array. *)
Definition qmax (a b : Q) : Q := if Qle_bool a b then b else a.

Definition deepest (valid : list Q) : option Q :=
  match valid with
  | [] => None
  | x :: rest => Some (foldl qmax x rest)
  end.

(** [arr[~np.isnan(arr) & (arr < 99999)]]: the readings that are neither
    NaN nor at or above the fill value; the tests raise on an array that
    is not numeric. *)
Fixpoint valid_levels (arr : list ncval) : pyres (list Q) :=
  match arr with
  | [] => Returns []
  | x :: rest =>
      more ← valid_levels rest;
      match x with
      | NFloat q => Returns (if Qle_bool 99999 q then more else q :: more)
      | NInt n => Returns (if 99999 <=? n then more else inject_Z n :: more)
      | NNaN => Returns more
      | _ => Raises
      end
  end.

Section Extract.
Variable lib : Env.Library.
Variable fs : Env.Staging.

Abbreviation to_float :=
  (Np.to_float (Env.float_of_text lib) (Env.float_of_datetime64 lib)).
Abbreviation to_int := (Np.to_int (Env.int_of_datetime64 lib)).

(** The name of a technical parameter: bytes are decoded, anything else
    goes through [str]. *)
Definition name_text (name_bytes : ncval) : string :=
  match name_bytes with
  | NBytes b => b
  | NStr s => s
  | NFloat q => Env.repr_float lib q
  | NNaN => "nan"
  | NInt n => pretty n
  | NDatetime secs => Env.str_of_datetime64 lib secs
  | NNaT => "NaT"
  end.

(** The body of the inner [try] for entry [i]: the voltage and the cycle
    it belongs to, [None] when the voltage is outside 5 to 35 V or NaN;
    [Raises] is the [continue] of the [except]. *)
Definition reading (values cycle_nums : list ncval) (i : nat)
  : pyres (option (Q * Z)) :=
  val_str ← raise_if_none (values !! i);
  voltage ← to_float val_str;
  match voltage with
  | Some v =>
      if Py.le 5.0 v && Py.le v 35.0 then
        cycle ← match cycle_nums !! i with
                | Some c => to_int c
                | None => Returns 0
                end;
        Returns (Some (v, cycle))
      else Returns None
  | None => Returns None
  end.

(** One turn of [for i, name_bytes in enumerate(names)], on the pair
    [(latest_voltage, latest_cycle)]. *)
Definition scan_step (values cycle_nums : list ncval)
  (latest : option Q * Z) (i : nat) (name_bytes : ncval) : option Q * Z :=
  if existsb (fun kw => Py.contains kw (name_text name_bytes)) target_keywords
  then
    match reading values cycle_nums i with
    | Returns (Some (voltage, cycle)) =>
        if latest.2 <=? cycle then (Some voltage, cycle) else latest
    | _ => latest
    end
  else latest.

Fixpoint scan (values cycle_nums : list ncval) (i : nat)
  (names : list ncval) (latest : option Q * Z) : option Q * Z :=
  match names with
  | [] => latest
  | name_bytes :: rest =>
      scan values cycle_nums (S i) rest
           (scan_step values cycle_nums latest i name_bytes)
  end.

(** [_extract_latest_battery_voltage(tech_file)] *)
Definition _extract_latest_battery_voltage (tech_file : Env.Path fs)
  : option Q :=
  match Env.open_dataset fs tech_file with
  | None => None
  | Some ds =>
      match variables ds !! "TECHNICAL_PARAMETER_NAME",
            variables ds !! "TECHNICAL_PARAMETER_VALUE" with
      | Some names, Some values =>
          let cycle_nums :=
            match variables ds !! "CYCLE_NUMBER" with
            | Some c => data c
            | None => []
            end in
          (scan (data values) cycle_nums 0 (data names) (None, -1)).1
      | _, _ => None
      end
  end.

(** [float(ds[name].values[last_idx])], kept unless it is NaN. *)
Definition coordinate (ds : Dataset) (name : string) (last_idx : nat)
  : pyres (option Q) :=
  match variables ds !! name with
  | None => Returns None
  | Some v =>
      a ← Np.index v last_idx;
      x ← Np.scalar a;
      to_float x
  end.

(** The cycle number of the last profile, kept unless it is NaN. *)
Definition last_cycle (ds : Dataset) (last_idx : nat) : pyres (option Z) :=
  match variables ds !! "CYCLE_NUMBER" with
  | None => Returns None
  | Some v =>
      a ← Np.index v last_idx;
      cycle ← Np.scalar a;
      nan ← Np.isnan cycle;
      if nan : bool then Returns None else Some <$> to_int cycle
  end.

(** The guarded timestamp of the last profile: any failure leaves it
    unset; [np.isnat] raises on anything but a [datetime64]. *)
Definition last_profile_time (ds : Dataset) (last_idx : nat)
  : option datetime :=
  match variables ds !! "JULD" with
  | None => None
  | Some v =>
      try_except
        (a ← Np.index v last_idx;
         juld ← Np.scalar a;
         match juld with
         | NDatetime secs =>
             Some <$> raise_if_none (Env.fromtimestamp lib secs)
         | NNaT => Returns None
         | _ => Raises
         end)
        None
  end.

(** One turn of the loop over PRES, TEMP and PSAL: [pick] is [max] for
    PRES and the last element for the others. *)
Definition sensor (ds : Dataset) (var : string) (last_idx : nat)
  (pick : list Q -> option Q) : pyres (option Q) :=
  match variables ds !! var with
  | None => Returns None
  | Some v =>
      arr ← Np.index v last_idx;
      valid ← valid_levels arr;
      Returns (pick valid)
  end.

(** The battery estimate of the status summary. *)
Definition battery (file_path : Env.Path fs) (float_id : string)
  (cycle_number : option Z) (metadata : FloatMetadata.t) : option Z :=
  let tech_file :=
    Env.child fs (Env.parent fs file_path) (float_id ++ "_tech.nc")%string in
  let current_voltage :=
    if Env.path_exists fs tech_file
    then _extract_latest_battery_voltage tech_file
    else None in
  let platform_type :=
    AggregateParser.or_default (FloatMetadata.platform_type metadata)
      "UNKNOWN" in
  Helper.estimate_battery_percent platform_type (default 0 cycle_number)
    current_voltage (Some metadata).

(** The body of the [try] of [get_profile_stats], on the opened dataset. *)
Definition build_summary (ds : Dataset) (file_path : Env.Path fs)
  (metadata : option FloatMetadata.t) : pyres (option Main.StatusSummary) :=
  let n_prof := default 0%nat (sizes ds !! "N_PROF") in
  if (n_prof =? 0)%nat then Returns None
  else
    let last_idx := (n_prof - 1)%nat in
    let float_id := PyStr.replace "_prof" EmptyString (Env.stem fs file_path) in
    latitude ← coordinate ds "LATITUDE" last_idx;
    longitude ← coordinate ds "LONGITUDE" last_idx;
    cycle_number ← last_cycle ds last_idx;
    let profile_time := last_profile_time ds last_idx in
    last_depth ← sensor ds "PRES" last_idx deepest;
    last_temp ← sensor ds "TEMP" last_idx last;
    last_salinity ← sensor ds "PSAL" last_idx last;
    Returns
      (Some {| Main.float_id := float_id;
               Main.latitude := latitude;
               Main.longitude := longitude;
               Main.cycle_number := cycle_number;
               Main.profile_time := profile_time;
               Main.last_depth := last_depth;
               Main.last_temp := last_temp;
               Main.last_salinity := last_salinity;
               Main.battery_percent :=
                 metadata ≫= battery file_path float_id cycle_number |}).

(** [get_profile_stats(file_path, metadata)]: every exception ends in
    the [except] that returns [None]. *)
Definition get_profile_stats (file_path : Env.Path fs)
  (metadata : option FloatMetadata.t) : option Main.StatusSummary :=
  match Env.open_dataset fs file_path with
  | None => None
  | Some ds => try_except (build_summary ds file_path metadata) None
  end.

End Extract.
End ProfileStats.

(* ===================================================================== *)
(** ** workers/netcdf_processor/netcdf_parser.py *)
(* ===================================================================== *)

Module NetCDFParserWorker.

(** The [stats] dictionary. *)
Record stats : Type := mk_stats {
  files_processed : nat;
  errors : nat;
  metadata : option FloatMetadata.t;
  status : option Main.StatusSummary;
  parquet_path : option string
}.

(** What [process_directory] ends in: the error dictionary for a missing
    directory, the stats dictionary, or the exception of a Parquet staging
    directory that cannot be made. *)
Inductive directory_result : Type :=
| NotFound
| Processed (s : stats)
| StagingFailed.

Section Worker.
Variable lib : Env.Library.
Variable fs : Env.Staging.

Abbreviation get_profile_stats := (ProfileStats.get_profile_stats lib fs).
Abbreviation parse_metadata_file :=
  (AggregateParser.parse_metadata_file (Env.repr_float lib)
     (Env.finite_float_of_text lib) (Env.strptime lib) (Env.days_since lib)).

(** [_prepare_pg_data(float_dir, float_id, stats)]: the fields it leaves
    in [stats].  Neither extractor raises, so the [except] clauses are not
    reached. *)
Definition _prepare_pg_data (float_dir : Env.Path fs) (float_id : string)
  : stats :=
  let prof_file := Env.child fs float_dir (float_id ++ "_prof.nc")%string in
  let meta_file := Env.child fs float_dir (float_id ++ "_meta.nc")%string in
  (* Step 1: basic profile stats, without battery *)
  let first_summary :=
    if Env.path_exists fs prof_file then get_profile_stats prof_file None
    else None in
  let latest_profile_time := first_summary ≫= Main.profile_time in
  let files_1 := match first_summary with Some _ => 1%nat | None => 0%nat end in
  (* Step 2: metadata, with the profile time *)
  let metadata :=
    if Env.path_exists fs meta_file
    then parse_metadata_file (Env.open_dataset fs meta_file)
           latest_profile_time
    else None in
  let files_2 := if Env.path_exists fs meta_file then 1%nat else 0%nat in
  let errors := if Env.path_exists fs meta_file then 0%nat else 1%nat in
  (* Step 3: profile stats again, with the battery estimate *)
  let second_summary :=
    if Env.path_exists fs prof_file
    then match metadata with
         | Some _ => get_profile_stats prof_file metadata
         | None => None
         end
    else None in
  {| files_processed := (files_1 + files_2)%nat;
     errors := errors;
     metadata := metadata;
     status := match second_summary with
               | Some s => Some s
               | None => first_summary
               end;
     parquet_path := None |}.

(** [process_directory(float_id)] *)
Definition process_directory (float_id : string) : directory_result :=
  let float_dir := Env.child fs (Env.stage_path fs) float_id in
  if negb (Env.path_exists fs float_dir) then NotFound
  else
    let stats := _prepare_pg_data float_dir float_id in
    let prof_file := Env.child fs float_dir (float_id ++ "_prof.nc")%string in
    if Env.staging_ok lib then
      let converted :=
        ParquetConverter.convert (Env.repr_float lib)
          (Env.finite_float_of_text lib) (Env.fromtimestamp lib)
          (Env.write_table lib) (Env.staging_path lib)
          (if Env.path_exists fs prof_file
           then Env.open_dataset fs prof_file else None)
          float_id in
      Processed
        {| files_processed := files_processed stats;
           errors := errors stats;
           metadata := metadata stats;
           status := status stats;
           parquet_path :=
             match converted with
             | Some (path, _) => if Py.truthy path then Some path else None
             | None => None
             end |}
    else StagingFailed.

(** The result as the pipeline loop reads it. *)
Definition parse_output (r : directory_result) : Main.ParseOutput :=
  match r with
  | NotFound => Main.DirError "Directory not found"
  | Processed s => Main.Stats (metadata s) (status s) (parquet_path s)
  | StagingFailed => Main.ProcessRaises
  end.

End Worker.
End NetCDFParserWorker.

(* ===================================================================== *)
(** ** lambda_handler.py *)
(* ===================================================================== *)

Module LambdaHandler.

(** The invocation event: the two keys the handler reads, [None] for a
    key that is not there. *)
Record Event : Type := mk_event {
  operation : option string;
  float_id : option string
}.

(** What [str(e)] of the [except] clause reports. *)
Inductive handler_error : Type :=
| FloatIdRequired
| InvalidOperation (operation : string)
| SyncRaised.

(** The JSON body: the result of [sync], or the error dictionary. *)
Inductive body_t : Type :=
| ResultBody (r : Main.ProcessResult)
| ErrorBody (e : handler_error).

Record Response : Type := mk_response {
  statusCode : Z;
  body : body_t
}.

(** What one invocation leaves behind: the response ([Raises] when an
    exception leaves the handler), the manifest file in the staging
    directory, and the run of [sync] if there was one. *)
Record Invocation : Type := mk_invocation {
  response : pyres Response;
  manifest_left : option ArgoSyncWorker.Manifest;
  run : option Main.Outcome
}.

(** [cleanup_tmp()] on the manifest file: it lies in the local staging
    directory, which is removed with everything in it. *)
Definition cleanup_tmp (file : option ArgoSyncWorker.Manifest)
  : option ArgoSyncWorker.Manifest := None.

(** The response for a call of [sync] that returned or raised. *)
Definition respond (out : Main.Outcome) : Response :=
  match Main.result out with
  | Returns r =>
      {| statusCode := if Main.success r then 200 else 500;
         body := ResultBody r |}
  | Raises => {| statusCode := 500; body := ErrorBody SyncRaised |}
  end.

Section Handler.
Variable w : Main.World.
(** Whether the staging directories can be removed, before and after. *)
Variable cleanup_ok_before cleanup_ok_after : bool.

(** [lambda_handler(event, context)], invoked on the manifest file
    [file] an earlier invocation of the same execution environment may
    have left and the database contents [stored]. *)
Definition lambda_handler (event : Event)
  (file : option ArgoSyncWorker.Manifest) (stored : PgClient.tables)
  : Invocation :=
  if negb cleanup_ok_before then
    {| response := Raises; manifest_left := file; run := None |}
  else
    let file := cleanup_tmp file in
    let operation := default "update" (operation event) in
    let attempt : Response * option Main.Outcome :=
      if String.eqb operation "sync" then
        if Main.given (float_id event) then
          let out := Main.sync w (float_id event) false false false
                       file stored in
          (respond out, Some out)
        else ({| statusCode := 500; body := ErrorBody FloatIdRequired |}, None)
      else if String.eqb operation "update" then
        let out := Main.sync w None false true false file stored in
        (respond out, Some out)
      else ({| statusCode := 500;
               body := ErrorBody (InvalidOperation operation) |}, None) in
    let file_after :=
      match attempt.2 with
      | Some out => Main.manifest_after out
      | None => file
      end in
    if cleanup_ok_after then
      {| response := Returns attempt.1;
         manifest_left := cleanup_tmp file_after;
         run := attempt.2 |}
    else
      {| response := Raises; manifest_left := file_after; run := attempt.2 |}.

End Handler.
End LambdaHandler.

(* ===================================================================== *)
(** ** Readings of a tech file and of a pressure row *)
(* ===================================================================== *)

Module Readings.

Section Tech.
Variable lib : Env.Library.

(** Entry [i] of a tech file counts as a battery reading of [v] volts at
    cycle [c]: its name holds one of the keywords, its value reads as a
    voltage between 5 and 35 V, and its cycle number (0 past the end of
    CYCLE_NUMBER) reads as an integer. *)
Definition battery_reading (names values cycle_nums : list ncval)
  (i : nat) (v : Q) (c : Z) : Prop :=
  exists name_bytes,
    names !! i = Some name_bytes /\
    existsb (fun kw => Py.contains kw (ProfileStats.name_text lib name_bytes))
            ProfileStats.target_keywords = true /\
    ProfileStats.reading lib values cycle_nums i = Returns (Some (v, c)).

(** The same of entry [k] of the names still to be scanned when the loop
    is at entry [i0]: it is entry [i0 + k] of the file. *)
Definition reading_from (values cycle_nums : list ncval) (i0 : nat)
  (names : list ncval) (k : nat) (v : Q) (c : Z) : Prop :=
  exists name_bytes,
    names !! k = Some name_bytes /\
    existsb (fun kw => Py.contains kw (ProfileStats.name_text lib name_bytes))
            ProfileStats.target_keywords = true /\
    ProfileStats.reading lib values cycle_nums (i0 + k) = Returns (Some (v, c)).

End Tech.

(** The index of the last profile of a profile file. *)
Definition last_index (ds : Dataset) : nat :=
  (default 0%nat (sizes ds !! "N_PROF") - 1)%nat.

(** The number an array element stands for, if it is one. *)
Definition number (x : ncval) : option Q :=
  match x with
  | NFloat q => Some q
  | NInt n => Some (inject_Z n)
  | _ => None
  end.

(** A reading of a row that is below the fill value 99999 (and so not
    NaN). *)
Definition valid_in (arr : list ncval) (q : Q) : Prop :=
  exists x, x ∈ arr /\ number x = Some q /\ (q < 99999)%Q.

(** The reading an element contributes to a row's valid readings. *)
Definition kept (x : ncval) : option Q :=
  match number x with
  | Some q => if Qle_bool 99999 q then None else Some q
  | None => None
  end.

(** [o] is the greatest valid reading of the row, absent when the row has
    none. *)
Definition deepest_valid (arr : list ncval) (o : option Q) : Prop :=
  match o with
  | Some d => valid_in arr d /\ forall q, valid_in arr q -> (q <= d)%Q
  | None => forall q, ~ valid_in arr q
  end.

(** [o] is the valid reading of the row that no valid reading follows,
    absent when the row has none. *)
Definition last_valid (arr : list ncval) (o : option Q) : Prop :=
  match o with
  | Some t =>
      exists pre x post,
        arr = (pre ++ x :: post)%list /\ number x = Some t /\
        (t < 99999)%Q /\ forall q, ~ valid_in post q
  | None => forall q, ~ valid_in arr q
  end.

End Readings.

(* ===================================================================== *)
(** ** A sample staging directory *)
(* ===================================================================== *)

Module Examples.

(** Stand-ins for the library functions, enough to run the samples:
    [float] reads integer literals, the conversions of a [datetime64] are
    refused, the other functions are those of [Samples]. *)
Definition lib : Env.Library :=
  {| Env.repr_float := Samples.repr_float;
     Env.str_of_datetime64 := fun _ => "1970-01-01T00:00:00.000000000";
     Env.float_of_text := fun s =>
       match Py.int_of_str s with
       | Some n => Returns (Some (inject_Z n))
       | None => Raises
       end;
     Env.float_of_datetime64 := fun _ => Raises;
     Env.int_of_datetime64 := fun _ => Raises;
     Env.strptime := Samples.strptime;
     Env.fromtimestamp := Samples.fromtimestamp;
     Env.days_since := Samples.days_since;
     Env.write_table := Samples.write_table;
     Env.staging_ok := true;
     Env.staging_path := Samples.staging_path |}.

(** The meta file of a core ARVOR float with no end-of-mission date. *)
Definition meta_file (platform_number : string) : Dataset :=
  {| sizes := ∅;
     variables :=
       list_to_map
         [("PLATFORM_NUMBER", mk_ncvar [] [NBytes platform_number]);
          ("DATA_CENTRE", mk_ncvar [] [NBytes "IN"]);
          ("PLATFORM_TYPE", mk_ncvar [] [NBytes "ARVOR   "]);
          ("PARAMETER",
            mk_ncvar [1; 3]%nat [NBytes "PRES"; NBytes "TEMP"; NBytes "PSAL"]);
          ("END_MISSION_DATE", mk_ncvar [] [NBytes "        "])] |}.

(** A profile file with two profiles of three levels; the last profile
    has the latitude [last_lat], pressures 5, 1000 and the fill value, and
    temperatures 20.5, 4.2 and NaN; there is no salinity. *)
Definition prof_file (last_lat : ncval) : Dataset :=
  {| sizes := list_to_map [("N_PROF", 2%nat); ("N_LEVELS", 3%nat)];
     variables :=
       list_to_map
         [("PLATFORM_NUMBER",
            mk_ncvar [2%nat] [NBytes "2902224 "; NBytes "2902224 "]);
          ("CYCLE_NUMBER", mk_ncvar [2%nat] [NInt 6; NInt 7]);
          ("JULD", mk_ncvar [2%nat] [NDatetime 0; NDatetime 0]);
          ("LATITUDE", mk_ncvar [2%nat] [NFloat 16.40; last_lat]);
          ("LONGITUDE", mk_ncvar [2%nat] [NFloat 88.00; NFloat 88.05]);
          ("PRES",
            mk_ncvar [2; 3]%nat
              [NFloat 5; NFloat 10; NNaN;
               NFloat 5; NFloat 1000; NFloat 99999]);
          ("TEMP",
            mk_ncvar [2; 3]%nat
              [NFloat 21.0; NFloat 19.5; NNaN;
               NFloat 20.5; NFloat 4.2; NNaN])] |}.

(** A tech file with three battery readings: 14 V at cycle 1, 13 V at
    cycle 2, and 99 V (out of range) at cycle 3. *)
Definition tech_file : Dataset :=
  {| sizes := ∅;
     variables :=
       list_to_map
         [("TECHNICAL_PARAMETER_NAME",
            mk_ncvar [4%nat]
              [NBytes "VOLTAGE_BatteryParkNoLoad_volts";
               NBytes "PRES_SurfaceOffset_dbar";
               NBytes "VOLTAGE_BatteryParkNoLoad_volts";
               NBytes "VOLTAGE_BatteryParkNoLoad_volts"]);
          ("TECHNICAL_PARAMETER_VALUE",
            mk_ncvar [4%nat] [NBytes "14"; NBytes "3"; NBytes "13"; NBytes "99"]);
          ("CYCLE_NUMBER", mk_ncvar [4%nat] [NInt 1; NInt 1; NInt 2; NInt 3])] |}.

(** The name of a file without its last suffix. *)
Definition stem_of (name : string) : string :=
  match rev (PyStr.split "." name) with
  | _ :: (_ :: _) as more => String.concat "." (rev more)
  | _ => name
  end.

(** What the staging directory holds, by path from its root: float
    2902224 with its three files, float 2902225 with a profile file whose
    last latitude is NaN and a meta file. *)
Definition content (p : list string) : option (option Dataset) :=
  match p with
  | [fid] =>
      if String.eqb fid "2902224" || String.eqb fid "2902225"
      then Some None else None
  | [fid; name] =>
      if String.eqb fid "2902224" then
        if String.eqb name "2902224_prof.nc"
        then Some (Some (prof_file (NFloat 16.42)))
        else if String.eqb name "2902224_meta.nc"
        then Some (Some (meta_file "2902224 "))
        else if String.eqb name "2902224_tech.nc"
        then Some (Some tech_file)
        else None
      else if String.eqb fid "2902225" then
        if String.eqb name "2902225_prof.nc"
        then Some (Some (prof_file NNaN))
        else if String.eqb name "2902225_meta.nc"
        then Some (Some (meta_file "2902225 "))
        else None
      else None
  | _ => None
  end.

Definition fs : Env.Staging :=
  {| Env.Path := list string;
     Env.stage_path := [];
     Env.child := fun p name => (p ++ [name])%list;
     Env.parent := fun p => removelast p;
     Env.stem := fun p => stem_of (List.last p EmptyString);
     Env.path_exists := fun p => bool_decide (is_Some (content p));
     Env.open_dataset := fun p => mjoin (content p) |}.

(** One run's surroundings with the extractor over the sample staging
    directory and a database that accepts every statement. *)
Definition world : Main.World :=
  {| Main.remote := Samples.remote;
     Main.process_directory := fun fid =>
       NetCDFParserWorker.parse_output
         (NetCDFParserWorker.process_directory lib fs fid);
     Main.clients_ok := true;
     Main.execute_ok := fun _ _ => true;
     Main.log_ok := true;
     Main.commit_ok := fun _ => true;
     Main.now := Samples.later_run_time |}.

(** The record of a second float, 2902227. *)
Definition metadata_other : FloatMetadata.t :=
  {| FloatMetadata.float_id := 2902227;
     FloatMetadata.wmo_number := "2902227";
     FloatMetadata.status := Some "ACTIVE";
     FloatMetadata.float_type := Some "core";
     FloatMetadata.data_centre := "IN";
     FloatMetadata.project_name := None;
     FloatMetadata.operating_institution := None;
     FloatMetadata.pi_name := None;
     FloatMetadata.platform_type := Some "ARVOR";
     FloatMetadata.platform_maker := None;
     FloatMetadata.float_serial_no := None;
     FloatMetadata.launch_date := None;
     FloatMetadata.launch_lat := None;
     FloatMetadata.launch_lon := None;
     FloatMetadata.start_mission_date := None;
     FloatMetadata.end_mission_date := None |}.

Definition summary_other : Main.StatusSummary :=
  {| Main.float_id := "2902227";
     Main.latitude := Some 10.0%Q;
     Main.longitude := Some 70.0%Q;
     Main.cycle_number := Some 3;
     Main.profile_time := None;
     Main.last_depth := None;
     Main.last_temp := None;
     Main.last_salinity := None;
     Main.battery_percent := None |}.

(** A run in which the server accepts the upsert of float 2902224 and
    rejects that of float 2902227. *)
Definition rejecting_world : Main.World :=
  {| Main.remote := Samples.remote;
     Main.process_directory := fun fid =>
       if String.eqb fid "2902224"
       then Main.Stats (Some Samples.metadata_first)
              (Some Samples.summary_with_position) None
       else if String.eqb fid "2902227"
       then Main.Stats (Some metadata_other) (Some summary_other) None
       else Main.DirError "Directory not found";
     Main.clients_ok := true;
     Main.execute_ok := fun _ status =>
       negb (FloatStatus.float_id status =? 2902227);
     Main.log_ok := true;
     Main.commit_ok := fun _ => true;
     Main.now := Samples.later_run_time |}.

(** The batch loop after float 2902224 went through, nothing committed
    yet. *)
Definition after_first_float : Main.LoopState :=
  Main.flow_state
    (Main.loop_body rejecting_world "SYNC_ALL" true None Samples.fresh_state
       "2902224").

(** An APEX launched in 2009. *)
Definition old_apex : FloatMetadata.t :=
  {| FloatMetadata.float_id := 1900001;
     FloatMetadata.wmo_number := "1900001";
     FloatMetadata.status := None;
     FloatMetadata.float_type := None;
     FloatMetadata.data_centre := "AO";
     FloatMetadata.project_name := None;
     FloatMetadata.operating_institution := None;
     FloatMetadata.pi_name := None;
     FloatMetadata.platform_type := Some "APEX";
     FloatMetadata.platform_maker := None;
     FloatMetadata.float_serial_no := None;
     FloatMetadata.launch_date := Some (mk_datetime 2009 6 1 0 0 0);
     FloatMetadata.launch_lat := None;
     FloatMetadata.launch_lon := None;
     FloatMetadata.start_mission_date := None;
     FloatMetadata.end_mission_date := None |}.

End Examples.

(* ===================================================================== *)
(** * Properties *)
(* ===================================================================== *)

(** ** The battery estimator ([Helper.estimate_battery_percent]) *)

Section BatteryCurve.

Lemma int_of_float_floor (x : Q) :
  (0 <= x)%Q -> Py.int_of_float x = Qfloor x.
Proof.
  destruct x as [n d]. unfold Qle, Py.int_of_float, Qfloor. simpl.
  intros H. apply Z.quot_div_nonneg; lia.
Qed.


Lemma floor_lt (b : Z) (x : Q) : (x < inject_Z b)%Q -> Qfloor x < b.
Proof.
  intros H. pose proof (Qfloor_le x) as Hx.
  assert (Hlt : (inject_Z (Qfloor x) < inject_Z b)%Q)
    by (eapply Qle_lt_trans; eauto).
  now rewrite <- Zlt_Qlt in Hlt.
Qed.






(** Truncation toward zero followed by the clamp at 0 is rounding down
    followed by the clamp: below zero both end at 0. *)
Lemma clamp_trunc_is_clamp_floor (x : Q) :
  Z.max 0 (Z.min 100 (Py.int_of_float x)) = Z.max 0 (Z.min 100 (Qfloor x)).
Proof.
  destruct (Qlt_le_dec x 0) as [Hneg | Hpos].
  - assert (Hf : Qfloor x < 0) by (apply floor_lt; exact Hneg).
    assert (Ht : Py.int_of_float x <= 0).
    { destruct x as [n d]. unfold Qlt in Hneg. simpl in Hneg.
      unfold Py.int_of_float. simpl.
      apply Z.quot_le_upper_bound; lia. }
    lia.
  - now rewrite int_of_float_floor.
Qed.






(** For a voltage reading taken from a tech file the alkaline branch is
    the code's straight map over 10.5 to 15.5 V, clamped. *)
Example alkaline_mid_scale :
  Helper.estimate_battery_percent "APEX" 10 (Some 13.0%Q)
    (Some {| FloatMetadata.float_id := 1; FloatMetadata.wmo_number := "1";
             FloatMetadata.status := None; FloatMetadata.float_type := None;
             FloatMetadata.data_centre := "IN";
             FloatMetadata.project_name := None;
             FloatMetadata.operating_institution := None;
             FloatMetadata.pi_name := None;
             FloatMetadata.platform_type := Some "APEX";
             FloatMetadata.platform_maker := None;
             FloatMetadata.float_serial_no := None;
             FloatMetadata.launch_date :=
               Some (mk_datetime 2009 6 1 0 0 0);
             FloatMetadata.launch_lat := None;
             FloatMetadata.launch_lon := None;
             FloatMetadata.start_mission_date := None;
             FloatMetadata.end_mission_date := None |})
  = Some 50.
Proof. reflexivity. Qed.

(** C1.  The lithium curve of [estimate_battery_percent] is not monotone in
    the voltage and leaves the ranges 11.6-12.0 V -> [40,55) and
    11.0-11.6 V -> [15,40): with a slope of 50 on both segments, an ARVOR
    at 11.99 V is rated 59 and at 12.0 V only 55, at 11.59 V it is rated 44
    and at 11.6 V only 40; the reading 13.5 V is rated 82. *)
Theorem lithium_percent_drops_at_12V_and_11_6V :
  Helper.estimate_battery_percent "ARVOR" 50 (Some 11.99%Q) None = Some 59 /\
  Helper.estimate_battery_percent "ARVOR" 50 (Some 12.0%Q) None = Some 55 /\
  Helper.estimate_battery_percent "ARVOR" 50 (Some 11.59%Q) None = Some 44 /\
  Helper.estimate_battery_percent "ARVOR" 50 (Some 11.6%Q) None = Some 40 /\
  Helper.estimate_battery_percent "ARVOR" 50 (Some 13.5%Q) None = Some 82.
Proof. repeat split; vm_compute; reflexivity. Qed.

(** The same readings evaluated on doubles, bit for bit as CPython does:
    the values agree with the exact model. *)
Example lithium_percent_binary64 :
  Binary64.lithium_percent Binary64.v_11_99 = Some 59 /\
  Binary64.lithium_percent Binary64.v_12_0 = Some 55 /\
  Binary64.lithium_percent Binary64.v_11_59 = Some 44 /\
  Binary64.lithium_percent Binary64.v_11_6 = Some 40 /\
  Binary64.lithium_percent Binary64.v_13_5 = Some 82.
Proof. repeat split; vm_compute; reflexivity. Qed.

End BatteryCurve.

(** ** The float-type classifier ([Helper.classify_float_type]) *)

Section Classifier.

Lemma mem_In (x : string) (xs : list string) :
  Py.mem x xs = true <-> In x xs.
Proof.
  unfold Py.mem. rewrite existsb_exists. split.
  - intros (y & Hy & Heq). apply String.eqb_eq in Heq. now subst.
  - intros H. exists x. split; [exact H | apply String.eqb_refl].
Qed.

Lemma has_oxygen_spec (params : list string) :
  Helper.has_oxygen params = true <-> Cascade.oxygen_channel params.
Proof.
  unfold Helper.has_oxygen, Cascade.oxygen_channel. simpl.
  rewrite !orb_true_iff, !mem_In. intuition discriminate.
Qed.

Lemma has_optode_spec (sensors : list string) :
  Helper.has_optode sensors = true <-> Cascade.optode_sensor sensors.
Proof. unfold Helper.has_optode. apply existsb_exists. Qed.

Lemma has_chla_spec (params : list string) :
  Helper.has_chla params = true <-> Cascade.chlorophyll params.
Proof.
  unfold Helper.has_chla, Cascade.chlorophyll.
  now rewrite orb_true_iff, mem_In.
Qed.

Lemma has_backscatter_spec (params : list string) :
  Helper.has_backscatter params = true <-> Cascade.backscatter params.
Proof.
  unfold Helper.has_backscatter, Cascade.backscatter. simpl.
  rewrite !orb_true_iff, !mem_In. intuition discriminate.
Qed.

Lemma has_nitrate_spec (params : list string) :
  Helper.has_nitrate params = true <-> Cascade.nitrate params.
Proof.
  unfold Helper.has_nitrate, Cascade.nitrate. simpl.
  rewrite !orb_true_iff, !mem_In. intuition discriminate.
Qed.

Lemma has_ph_spec (params : list string) :
  Helper.has_ph params = true <-> Cascade.pH params.
Proof. apply mem_In. Qed.

Lemma has_cdom_spec (params : list string) :
  Helper.has_cdom params = true <-> Cascade.cdom params.
Proof. apply mem_In. Qed.

Lemma any_bgc_spec (params : list string) :
  existsb id [Helper.has_chla params; Helper.has_backscatter params;
              Helper.has_nitrate params; Helper.has_ph params;
              Helper.has_cdom params] = true
  <-> Cascade.any_bgc params.
Proof.
  unfold Cascade.any_bgc. simpl. unfold id.
  rewrite !orb_true_iff, has_chla_spec, has_backscatter_spec,
    has_nitrate_spec, has_ph_spec, has_cdom_spec.
  intuition discriminate.
Qed.

Lemma any_bgc_orb_spec (params : list string) :
  Helper.has_chla params || Helper.has_backscatter params
  || Helper.has_nitrate params || Helper.has_ph params
  || Helper.has_cdom params = true
  <-> Cascade.any_bgc params.
Proof.
  unfold Cascade.any_bgc.
  rewrite !orb_true_iff, has_chla_spec, has_backscatter_spec,
    has_nitrate_spec, has_ph_spec, has_cdom_spec.
  tauto.
Qed.

Lemma two_bgc_spec (params : list string) :
  (2 <=? Helper.count_true
           [Helper.has_chla params; Helper.has_backscatter params;
            Helper.has_nitrate params; Helper.has_ph params]) = true
  <-> Cascade.two_bgc params.
Proof.
  unfold Cascade.two_bgc.
  rewrite <- has_chla_spec, <- has_backscatter_spec, <- has_nitrate_spec,
    <- has_ph_spec.
  destruct (Helper.has_chla params), (Helper.has_backscatter params),
    (Helper.has_nitrate params), (Helper.has_ph params);
    vm_compute; intuition discriminate.
Qed.

Lemma enhanced_spec (params sensors : list string) :
  (3 <? Z.of_nat (List.length params))
  || existsb (fun s => Py.contains "bio" s) sensors = true
  <-> Cascade.enhanced params sensors.
Proof.
  unfold Cascade.enhanced.
  rewrite orb_true_iff, Z.ltb_lt, existsb_exists.
  split; (intros [H | H]; [left; lia | right; exact H]).
Qed.

Lemma deep_family_spec (pf : string) :
  Py.mem pf Helper.deep_families = true <-> Cascade.deep_family pf.
Proof. apply mem_In. Qed.

Lemma bool_true_or_not (b : bool) (P : Prop) :
  (b = true <-> P) -> (b = true /\ P) \/ (b = false /\ ~ P).
Proof. destruct b; intros [H1 H2]; [left | right]; intuition discriminate. Qed.

(** The code runs the cascade: the value of [classify_rules] is the one
    the rules, tried in order, assign. *)
Lemma classify_rules_classifies (params sensors : list string) (pf : string) :
  Cascade.classifies params sensors pf
    (Helper.classify_rules params sensors pf).
Proof.
  unfold Helper.classify_rules.
  destruct (bool_true_or_not _ _ (deep_family_spec pf)) as [[-> Hd] | [-> Hd]];
    [now constructor |].
  assert (Hox : Helper.has_oxygen params || Helper.has_optode sensors = true
                <-> Cascade.oxygen_channel params
                    \/ Cascade.optode_sensor sensors)
    by (now rewrite orb_true_iff, has_oxygen_spec, has_optode_spec).
  destruct (bool_true_or_not _ _ Hox) as [[-> Ho] | [-> Ho]].
  { destruct (bool_true_or_not _ _ (any_bgc_spec params)) as [[-> Ha] | [-> Ha]].
    - now apply Cascade.rule_oxygen_upgraded.
    - now apply Cascade.rule_oxygen. }
  destruct (bool_true_or_not _ _ (two_bgc_spec params)) as [[-> Ht] | [-> Ht]];
    [now apply Cascade.rule_two_bgc |].
  destruct (bool_true_or_not _ _ (any_bgc_orb_spec params))
    as [[-> Ha] | [-> Ha]];
    [now apply Cascade.rule_one_bgc |].
  destruct (bool_true_or_not _ _ (enhanced_spec params sensors))
    as [[-> He] | [-> He]].
  - now apply Cascade.rule_enhanced.
  - now apply Cascade.rule_core.
Qed.

(** The rules leave no choice: two values the cascade assigns are equal. *)
Lemma classifies_functional (params sensors : list string) (pf t1 t2 : string) :
  Cascade.classifies params sensors pf t1 ->
  Cascade.classifies params sensors pf t2 -> t1 = t2.
Proof.
  assert (Htwo : Cascade.two_bgc params -> Cascade.any_bgc params).
  { unfold Cascade.two_bgc, Cascade.any_bgc. tauto. }
  intros H1 H2. inversion H1; inversion H2; subst; try reflexivity; tauto.
Qed.

(** C2, as stated, fails: a family that merely contains "DEEP" is not
    classified [deep]. *)
Lemma classify_deep_solo_is_core :
  ~ (forall params sensors pf,
        Cascade.family_contains_deep pf ->
        Helper.classify_rules params sensors pf = "deep").
Proof.
  intros H. specialize (H [] [] "DEEP SOLO" eq_refl). discriminate H.
Qed.

(** The value of [classify_rules] is the only one the cascade assigns. *)
Lemma classify_rules_iff (params sensors : list string) (pf t : string) :
  Helper.classify_rules params sensors pf = t
  <-> Cascade.classifies params sensors pf t.
Proof.
  split.
  - intros <-. apply classify_rules_classifies.
  - intros H. eapply classifies_functional;
      [apply classify_rules_classifies | exact H].
Qed.

Lemma classify_rules_deep_iff (params sensors : list string) (pf : string) :
  Helper.classify_rules params sensors pf = "deep" <-> Cascade.deep_family pf.
Proof.
  rewrite classify_rules_iff. split.
  - intros H. inversion H. assumption.
  - apply Cascade.rule_deep.
Qed.

(** C2, amended.  [classify_float_type] evaluates the rule cascade in the
    stated order, first match wins, where rule 1 fires exactly when the
    platform family equals one of "DEEP", "DEEP ARVOR", "DEEP NINJA",
    "DEEP APEX": such an input is [deep] whatever the parameters and
    sensors, and no other input is. *)
Theorem classify_rules_cascade (params sensors : list string) (pf : string) :
  (forall t, Helper.classify_rules params sensors pf = t
             <-> Cascade.classifies params sensors pf t) /\
  (Helper.classify_rules params sensors pf = "deep"
   <-> Cascade.deep_family pf).
Proof.
  split; [intros t; apply classify_rules_iff | apply classify_rules_deep_iff].
Qed.

(** On the dataset: the file is classified [deep] exactly when its
    PLATFORM_FAMILY, stripped and upper-cased, is one of the four names. *)
Corollary classify_float_type_deep (ds : Dataset) :
  Helper.classify_float_type ds = "deep"
  <-> Cascade.deep_family (Helper.extract_platform_family ds).
Proof. apply classify_rules_deep_iff. Qed.

(** The oxygen-plus-chlorophyll upgrade of the design's examples. *)
Example classify_doxy_chla :
  Helper.classify_rules ["doxy"; "chla"] [] EmptyString = "biogeochemical".
Proof. reflexivity. Qed.

End Classifier.

(** ** The table converter ([ParquetConverter.convert]) *)

Section Converter.
Variable repr_float : Q -> string.
Variable float_of_text : string -> option Q.
Variable fromtimestamp : Q -> option datetime.
Variable write_table : list ProfileRow.t -> bool.
Variable staging_path : string.
Variable ds : Dataset.
Variable float_id : string.

Abbreviation profile_head :=
  (ParquetConverter.profile_head repr_float float_of_text fromtimestamp
     ds float_id).
Abbreviation profiles_loop :=
  (ParquetConverter.profiles_loop repr_float float_of_text fromtimestamp
     ds float_id).
Abbreviation collect_rows :=
  (ParquetConverter.collect_rows repr_float float_of_text fromtimestamp
     ds float_id).
Abbreviation level_row := (ParquetConverter.level_row ds).
Abbreviation profile_rows := (ParquetConverter.profile_rows ds).
Abbreviation n_levels := (ParquetConverter.n_levels ds).
Abbreviation n_prof := (ParquetConverter.n_prof ds).

Lemma decode_cell_is_Some (v : ncval) :
  is_Some (ParquetConverter.decode_cell v) <-> v <> NNaN.
Proof.
  destruct v; simpl; split; intros H; try congruence; try (eexists; reflexivity).
  destruct H as [x Hx]. discriminate.
Qed.

Lemma get_value_pressures (i j : nat) :
  ParquetConverter.get_value ds (ParquetConverter.pressures ds) i j
  = Pressure.at_level ds i j ≫= ParquetConverter.decode_cell.
Proof.
  unfold ParquetConverter.get_value, Pressure.at_level.
  destruct (ParquetConverter.pressures ds) as [a |]; simpl; [| reflexivity].
  destruct (a !! _); reflexivity.
Qed.

Lemma level_row_Some
  (h : ParquetConverter.profile_header) (i j : nat) (r : ProfileRow.t) :
  level_row h i j = Some r ->
  ProfileRow.level r = j /\
  ProfileRow.pressure r = Pressure.at_level ds i j ≫= ParquetConverter.decode_cell /\
  is_Some (ProfileRow.pressure r).
Proof.
  unfold ParquetConverter.level_row. rewrite get_value_pressures.
  destruct (Pressure.at_level ds i j ≫= ParquetConverter.decode_cell) as [p |];
    [| discriminate].
  intros [= <-]. simpl. eauto.
Qed.

Lemma level_row_is_Some (h : ParquetConverter.profile_header) (i j : nat) :
  is_Some (level_row h i j) <-> Pressure.not_nan (Pressure.at_level ds i j).
Proof.
  unfold ParquetConverter.level_row, Pressure.not_nan.
  rewrite get_value_pressures.
  destruct (Pressure.at_level ds i j) as [x |]; simpl.
  - pose proof (decode_cell_is_Some x) as Hx.
    destruct (ParquetConverter.decode_cell x) as [c |].
    + split; [| eauto]. intros _. exists x. split; [reflexivity |].
      apply Hx. eauto.
    + split; [intros [? ?]; discriminate |].
      intros (y & [= <-] & Hy). apply Hx in Hy. destruct Hy; discriminate.
  - split; [intros [? ?]; discriminate | intros (y & ? & _); discriminate].
Qed.

Lemma elem_of_profile_rows
  (h : ParquetConverter.profile_header) (i : nat) (r : ProfileRow.t) :
  r ∈ profile_rows h i <->
  exists j, (j < n_levels)%nat /\ level_row h i j = Some r.
Proof.
  unfold ParquetConverter.profile_rows. rewrite list_elem_of_omap.
  split; intros (j & H1 & H2); exists j.
  - apply elem_of_seq in H1. split; [lia | exact H2].
  - split; [apply elem_of_seq; lia | exact H2].
Qed.

Lemma profile_rows_level_iff (h : ParquetConverter.profile_header) (i j : nat) :
  (exists r, r ∈ profile_rows h i /\ ProfileRow.level r = j) <->
  (j < n_levels)%nat /\ Pressure.not_nan (Pressure.at_level ds i j).
Proof.
  split.
  - intros (r & Hr & Hl). apply elem_of_profile_rows in Hr as (j' & Hlt & Hrow).
    destruct (level_row_Some _ _ _ _ Hrow) as (Hj & _ & _).
    rewrite Hl in Hj. subst j'.
    split; [exact Hlt |]. apply (level_row_is_Some h). eauto.
  - intros (Hlt & Hv). apply (level_row_is_Some h) in Hv as [r Hr].
    exists r. split.
    + apply elem_of_profile_rows. eauto.
    + now apply level_row_Some in Hr.
Qed.

Lemma levels_of_omap
  (h : ParquetConverter.profile_header) (i : nat) (l : list nat) :
  ProfileRow.level <$> omap (level_row h i) l
  = filter (fun j => is_Some (level_row h i j)) l.
Proof.
  induction l as [| j l IH]; [reflexivity |].
  cbn [omap list_omap]. rewrite filter_cons.
  destruct (level_row h i j) as [r |] eqn:E.
  - rewrite decide_True by eauto. cbn. rewrite IH. f_equal.
    now apply level_row_Some in E.
  - rewrite decide_False by (intros [? ?]; discriminate). exact IH.
Qed.

Lemma profile_rows_levels_NoDup
  (h : ParquetConverter.profile_header) (i : nat) :
  NoDup (ProfileRow.level <$> profile_rows h i).
Proof.
  unfold ParquetConverter.profile_rows. rewrite levels_of_omap.
  apply NoDup_filter, NoDup_seq.
Qed.

Lemma length_omap_all {A B : Type} (f : A -> option B) (l : list A) :
  (forall x, x ∈ l -> is_Some (f x)) -> length (omap f l) = length l.
Proof.
  induction l as [| x l IH]; intros H; [reflexivity |].
  cbn [omap list_omap]. destruct (H x) as [y ->]; [left |].
  cbn. f_equal. apply IH. intros z Hz. apply H. now right.
Qed.

Lemma length_profile_rows_full (h : ParquetConverter.profile_header) (i : nat) :
  (forall j, (j < n_levels)%nat ->
             Pressure.not_nan (Pressure.at_level ds i j)) ->
  length (profile_rows h i) = n_levels.
Proof.
  intros H. unfold ParquetConverter.profile_rows.
  rewrite length_omap_all, length_seq; [reflexivity |].
  intros j Hj. apply elem_of_seq in Hj. apply level_row_is_Some, H. lia.
Qed.

Lemma profiles_loop_rows
  (req : ParquetConverter.required_arrays) (n s : nat) (rows : list ProfileRow.t) :
  profiles_loop req (seq s n) = Returns rows ->
  exists heads : list ParquetConverter.profile_header,
    length heads = n /\
    (forall k h, heads !! k = Some h -> profile_head req (s + k) = Returns h) /\
    rows = concat (imap (fun k h => profile_rows h (s + k)) heads).
Proof.
  revert s rows. induction n as [| n IH]; intros s rows.
  - simpl. intros [= <-]. exists [].
    split; [reflexivity |]. split; [| reflexivity].
    intros k h Hk. discriminate.
  - cbn [seq ParquetConverter.profiles_loop].
    destruct (profile_head req s) as [h |] eqn:Eh; [| discriminate].
    cbn [mbind pyres_bind].
    destruct (profiles_loop req (seq (S s) n)) as [more |] eqn:Em;
      [| discriminate].
    cbn [mbind pyres_bind]. intros [= <-].
    destruct (IH _ _ Em) as (heads & Hlen & Hheads & ->).
    exists (h :: heads). split; [simpl; lia |]. split.
    + intros [| k] h' Hk; simpl in Hk.
      * injection Hk as <-. now rewrite Nat.add_0_r.
      * replace (s + S k)%nat with (S s + k)%nat by lia. now apply Hheads.
    + rewrite imap_cons. cbn [concat]. rewrite Nat.add_0_r. f_equal. f_equal.
      apply imap_ext. intros k x _. unfold compose. f_equal. lia.
Qed.

Lemma length_concat_full
  (heads : list ParquetConverter.profile_header) (s : nat) :
  (forall i j, (s <= i < s + length heads)%nat -> (j < n_levels)%nat ->
               Pressure.not_nan (Pressure.at_level ds i j)) ->
  length (concat (imap (fun k h => profile_rows h (s + k)) heads))
  = (length heads * n_levels)%nat.
Proof.
  revert s. induction heads as [| h heads IH]; intros s H; [reflexivity |].
  rewrite imap_cons. cbn [concat]. rewrite length_app, Nat.add_0_r.
  rewrite length_profile_rows_full by (intros j Hj; apply H; simpl; lia).
  rewrite (imap_ext _ (fun k h => profile_rows h (S s + k)))
    by (intros k x _; unfold compose; f_equal; lia).
  rewrite IH by (intros i j Hi Hj; apply H; simpl in *; lia).
  simpl. lia.
Qed.

Lemma profiles_loop_pressure
  (req : ParquetConverter.required_arrays) (idxs : list nat)
  (rows : list ProfileRow.t) :
  profiles_loop req idxs = Returns rows ->
  forall r, r ∈ rows -> is_Some (ProfileRow.pressure r).
Proof.
  revert rows. induction idxs as [| i idxs IH]; intros rows.
  - simpl. intros [= <-] r Hr. inversion Hr.
  - cbn [ParquetConverter.profiles_loop].
    destruct (profile_head req i) as [h |]; [| discriminate].
    cbn [mbind pyres_bind].
    destruct (profiles_loop req idxs) as [more |]; [| discriminate].
    cbn [mbind pyres_bind]. intros [= <-] r Hr.
    apply elem_of_app in Hr as [Hr | Hr]; [| now apply (IH more)].
    apply elem_of_profile_rows in Hr as (j & _ & Hrow).
    now apply level_row_Some in Hrow.
Qed.

(** What a successful [convert] went through: the required arrays were
    read and the two loops ran to their end. *)
Lemma convert_Some_inv (path : string) (rows : list ProfileRow.t) :
  ParquetConverter.convert repr_float float_of_text fromtimestamp
    write_table staging_path (Some ds) float_id = Some (path, rows) ->
  exists req, profiles_loop req (seq 0 n_prof) = Returns rows.
Proof.
  unfold ParquetConverter.convert, ParquetConverter.collect_rows.
  destruct (decide _); [discriminate |].
  destruct (ParquetConverter.read_required ds) as [req |]; [| discriminate].
  cbn [mbind pyres_bind].
  destruct (profiles_loop req (seq 0 n_prof)) as [[| r rs] |] eqn:E;
    try discriminate.
  destruct (write_table (r :: rs)); [| discriminate].
  intros [= _ <-]. exists req. exact E.
Qed.

(** The profile loop runs to its end when every profile header parses. *)
Lemma profiles_loop_returns
  (req : ParquetConverter.required_arrays) (n s : nat) :
  (forall i, (s <= i < s + n)%nat ->
             exists h, profile_head req i = Returns h) ->
  exists rows, profiles_loop req (seq s n) = Returns rows.
Proof.
  revert s. induction n as [| n IH]; intros s Hheads; [now exists [] |].
  cbn [seq ParquetConverter.profiles_loop].
  destruct (Hheads s ltac:(lia)) as (h & ->). cbn [mbind pyres_bind].
  destruct (IH (S s)) as (more & ->); [intros i Hi; apply Hheads; lia |].
  cbn [mbind pyres_bind]. eauto.
Qed.

(** [convert] does write a table when the required variables are there,
    every profile header parses, some pair holds a pressure that is not NaN
    and pyarrow accepts the rows. *)
Lemma convert_succeeds (req : ParquetConverter.required_arrays) :
  n_prof <> 0%nat -> n_levels <> 0%nat ->
  ParquetConverter.read_required ds = Returns req ->
  (forall i, (i < n_prof)%nat -> exists h, profile_head req i = Returns h) ->
  (exists i j, (i < n_prof)%nat /\ (j < n_levels)%nat
               /\ Pressure.not_nan (Pressure.at_level ds i j)) ->
  (forall rows, write_table rows = true) ->
  exists path rows,
    ParquetConverter.convert repr_float float_of_text fromtimestamp
      write_table staging_path (Some ds) float_id = Some (path, rows).
Proof.
  intros Hp Hl Hreq Hheads (i & j & Hi & Hj & Hv) Hwrite.
  destruct (profiles_loop_returns req n_prof 0) as (rows & Hloop);
    [intros k Hk; apply Hheads; lia |].
  unfold ParquetConverter.convert, ParquetConverter.collect_rows.
  rewrite decide_False by tauto. rewrite Hreq. cbn [mbind pyres_bind].
  rewrite Hloop.
  destruct (profiles_loop_rows _ _ _ _ Hloop) as (heads & Hlen & _ & Hrows).
  destruct (lookup_lt_is_Some_2 heads i ltac:(lia)) as (h & Hh).
  destruct (proj2 (profile_rows_level_iff h i j) (conj Hj Hv)) as (r & Hr & _).
  assert (Hin : r ∈ rows).
  { rewrite Hrows. apply list_elem_of_In, in_concat.
    exists (profile_rows h i). split; [| now apply list_elem_of_In].
    apply list_elem_of_In, (list_elem_of_lookup_2 _ i).
    now rewrite list_lookup_imap, Hh. }
  destruct rows as [| r0 rows']; [inversion Hin |].
  rewrite Hwrite. eauto.
Qed.

(** C3, amended.  When [convert] writes a table, its rows are those of the
    profiles in order, and for each profile there is a row for depth level
    [j] if and only if [j] is below N_LEVELS and the PRES array (present
    with shape (N_PROF, N_LEVELS)) holds at that pair a value that is not
    NaN, one row at most per level.  A sentinel such as 99999 that reaches
    the converter as a number is emitted like any other reading.  No row
    has an absent pressure, and when every pair holds such a value the
    table has N_PROF * N_LEVELS rows (10 for 2 profiles of 5 levels). *)
Theorem convert_rows_iff_pressure_not_nan (path : string) (rows : list ProfileRow.t) :
  ParquetConverter.convert repr_float float_of_text fromtimestamp
    write_table staging_path (Some ds) float_id = Some (path, rows) ->
  exists heads : list ParquetConverter.profile_header,
    length heads = n_prof /\
    rows = concat (imap (fun i h => profile_rows h i) heads) /\
    (forall i h j, heads !! i = Some h ->
       ((exists r, r ∈ profile_rows h i /\ ProfileRow.level r = j)
        <-> (j < n_levels)%nat
            /\ Pressure.not_nan (Pressure.at_level ds i j))
       /\ NoDup (ProfileRow.level <$> profile_rows h i)) /\
    (forall r, r ∈ rows -> is_Some (ProfileRow.pressure r)) /\
    ((forall i j, (i < n_prof)%nat -> (j < n_levels)%nat ->
                  Pressure.not_nan (Pressure.at_level ds i j)) ->
     length rows = (n_prof * n_levels)%nat).
Proof.
  intros Hconv. destruct (convert_Some_inv _ _ Hconv) as (req & Hloop).
  destruct (profiles_loop_rows _ _ _ _ Hloop) as (heads & Hlen & _ & Hrows).
  exists heads. split; [exact Hlen |]. split; [exact Hrows |].
  split; [| split].
  - intros i h j _. split;
      [apply profile_rows_level_iff | apply profile_rows_levels_NoDup].
  - eapply profiles_loop_pressure; exact Hloop.
  - intros Hall. rewrite Hrows.
    rewrite (length_concat_full heads 0%nat); [now rewrite Hlen |].
    intros i j Hi Hj. apply Hall; lia.
Qed.

End Converter.

(** C3, as stated, fails: a pressure slot holding the sentinel 99999 is not
    a valid pressure, and [convert] emits its row all the same. *)
Lemma convert_emits_sentinel_pressure :
  ~ Pressure.valid (Pressure.at_level Samples.sentinel_profile_file 0 0) /\
  exists path r,
    ParquetConverter.convert Samples.repr_float Samples.float_of_text
      Samples.fromtimestamp Samples.write_table Samples.staging_path
      (Some Samples.sentinel_profile_file) "2902224" = Some (path, [r]) /\
    ProfileRow.level r = 0%nat /\
    ProfileRow.pressure r = Some (NFloat 99999).
Proof.
  split.
  - intros (x & Hx & _ & Hs). vm_compute in Hx. injection Hx as <-.
    vm_compute in Hs. discriminate.
  - eexists _, _. vm_compute. repeat split; reflexivity.
Qed.

(** Two profiles of five levels with every pressure a reading: ten rows. *)
Lemma convert_full_file_has_10_rows :
  exists path rows,
    ParquetConverter.convert Samples.repr_float Samples.float_of_text
      Samples.fromtimestamp Samples.write_table Samples.staging_path
      (Some Samples.full_profile_file) "2902224" = Some (path, rows) /\
    length rows = 10%nat.
Proof.
  destruct (ParquetConverter.convert Samples.repr_float Samples.float_of_text
      Samples.fromtimestamp Samples.write_table Samples.staging_path
      (Some Samples.full_profile_file) "2902224") as [[path rows] |] eqn:E;
    [| vm_compute in E; discriminate].
  exists path, rows. split; [reflexivity |].
  destruct (convert_rows_iff_pressure_not_nan _ _ _ _ _ _ _ _ _ E)
    as (heads & _ & _ & _ & _ & Hcount).
  rewrite Hcount; [reflexivity |].
  intros i j Hi Hj. change (i < 2)%nat in Hi. change (j < 5)%nat in Hj.
  exists (NFloat 10.5). split; [| discriminate].
  destruct i as [| [| i]]; [| | lia];
    (destruct j as [| [| [| [| [| j]]]]]; [| | | | | lia]);
    vm_compute; reflexivity.
Defined.

(** ** The sync orchestrator ([ArgoSyncWorker]) *)

Section Sync.
Import ArgoSyncWorker.
Variable w : Remote.

(** Whether the download task of a float reports success. *)
Abbreviation fetched := (fun float_id => (download_with_limit w float_id).2).

Lemma count_true_pos (bs : list bool) :
  (1 <=? Helper.count_true bs) = true <-> In true bs.
Proof.
  unfold Helper.count_true. rewrite Z.leb_le.
  assert (H : (0 < List.length (List.filter id bs))%nat <-> In true bs).
  { induction bs as [| b bs IH]; cbn [List.filter List.length In].
    - split; [lia | tauto].
    - destruct b; cbn [id List.length].
      + split; [intros _; now left | lia].
      + rewrite IH. split; [tauto | intros [? | ?]; [discriminate | tauto]]. }
  rewrite <- H. lia.
Qed.

Lemma download_file_true (o : FileOutcome) :
  _download_file o = true <-> o = Downloaded.
Proof.
  destruct o as [| code |]; simpl; try (split; congruence).
  destruct (code =? 404); split; congruence.
Qed.

Lemma elem_of_remove_first (x y : string) (xs : list string) :
  y ∈ remove_first x xs -> y ∈ xs.
Proof.
  induction xs as [| z xs IH]; simpl; [tauto |].
  destruct (decide (x = z)); intros H; [now right |].
  apply elem_of_cons in H as [-> | H]; [left | right; auto].
Qed.

Lemma elem_of_remove_first_ne (x y : string) (xs : list string) :
  y <> x -> y ∈ xs -> y ∈ remove_first x xs.
Proof.
  intros Hne. induction xs as [| z xs IH]; simpl; [tauto |].
  intros H. apply elem_of_cons in H as [-> | H].
  - rewrite decide_False by congruence. left.
  - destruct (decide (x = z)); [exact H | right; auto].
Qed.

Lemma remove_first_NoDup (x : string) (xs : list string) :
  NoDup xs -> NoDup (remove_first x xs) /\ x ∉ remove_first x xs.
Proof.
  induction 1 as [| z xs Hz Hnd [IH1 IH2]]; simpl.
  - split; [constructor | apply not_elem_of_nil].
  - destruct (decide (x = z)) as [-> | Hne]; [now split |].
    split.
    + constructor; [| exact IH1]. intros H. apply Hz.
      eapply elem_of_remove_first; exact H.
    + intros H. apply elem_of_cons in H as [-> | H]; [congruence | auto].
Qed.

Lemma mark_successful_downloaded (m : Manifest) (x : string) :
  downloaded (mark_successful m x) = (downloaded m ++ [x])%list.
Proof. unfold mark_successful. now destruct (bool_decide _). Qed.

Lemma mark_successful_failed (m : Manifest) (x : string) :
  failed (mark_successful m x) =
  if bool_decide (x ∈ failed m) then remove_first x (failed m) else failed m.
Proof. unfold mark_successful. now destruct (bool_decide _). Qed.

Lemma foldl_mark_successful_downloaded (succ : list string) (m : Manifest) :
  downloaded (foldl mark_successful m succ) = (downloaded m ++ succ)%list.
Proof.
  revert m. induction succ as [| x succ IH]; intros m; simpl.
  - now rewrite app_nil_r.
  - rewrite IH, mark_successful_downloaded, <- app_assoc. reflexivity.
Qed.

Lemma foldl_mark_successful_failed (succ : list string) (m : Manifest) :
  NoDup (failed m) ->
  NoDup (failed (foldl mark_successful m succ)) /\
  forall y, y ∈ failed (foldl mark_successful m succ)
            <-> y ∈ failed m /\ y ∉ succ.
Proof.
  revert m. induction succ as [| x succ IH]; intros m Hnd; simpl.
  - split; [exact Hnd |]. intros y. split; [| tauto].
    intros H. split; [exact H | apply not_elem_of_nil].
  - assert (Hnd' : NoDup (failed (mark_successful m x))
                   /\ x ∉ failed (mark_successful m x)).
    { rewrite mark_successful_failed. case_bool_decide as Hx.
      - now apply remove_first_NoDup.
      - now split. }
    destruct Hnd' as [Hnd' Hx'].
    destruct (IH _ Hnd') as [IH1 IH2]. split; [exact IH1 |].
    intros y. rewrite IH2, not_elem_of_cons, mark_successful_failed.
    case_bool_decide as Hx.
    + split.
      * intros [Hy Hs]. split; [eapply elem_of_remove_first; exact Hy |].
        split; [| exact Hs]. intros ->.
        rewrite mark_successful_failed in Hx'.
        rewrite bool_decide_true in Hx' by exact Hx. contradiction.
      * intros (Hy & Hne & Hs). split; [| exact Hs].
        now apply elem_of_remove_first_ne.
    + split.
      * intros [Hy Hs]. split; [exact Hy |]. split; [| exact Hs].
        intros ->. contradiction.
      * tauto.
Qed.

Lemma mark_failed_downloaded (m : Manifest) (x : string) :
  downloaded (mark_failed m x) = downloaded m.
Proof. unfold mark_failed. now destruct (bool_decide _). Qed.

Lemma foldl_mark_failed (fails : list string) (m : Manifest) :
  downloaded (foldl mark_failed m fails) = downloaded m /\
  (NoDup (failed m) -> NoDup (failed (foldl mark_failed m fails))) /\
  forall y, y ∈ failed (foldl mark_failed m fails)
            <-> y ∈ failed m \/ y ∈ fails.
Proof.
  revert m. induction fails as [| x fails IH]; intros m; simpl.
  - split; [reflexivity |]. split; [tauto |]. intros y.
    rewrite elem_of_nil. tauto.
  - destruct (IH (mark_failed m x)) as (IH1 & IH2 & IH3).
    split; [now rewrite IH1, mark_failed_downloaded |]. split.
    + intros Hnd. apply IH2. unfold mark_failed.
      case_bool_decide as Hx; [| exact Hnd]. simpl.
      apply NoDup_app. split; [exact Hnd |]. split; [| apply NoDup_singleton].
      intros y Hy Hy'. apply list_elem_of_singleton in Hy'. now subst.
    + intros y. rewrite IH3, elem_of_cons. unfold mark_failed.
      case_bool_decide as Hx; simpl.
      * rewrite elem_of_app, list_elem_of_singleton. tauto.
      * split; [tauto |].
        intros [H | [-> | H]]; auto; left; now apply dec_stable.
Qed.

Lemma split_results_spec (l : list string) :
  split_results (map (download_with_limit w) l)
  = (filter (fun x => fetched x = true) l,
     filter (fun x => fetched x <> true) l).
Proof.
  induction l as [| x l IH]; [reflexivity |].
  cbn [map split_results download_with_limit]. rewrite IH.
  rewrite !filter_cons. cbn [download_with_limit snd].
  destruct (try_except (sync w x) false) eqn:E.
  - rewrite decide_True by reflexivity. rewrite decide_False by tauto.
    reflexivity.
  - rewrite decide_False by discriminate. rewrite decide_True by discriminate.
    reflexivity.
Qed.

Lemma split_results_gather (s : gset string) :
  split_results (gather_downloads w s)
  = (filter (fun x => fetched x = true) (elements s),
     filter (fun x => fetched x <> true) (elements s)).
Proof. apply split_results_spec. Qed.

Lemma gather_downloads_fst (s : gset string) :
  (gather_downloads w s).*1 = elements s.
Proof.
  unfold gather_downloads. induction (elements s) as [| x l IH];
    [reflexivity |].
  cbn. now rewrite IH.
Qed.

Lemma fetched_true (x : string) :
  fetched x = true <-> sync w x = Returns true.
Proof.
  cbn [download_with_limit snd]. destruct (sync w x) as [[|] |]; simpl;
    split; congruence.
Qed.

(** What [sync_pending] does, in one statement for both of its branches:
    a download task is started for exactly the pending floats; the floats
    fetched are appended to [downloaded]; [failed] loses the floats fetched
    and gains the pending floats not fetched. *)
Lemma sync_pending_spec (file : option Manifest) (index_floats : gset string) :
  let m := _load_manifest file in
  let run := sync_pending w file index_floats in
  let m' := _load_manifest (manifest_file run) in
  let pending : gset string := index_floats ∖ list_to_set (downloaded m) in
  synced run = elements pending /\
  downloaded m' =
    (downloaded m
     ++ filter (fun x => fetched x = true) (elements pending))%list /\
  (NoDup (failed m) ->
   NoDup (failed m') /\
   forall y, y ∈ failed m' <->
             (y ∈ failed m /\ ~ (y ∈ pending /\ fetched y = true))
             \/ (y ∈ pending /\ fetched y <> true)).
Proof.
  intros m run m' pending. subst run m'. unfold sync_pending.
  fold m. fold pending.
  destruct (decide (pending = ∅)) as [He | Hne].
  - cbn [manifest_file synced]. fold m. rewrite He, elements_empty.
    split; [reflexivity |]. split; [now rewrite app_nil_r |].
    intros Hnd. split; [exact Hnd |]. intros y.
    rewrite elem_of_empty. tauto.
  - unfold _sync_floats_concurrent. rewrite decide_False by exact Hne.
    rewrite split_results_gather.
    cbn [manifest_file synced _load_manifest]. unfold update_manifest.
    set (succ := filter (fun x => fetched x = true) (elements pending)).
    set (fails := filter (fun x => fetched x <> true) (elements pending)).
    destruct (foldl_mark_failed fails (foldl mark_successful m succ))
      as (Hd & Hn & Hf).
    split; [apply gather_downloads_fst |].
    split; [now rewrite Hd, foldl_mark_successful_downloaded |].
    intros Hnd.
    destruct (foldl_mark_successful_failed succ m Hnd) as [Hn1 Hf1].
    split; [now apply Hn |].
    intros y. rewrite Hf, Hf1. subst succ fails.
    rewrite !list_elem_of_filter, !elem_of_elements. tauto.
Qed.

(** C9.  [sync] of one float returns true if and only if at least one of
    its four file requests ends with the file downloaded; when all four
    fail, whatever the status codes or errors, it returns false; no outcome
    of a request makes [sync] raise (the staging directory being there). *)
Theorem sync_true_iff_some_file_downloaded (float_id : string) :
  mkdir_ok w float_id = true ->
  length (files float_id) = 4%nat /\
  exists b, sync w float_id = Returns b /\
    (b = true <->
     exists f, f ∈ files float_id /\ request w float_id f = Downloaded) /\
    ((forall f, f ∈ files float_id -> request w float_id f <> Downloaded) ->
     b = false).
Proof.
  intros Hdir. split; [reflexivity |].
  unfold sync. rewrite Hdir. eexists. split; [reflexivity |].
  assert (Hiff : (1 <=? Helper.count_true
                    (map (fun f => _download_file (request w float_id f))
                       (files float_id))) = true
                 <-> exists f, f ∈ files float_id
                               /\ request w float_id f = Downloaded).
  { rewrite count_true_pos, in_map_iff. split.
    - intros (f & Hf & Hin). exists f. split; [now apply list_elem_of_In |].
      now apply download_file_true.
    - intros (f & Hin & Hf). exists f. split; [now apply download_file_true |].
      now apply list_elem_of_In. }
  split; [exact Hiff |].
  intros Hall. apply not_true_is_false. rewrite Hiff.
  intros (f & Hin & Hf). now apply (Hall f).
Qed.

(** C7.  The manifest after [syncAll]: starting from a manifest whose
    [downloaded] and [failed] are disjoint ([failed] listing each float
    once), [downloaded] and [failed] are disjoint afterwards, every pending
    float (in the index, not yet downloaded) is in exactly one of the two,
    and a float fetched in this run is in [downloaded] and no longer in
    [failed]. *)
Theorem syncAll_keeps_manifest_disjoint
  (file : option Manifest) (run : SyncRun) :
  syncAll w file = Returns run ->
  NoDup (failed (_load_manifest file)) ->
  (forall x, x ∈ downloaded (_load_manifest file) ->
             x ∉ failed (_load_manifest file)) ->
  let m := _load_manifest file in
  let m' := _load_manifest (manifest_file run) in
  (forall x, x ∈ downloaded m' -> x ∉ failed m') /\
  (forall all_floats x,
      index_global_meta w = Returns all_floats ->
      x ∈ all_floats ∖ list_to_set (C := gset string) (downloaded m) ->
      x ∈ downloaded m' /\ x ∉ failed m'
      \/ (x ∉ downloaded m') /\ x ∈ failed m') /\
  (forall x, x ∈ synced run -> sync w x = Returns true ->
             x ∈ downloaded m' /\ x ∉ failed m').
Proof.
  unfold syncAll. destruct (index_global_meta w) as [all_floats |];
    [| discriminate].
  cbn [mbind pyres_bind]. intros [= <-] Hnd Hdisj.
  destruct (sync_pending_spec file all_floats) as (Hs & Hd & Hf).
  destruct (Hf Hnd) as [_ Hfailed]. clear Hf.
  set (m := _load_manifest file) in *.
  set (m' := _load_manifest (manifest_file (sync_pending w file all_floats)))
    in *.
  set (pending := all_floats ∖ list_to_set (downloaded m)) in *.
  assert (Hdown : forall x,
            x ∈ downloaded m' <->
            x ∈ downloaded m \/ (x ∈ pending /\ fetched x = true)).
  { intros x. rewrite Hd, elem_of_app, list_elem_of_filter, elem_of_elements.
    tauto. }
  assert (Hpend : forall x, x ∈ pending -> x ∉ downloaded m).
  { intros x Hx. apply elem_of_difference in Hx as [_ Hx].
    now rewrite elem_of_list_to_set in Hx. }
  split; [| split].
  - intros x Hx Hx'. apply Hdown in Hx. apply Hfailed in Hx'.
    destruct Hx as [Hx | Hx], Hx' as [Hx' | Hx'].
    + destruct Hx' as [Hx' _]. now apply (Hdisj x).
    + destruct Hx' as [Hx' _]. now apply (Hpend x).
    + tauto.
    + tauto.
  - intros all_floats' x [= <-] Hx. fold pending in Hx.
    rewrite Hdown, Hfailed.
    specialize (Hpend x Hx).
    destruct (decide (fetched x = true)); [left | right]; tauto.
  - intros x Hx Hok. rewrite Hs, elem_of_elements in Hx.
    apply fetched_true in Hok. rewrite Hdown, Hfailed. tauto.
Qed.

(** What both entry points have in common: each run is [sync_pending]
    over the floats of its index, or [update]'s return on an empty weekly
    index, which leaves everything as it is. *)
Lemma run_cases (file : option Manifest) (run : SyncRun) :
  syncAll w file = Returns run \/ update w file = Returns run ->
  (exists index_floats, run = sync_pending w file index_floats)
  \/ (manifest_file run = file /\ synced run = []).
Proof.
  unfold syncAll, update. intros [H | H].
  - destruct (index_global_meta w) as [s |]; [| discriminate].
    injection H as <-. left. now exists s.
  - destruct (index_this_week_prof w) as [s |]; [| discriminate].
    cbn [mbind pyres_bind] in H. destruct (decide (s = ∅)).
    + injection H as <-. right. split; reflexivity.
    + injection H as <-. left. now exists s.
Qed.

(** A run creates no duplicate entry in either list of the manifest. *)
Lemma run_keeps_lists_duplicate_free
  (file : option Manifest) (run : SyncRun) :
  syncAll w file = Returns run \/ update w file = Returns run ->
  (NoDup (downloaded (_load_manifest file)) ->
   NoDup (downloaded (_load_manifest (manifest_file run)))) /\
  (NoDup (failed (_load_manifest file)) ->
   NoDup (failed (_load_manifest (manifest_file run)))).
Proof.
  intros Hrun.
  destruct (run_cases _ _ Hrun) as [[s ->] | [-> _]]; [| tauto].
  destruct (sync_pending_spec file s) as (_ & Hd & Hf). split.
  - rewrite Hd. intros Hnd. apply NoDup_app. split; [exact Hnd |]. split.
    + intros x Hx Hx'. apply list_elem_of_filter in Hx' as [_ Hx'].
      apply elem_of_elements, elem_of_difference in Hx' as [_ Hx'].
      now rewrite elem_of_list_to_set in Hx'.
    + apply NoDup_filter, NoDup_elements.
  - intros Hnd. now apply Hf.
Qed.


End Sync.

(** Every manifest the worker writes lists each float once in each list
    and keeps the two lists disjoint: the hypotheses the merge is proved
    under hold whenever the manifest file is the worker's own. *)
Lemma written_manifest_is_two_disjoint_sets
  (file : option ArgoSyncWorker.Manifest) :
  ArgoSyncWorker.written_by_worker file ->
  let m := ArgoSyncWorker._load_manifest file in
  NoDup (ArgoSyncWorker.downloaded m) /\
  NoDup (ArgoSyncWorker.failed m) /\
  forall x, x ∈ ArgoSyncWorker.downloaded m -> x ∉ ArgoSyncWorker.failed m.
Proof.
  assert (Hstep : forall w file run,
            ArgoSyncWorker.syncAll w file = Returns run
            \/ ArgoSyncWorker.update w file = Returns run ->
            (let m := ArgoSyncWorker._load_manifest file in
             NoDup (ArgoSyncWorker.downloaded m) /\
             NoDup (ArgoSyncWorker.failed m) /\
             forall x, x ∈ ArgoSyncWorker.downloaded m ->
                       x ∉ ArgoSyncWorker.failed m) ->
            let m := ArgoSyncWorker._load_manifest
                       (ArgoSyncWorker.manifest_file run) in
            NoDup (ArgoSyncWorker.downloaded m) /\
            NoDup (ArgoSyncWorker.failed m) /\
            forall x, x ∈ ArgoSyncWorker.downloaded m ->
                      x ∉ ArgoSyncWorker.failed m).
  { intros w f run Hrun (Hd & Hf & Hdisj).
    destruct (run_keeps_lists_duplicate_free w f run Hrun) as (Hd' & Hf').
    split; [now apply Hd' |]. split; [now apply Hf' |].
    destruct (run_cases w f run Hrun) as [[s ->] | [-> _]];
      [| exact Hdisj].
    destruct (sync_pending_spec w f s) as (_ & Hdown & Hfail).
    destruct (Hfail Hf) as [_ Hfailed].
    intros x. rewrite Hdown, Hfailed, elem_of_app, list_elem_of_filter,
      elem_of_elements, elem_of_difference, elem_of_list_to_set.
    intros [Hx | Hx] [Hx' | Hx']; try tauto.
    destruct Hx' as [Hx' _]. now apply (Hdisj x). }
  induction 1 as [| w f run _ IH Hrun | w f run _ IH Hrun].
  - cbn. split; [constructor |]. split; [constructor |].
    intros x Hx. inversion Hx.
  - apply (Hstep w f run); [now left | exact IH].
  - apply (Hstep w f run); [now right | exact IH].
Qed.

(** Where the merge needs [failed] to list a float once: [list.remove]
    drops the first occurrence only, so of an id written twice into a
    manifest file by hand one copy stays behind. *)
Example merge_of_duplicated_failed_entry :
  ArgoSyncWorker.update_manifest
    {| ArgoSyncWorker.downloaded := [];
       ArgoSyncWorker.failed := ["2902225"; "2902225"] |}
    ["2902225"] []
  = {| ArgoSyncWorker.downloaded := ["2902225"];
       ArgoSyncWorker.failed := ["2902225"] |}.
Proof. reflexivity. Qed.

Section Rerun.
Import ArgoSyncWorker.
Variables w w2 : Remote.

Abbreviation unfetched := (fun x => (download_with_limit w x).2 <> true).

(** A second run against the manifest the first run wrote and the same
    index starts download tasks for exactly the floats that were pending
    and not fetched in the first run; after a run without failures it
    starts none and leaves the manifest file as it is. *)
Lemma rerun_retries_only_unfetched
  (file : option Manifest) (index_floats : gset string) :
  let m := _load_manifest file in
  let run1 := sync_pending w file index_floats in
  let run2 := sync_pending w2 (manifest_file run1) index_floats in
  (forall x, x ∈ synced run2 <->
             x ∈ index_floats /\ (x ∉ downloaded m) /\ unfetched x) /\
  ((forall x, x ∈ synced run1 -> (download_with_limit w x).2 = true) ->
   synced run2 = [] /\ manifest_file run2 = manifest_file run1).
Proof.
  intros m run1 run2.
  destruct (sync_pending_spec w file index_floats) as (Hs1 & Hd1 & _).
  fold m run1 in Hs1, Hd1.
  set (m1 := _load_manifest (manifest_file run1)) in *.
  set (p2 := index_floats ∖ list_to_set (C := gset string) (downloaded m1)).
  assert (Hp2 : forall x, x ∈ p2 <->
            x ∈ index_floats /\ (x ∉ downloaded m) /\ unfetched x).
  { intros x. subst p2.
    rewrite elem_of_difference, elem_of_list_to_set, Hd1.
    rewrite elem_of_app, list_elem_of_filter, elem_of_elements.
    rewrite elem_of_difference, elem_of_list_to_set. tauto. }
  split.
  - intros x. rewrite <- Hp2. subst run2. unfold sync_pending at 1.
    fold m1 p2. destruct (decide (p2 = ∅)) as [He | Hne]; cbn [synced].
    + rewrite He, elem_of_nil, elem_of_empty. tauto.
    + destruct (_sync_floats_concurrent w2 p2). cbn [synced].
      now rewrite gather_downloads_fst, elem_of_elements.
  - intros Hall.
    assert (Hempty : p2 = ∅).
    { apply set_eq. intros x. rewrite Hp2, elem_of_empty.
      split; [| tauto]. intros (Hx & Hn & Hu). apply Hu, Hall.
      rewrite Hs1, elem_of_elements, elem_of_difference.
      now rewrite elem_of_list_to_set. }
    subst run2. unfold sync_pending at 1 2. fold m1 p2.
    rewrite !decide_True by exact Hempty. split; reflexivity.
Qed.

End Rerun.

(** The sample store: every request for float 2902226 ends in a 404, and
    its [sync] returns false. *)
Lemma sync_all_404_returns_false :
  ArgoSyncWorker.mkdir_ok Samples.remote "2902226" = true /\
  ArgoSyncWorker.sync Samples.remote "2902226" = Returns false.
Proof.
  split; [reflexivity |].
  destruct (sync_true_iff_some_file_downloaded Samples.remote "2902226" eq_refl)
    as (_ & b & Hb & _ & Hall).
  rewrite Hb. f_equal. apply Hall. intros f _. vm_compute. discriminate.
Defined.

(** The sample manifest merged with a full sync of the sample store. *)
Lemma syncAll_sample_manifest_disjoint :
  let run :=
    ArgoSyncWorker.sync_pending Samples.remote (Some Samples.manifest)
      (list_to_set ["2902224"; "2902225"; "2902226"]) in
  ArgoSyncWorker.syncAll Samples.remote (Some Samples.manifest) = Returns run /\
  NoDup (ArgoSyncWorker.failed Samples.manifest) /\
  forall x,
    x ∈ ArgoSyncWorker.downloaded
          (ArgoSyncWorker._load_manifest (ArgoSyncWorker.manifest_file run)) ->
    x ∉ ArgoSyncWorker.failed
          (ArgoSyncWorker._load_manifest (ArgoSyncWorker.manifest_file run)).
Proof.
  intros run.
  assert (Hrun : ArgoSyncWorker.syncAll Samples.remote (Some Samples.manifest)
                 = Returns run) by reflexivity.
  assert (Hnd : NoDup (ArgoSyncWorker.failed Samples.manifest))
    by apply NoDup_singleton.
  split; [exact Hrun |]. split; [exact Hnd |].
  apply (syncAll_keeps_manifest_disjoint Samples.remote
           (Some Samples.manifest) run Hrun Hnd).
  intros x Hx Hx'. cbn in Hx, Hx'.
  apply list_elem_of_singleton in Hx, Hx'. subst x. discriminate Hx'.
Defined.


(** ** The persistence coordinator ([PgClient.batch_upload_data]) *)

Section Upsert.
Import PgClient.

Lemma lookup_list_to_map (d : list (string * sqlval)) (col : string) :
  (list_to_map d : gmap string sqlval) !! col = Columns.lookup_column col d.
Proof.
  induction d as [| [k v] d IH]; [apply lookup_empty |].
  cbn [list_to_map foldr Columns.lookup_column]. rewrite lookup_insert.
  destruct (String.eqb_spec col k) as [-> | Hne].
  - now rewrite decide_True.
  - rewrite decide_False by (intros E; apply Hne; now symmetry). exact IH.
Qed.

Lemma lookup_column_app (col : string) (d1 d2 : list (string * sqlval)) :
  Columns.lookup_column col (d1 ++ d2) =
  match Columns.lookup_column col d1 with
  | Some v => Some v
  | None => Columns.lookup_column col d2
  end.
Proof.
  induction d1 as [| [k v] d1 IH]; [reflexivity |].
  cbn [app Columns.lookup_column]. now destruct (String.eqb col k).
Qed.

Lemma lookup_column_dump_field {A : Type} (col name : string)
  (to_sql : A -> sqlval) (x : option A) :
  Columns.lookup_column col (dump_field name to_sql x) =
  if String.eqb col name then to_sql <$> x else None.
Proof.
  destruct x as [a |]; cbn; now destruct (String.eqb col name).
Qed.

Lemma lookup_column_filter (col key : string) (d : list (string * sqlval)) :
  Columns.lookup_column col
    (List.filter (fun kv => negb (String.eqb (fst kv) key)) d) =
  if String.eqb col key then None else Columns.lookup_column col d.
Proof.
  induction d as [| [k v] d IH]; cbn [List.filter Columns.lookup_column fst].
  - now destruct (String.eqb col key).
  - destruct (String.eqb_spec k key) as [-> | Hk]; cbn [negb].
    + rewrite IH. destruct (String.eqb_spec col key); reflexivity.
    + cbn [Columns.lookup_column]. rewrite IH.
      destruct (String.eqb_spec col k) as [-> | Hc]; [| reflexivity].
      now rewrite (proj2 (String.eqb_neq k key)).
Qed.

(** The row an upsert leaves under a key that was already there: each
    column holds the value of the SET list if it has one, its old value
    otherwise. *)
Lemma insert_on_conflict_update_row
  (id : Z) (cols : list (string * sqlval))
  (t : gmap Z (gmap string sqlval)) (old : gmap string sqlval) :
  t !! id = Some old ->
  exists row, insert_on_conflict_update id cols t !! id = Some row /\
    forall col, row !! col =
      match Columns.lookup_column col (update_set cols) with
      | Some v => Some v
      | None => old !! col
      end.
Proof.
  intros Hold. unfold insert_on_conflict_update. rewrite Hold.
  eexists. split; [apply lookup_insert_eq |].
  intros col. rewrite lookup_union, lookup_list_to_map.
  destruct (Columns.lookup_column col (update_set cols)), (old !! col);
    reflexivity.
Qed.

(** A row inserted under a new key holds the dumped columns and nothing
    else. *)
Lemma insert_on_conflict_update_new
  (id : Z) (cols : list (string * sqlval)) (t : gmap Z (gmap string sqlval)) :
  t !! id = None ->
  exists row, insert_on_conflict_update id cols t !! id = Some row /\
    forall col, row !! col = Columns.lookup_column col cols.
Proof.
  intros Hnew. unfold insert_on_conflict_update. rewrite Hnew.
  eexists. split; [apply lookup_insert_eq |].
  intros col. apply lookup_list_to_map.
Qed.

(** Rows under other keys are not touched. *)
Lemma insert_on_conflict_update_other
  (id id' : Z) (cols : list (string * sqlval))
  (t : gmap Z (gmap string sqlval)) :
  id <> id' -> insert_on_conflict_update id cols t !! id' = t !! id'.
Proof.
  intros Hne. unfold insert_on_conflict_update.
  destruct (t !! id); now rewrite lookup_insert_ne.
Qed.

Ltac column_lookup :=
  unfold update_set, metadata_data, status_data, pop,
    dump_metadata, dump_status;
  repeat first [ rewrite lookup_column_filter
               | rewrite lookup_column_app
               | rewrite lookup_column_dump_field ];
  cbn.

(** The SET list of the metadata half, column by column. *)
Lemma metadata_update_set (now : datetime) (m : FloatMetadata.t) :
  Columns.lookup_column "float_id" (update_set (metadata_data now m)) = None /\
  Columns.lookup_column "wmo_number" (update_set (metadata_data now m))
    = Some (SText (FloatMetadata.wmo_number m)) /\
  Columns.lookup_column "data_centre" (update_set (metadata_data now m))
    = Some (SText (FloatMetadata.data_centre m)) /\
  Columns.lookup_column "updated_at" (update_set (metadata_data now m))
    = Some (STimestamp now) /\
  forall col v, (col, v) ∈ Columns.metadata_optional m ->
    Columns.lookup_column col (update_set (metadata_data now m)) = v.
Proof.
  do 4 (split; [column_lookup; reflexivity |]).
  intros col v Hin. unfold Columns.metadata_optional in Hin.
  repeat (apply elem_of_cons in Hin as [[= -> ->] | Hin];
          [column_lookup; now destruct (_ <$> _) |]).
  inversion Hin.
Qed.

(** The SET list of the status half: latitude and longitude are popped
    and replaced by the location point. *)
Lemma status_update_set (now : datetime) (s : FloatStatus.t) :
  Columns.lookup_column "float_id" (update_set (status_data now s)) = None /\
  Columns.lookup_column "latitude" (update_set (status_data now s)) = None /\
  Columns.lookup_column "longitude" (update_set (status_data now s)) = None /\
  Columns.lookup_column "location" (update_set (status_data now s))
    = Some (SGeom (FloatStatus.longitude s) (FloatStatus.latitude s)) /\
  Columns.lookup_column "updated_at" (update_set (status_data now s))
    = Some (STimestamp now) /\
  forall col v, (col, v) ∈ Columns.status_optional s ->
    Columns.lookup_column col (update_set (status_data now s)) = v.
Proof.
  do 5 (split; [column_lookup; reflexivity |]).
  intros col v Hin. unfold Columns.status_optional in Hin.
  repeat (apply elem_of_cons in Hin as [[= -> ->] | Hin];
          [column_lookup; now destruct (_ <$> _) |]).
  inversion Hin.
Qed.

(** C5, amended.  When the float id is already in both tables, an accepted
    [batch_upload_data] leaves under that id: the identifier as it was;
    the required columns and [updated_at] (and the status's [location])
    with the new values; and each optional column with the new value when
    the new record has one, with the value already stored when the new
    record's field is [None]. *)
Theorem upsert_conflict_merges_columns
  (now : datetime) (metadata : FloatMetadata.t) (status : FloatStatus.t)
  (c : conn) (old_m old_s : gmap string sqlval) :
  argo_float_metadata (current c) !! FloatMetadata.float_id metadata
    = Some old_m ->
  argo_float_status (current c) !! FloatStatus.float_id status
    = Some old_s ->
  exists c' new_m new_s,
    batch_upload_data true now metadata status c = (true, c') /\
    argo_float_metadata (current c') !! FloatMetadata.float_id metadata
      = Some new_m /\
    argo_float_status (current c') !! FloatStatus.float_id status
      = Some new_s /\
    (new_m !! "float_id" = old_m !! "float_id" /\
     new_m !! "wmo_number" = Some (SText (FloatMetadata.wmo_number metadata)) /\
     new_m !! "data_centre"
       = Some (SText (FloatMetadata.data_centre metadata)) /\
     new_m !! "updated_at" = Some (STimestamp now) /\
     forall col v, (col, v) ∈ Columns.metadata_optional metadata ->
                   Columns.merged v (old_m !! col) (new_m !! col)) /\
    (new_s !! "float_id" = old_s !! "float_id" /\
     new_s !! "location"
       = Some (SGeom (FloatStatus.longitude status)
                 (FloatStatus.latitude status)) /\
     new_s !! "updated_at" = Some (STimestamp now) /\
     forall col v, (col, v) ∈ Columns.status_optional status ->
                   Columns.merged v (old_s !! col) (new_s !! col)).
Proof.
  intros Hm Hs.
  destruct (insert_on_conflict_update_row _ (metadata_data now metadata) _ _ Hm)
    as (new_m & Hnew_m & Hcols_m).
  destruct (insert_on_conflict_update_row _ (status_data now status) _ _ Hs)
    as (new_s & Hnew_s & Hcols_s).
  destruct (metadata_update_set now metadata) as (M1 & M2 & M3 & M4 & M5).
  destruct (status_update_set now status) as (S1 & _ & _ & S4 & S5 & S6).
  eexists _, new_m, new_s. split; [reflexivity |].
  split; [exact Hnew_m |]. split; [exact Hnew_s |].
  unfold Columns.merged. split.
  - rewrite !Hcols_m, M1, M2, M3, M4.
    repeat (split; [reflexivity |]).
    intros col v Hin. rewrite Hcols_m, (M5 col v Hin). reflexivity.
  - rewrite !Hcols_s, S1, S4, S5.
    repeat (split; [reflexivity |]).
    intros col v Hin. rewrite Hcols_s, (S6 col v Hin). reflexivity.
Qed.

End Upsert.

(** C5, as stated, fails: float 2902224 is stored with a project name and
    a battery estimate; a later extraction has neither; after the upsert
    both columns still hold the earlier values instead of the new, absent
    ones. *)
Lemma upsert_keeps_value_of_absent_field :
  let c' :=
    (PgClient.batch_upload_data true Samples.later_run_time
       Samples.metadata_later Samples.status_later Samples.db_after_first).2 in
  let project_name :=
    PgClient.stored (PgClient.argo_float_metadata (PgClient.current c'))
      2902224 "project_name" in
  let battery_percent :=
    PgClient.stored (PgClient.argo_float_status (PgClient.current c'))
      2902224 "battery_percent" in
  FloatMetadata.project_name Samples.metadata_later = None /\
  FloatStatus.battery_percent Samples.status_later = None /\
  project_name = Some (PgClient.SText "Argo India") /\
  ~ Columns.overwritten None project_name /\
  battery_percent = Some (PgClient.SInt 69) /\
  ~ Columns.overwritten None battery_percent.
Proof.
  intros c' project_name battery_percent.
  assert (Hm : project_name = Some (PgClient.SText "Argo India"))
    by (vm_compute; reflexivity).
  assert (Hs : battery_percent = Some (PgClient.SInt 69))
    by (vm_compute; reflexivity).
  unfold Columns.overwritten. rewrite Hm, Hs.
  repeat split; congruence.
Qed.

(** The sample upsert, through the theorem: the stored project name is the
    one already there. *)
Lemma upsert_sample_keeps_project_name :
  PgClient.argo_float_metadata (PgClient.current Samples.db_after_first)
    !! FloatMetadata.float_id Samples.metadata_later
    = Some Samples.metadata_row_first /\
  PgClient.argo_float_status (PgClient.current Samples.db_after_first)
    !! FloatStatus.float_id Samples.status_later
    = Some Samples.status_row_first /\
  exists c' new_m,
    PgClient.batch_upload_data true Samples.later_run_time
      Samples.metadata_later Samples.status_later Samples.db_after_first
      = (true, c') /\
    PgClient.argo_float_metadata (PgClient.current c')
      !! FloatMetadata.float_id Samples.metadata_later = Some new_m /\
    new_m !! "project_name" = Samples.metadata_row_first !! "project_name".
Proof.
  assert (Em : PgClient.argo_float_metadata
                 (PgClient.current Samples.db_after_first)
                 !! FloatMetadata.float_id Samples.metadata_later
               = Some Samples.metadata_row_first)
    by (vm_compute; reflexivity).
  assert (Es : PgClient.argo_float_status
                 (PgClient.current Samples.db_after_first)
                 !! FloatStatus.float_id Samples.status_later
               = Some Samples.status_row_first)
    by (vm_compute; reflexivity).
  split; [exact Em |]. split; [exact Es |].
  destruct (upsert_conflict_merges_columns Samples.later_run_time
              Samples.metadata_later Samples.status_later
              Samples.db_after_first _ _ Em Es)
    as (c' & new_m & new_s & Hc & Hm & _ & (_ & _ & _ & _ & Hopt) & _).
  exists c', new_m. split; [exact Hc |]. split; [exact Hm |].
  apply (Hopt "project_name" None).
  unfold Columns.metadata_optional.
  change (FloatMetadata.project_name Samples.metadata_later) with (@None string).
  do 2 right. left.
Defined.

(** ** The metadata parser ([parse_metadata_file]) *)

Section MetadataParser.
Variable repr_float : Q -> string.
Variable float_of_text : string -> option Q.
Variable strptime : string -> string -> option datetime.
Variable days_since : datetime -> Z.

Abbreviation extract_string := (AggregateParser.extract_string repr_float).
Abbreviation parse_date := (AggregateParser.parse_date repr_float strptime).
Abbreviation build_metadata :=
  (AggregateParser.build_metadata repr_float float_of_text strptime days_since).
Abbreviation parse_metadata_file :=
  (AggregateParser.parse_metadata_file repr_float float_of_text strptime
     days_since).


Lemma parse_date_raises (ds : Dataset) (name : string) :
  parse_date ds name = Raises <-> extract_string ds name = Raises.
Proof.
  unfold AggregateParser.parse_date.
  destruct (extract_string ds name); cbn [mbind pyres_bind];
    split; congruence.
Qed.



Ltac read_next name :=
  match goal with
  | |- context [AggregateParser.extract_string repr_float ?ds name] =>
      let E := fresh "E" in
      destruct (AggregateParser.extract_string repr_float ds name) eqn:E;
      cbn [mbind pyres_bind fmap pyres_fmap]
  end.



(** What the record holds when it is built. *)
Lemma build_metadata_fields
  (ds : Dataset) (recent : option datetime) (m : FloatMetadata.t) :
  build_metadata ds recent = Returns m ->
  exists platform_number data_centre,
    extract_string ds "PLATFORM_NUMBER" = Returns platform_number /\
    extract_string ds "DATA_CENTRE" = Returns data_centre /\
    AggregateParser.platform_number_int platform_number
      = Returns (FloatMetadata.float_id m) /\
    FloatMetadata.wmo_number m
      = AggregateParser.or_default platform_number EmptyString /\
    FloatMetadata.data_centre m
      = AggregateParser.or_default data_centre EmptyString.
Proof.
  unfold AggregateParser.build_metadata, AggregateParser.parse_date.
  read_next "PLATFORM_NUMBER"; [| discriminate].
  destruct (AggregateParser.platform_number_int a) as [fid |] eqn:Ef;
    cbn [mbind pyres_bind]; [| discriminate].
  read_next "DATA_CENTRE"; [| discriminate].
  read_next "PROJECT_NAME"; [| discriminate].
  read_next "OPERATING_INSTITUTION"; [| discriminate].
  read_next "PI_NAME"; [| discriminate].
  read_next "PLATFORM_TYPE"; [| discriminate].
  read_next "PLATFORM_MAKER"; [| discriminate].
  read_next "FLOAT_SERIAL_NO"; [| discriminate].
  read_next "LAUNCH_DATE"; [| discriminate].
  read_next "START_DATE"; [| discriminate].
  read_next "END_MISSION_DATE"; [| discriminate].
  intros [= <-]. exists a, a0. cbn.
  repeat split; first [reflexivity | assumption].
Qed.


End MetadataParser.



(** ** The pipeline loop ([main.sync]) *)

Section Pipeline.
Import Main.
Variable w : World.

Lemma processed_ids_app (l1 l2 : list event) :
  processed_ids (l1 ++ l2) = (processed_ids l1 ++ processed_ids l2)%list.
Proof. apply omap_app. Qed.

(** The calls one [try] block makes: [process_directory] first, then no
    further [process_directory]; [batch_upload_data] is among them for a
    persistable float. *)
Lemma process_float_trace (st : LoopState) (fid : string) :
  exists rest,
    trace (body_state (process_float w st fid))
      = (trace st ++ EProcessDirectory fid :: rest)%list /\
    processed_ids rest = [] /\
    forall n, persistable w fid n -> EBatchUpload n ∈ rest.
Proof.
  unfold process_float, persistable.
  destruct (process_directory w fid) as [err | [md |] [sd |] pq |] eqn:Hdir;
    try (exists []; cbn; rewrite <- ?app_assoc; repeat split;
         intros n (? & ? & ? & ? & [= ] & _)).
  destruct (model_validate sd) as [sm |] eqn:Hval;
    [| exists []; cbn; rewrite <- ?app_assoc; repeat split;
       intros n (? & ? & ? & ? & [= <- <- <-] & ? & _); congruence].
  case_bool_decide as Hloc.
  { exists []. cbn. rewrite <- ?app_assoc. repeat split.
    intros n (? & ? & ? & sm' & [= <- <- <-] & Hv & Hlat & Hlon & _).
    assert (sm' = sm) by congruence. subst sm'. tauto. }
  destruct (Py.int_of_str fid) as [n |] eqn:Hn;
    [| exists []; cbn; rewrite <- ?app_assoc; repeat split;
       intros n (? & ? & ? & ? & _ & _ & _ & _ & [= ])].
  destruct (PgClient.batch_upload_data _ _ _ _ _) as [ok c].
  destruct ok.
  - destruct pq as [p |]; [destruct (Py.truthy p) |].
    + exists [EBatchUpload n; EUploadFile fid p]. cbn.
      rewrite <- ?app_assoc. repeat split.
      intros m (? & ? & ? & ? & _ & _ & _ & _ & [= <-]). left.
    + exists [EBatchUpload n]. cbn.
      rewrite <- ?app_assoc. repeat split.
      intros m (? & ? & ? & ? & _ & _ & _ & _ & [= <-]). left.
    + exists [EBatchUpload n]. cbn.
      rewrite <- ?app_assoc. repeat split.
      intros m (? & ? & ? & ? & _ & _ & _ & _ & [= <-]). left.
  - exists [EBatchUpload n]. cbn.
    rewrite <- ?app_assoc. repeat split.
      intros m (? & ? & ? & ? & _ & _ & _ & _ & [= <-]). left.
Qed.

Lemma do_commit_trace (st : LoopState) :
  exists rest,
    trace (flow_state (do_commit w st)) = (trace st ++ rest)%list /\
    processed_ids rest = [].
Proof.
  unfold do_commit. destruct (commit_ok w (commits st)).
  - exists [ECommit]. split; reflexivity.
  - exists []. cbn. now rewrite app_nil_r.
Qed.

Lemma batch_commit_trace (batch : bool) (st : LoopState) :
  exists rest,
    trace (flow_state (batch_commit w batch st)) = (trace st ++ rest)%list /\
    processed_ids rest = [].
Proof.
  unfold batch_commit. destruct (_ && _); [apply do_commit_trace |].
  exists []. cbn. now rewrite app_nil_r.
Qed.

(** After the [try] block an iteration makes no call but [log_processing]
    and [commit]. *)
Lemma loop_body_after_try
  (operation : string) (batch : bool) (arg_float_id : option string)
  (st : LoopState) (fid : string) :
  exists rest,
    trace (flow_state (loop_body w operation batch arg_float_id st fid))
      = (trace (body_state (process_float w st fid)) ++ rest)%list /\
    processed_ids rest = [].
Proof.
  unfold loop_body.
  destruct (process_float w st fid) as [st' | st' | e st']; cbn [body_state].
  - exists []. cbn. now rewrite app_nil_r.
  - apply batch_commit_trace.
  - destruct batch; cbn [negb].
    + apply (batch_commit_trace true (track_failure fid st')).
    + match goal with
      | |- context [do_commit w ?s] =>
          destruct (do_commit_trace s) as (rest & Hrest & Hids);
          destruct (do_commit w s) as [st2 | r st2 | st2]
      end;
        cbn [flow_state] in Hrest |- *; rewrite Hrest;
        exists (ELogProcessing "FAILED" :: rest);
        (split; [cbn; now rewrite <- app_assoc | exact Hids]).
Qed.

(** The calls of one iteration. *)
Lemma loop_body_trace
  (operation : string) (batch : bool) (arg_float_id : option string)
  (st : LoopState) (fid : string) :
  exists rest,
    trace (flow_state (loop_body w operation batch arg_float_id st fid))
      = (trace st ++ EProcessDirectory fid :: rest)%list /\
    processed_ids rest = [] /\
    forall n, persistable w fid n -> EBatchUpload n ∈ rest.
Proof.
  destruct (process_float_trace st fid) as (r1 & H1 & Hids1 & Hup).
  destruct (loop_body_after_try operation batch arg_float_id st fid)
    as (r2 & H2 & Hids2).
  exists (r1 ++ r2)%list. split; [| split].
  - rewrite H2, H1, <- app_assoc. reflexivity.
  - now rewrite processed_ids_app, Hids1, Hids2.
  - intros n Hn. apply elem_of_app. left. now apply Hup.
Qed.

(** C4, amended.  In the pipeline loop, a float whose validated status
    lacks the latitude or the longitude (either one) is skipped before
    [batch_upload_data] is reached: the iteration makes no other call than
    [process_directory], counts the float as processed, and leaves the
    database and the list of successful ids as they were.  A float whose
    status has both, and whose id reads as an integer, reaches
    [batch_upload_data]. *)
Theorem location_skip
  (operation : string) (batch : bool) (arg_float_id : option string)
  (st : LoopState) (fid : string)
  (metadata : FloatMetadata.t) (status : StatusSummary)
  (parquet_path : option string) (status_model : FloatStatus.t) :
  process_directory w fid = Stats (Some metadata) (Some status) parquet_path ->
  model_validate status = Some status_model ->
  (FloatStatus.latitude status_model = None
   \/ FloatStatus.longitude status_model = None ->
   exists st',
     loop_body w operation batch arg_float_id st fid = Next st' /\
     processed_count st' = S (processed_count st) /\
     process_failed st' = process_failed st /\
     successful_float_ids st' = successful_float_ids st /\
     db st' = db st /\
     commits st' = commits st /\
     trace st' = (trace st ++ [EProcessDirectory fid])%list) /\
  (FloatStatus.latitude status_model <> None ->
   FloatStatus.longitude status_model <> None ->
   forall n, Py.int_of_str fid = Some n ->
     EBatchUpload n
       ∈ trace (flow_state (loop_body w operation batch arg_float_id st fid))).
Proof.
  intros Hdir Hval. split.
  - intros Hloc. unfold loop_body, process_float.
    rewrite Hdir, Hval, bool_decide_true by exact Hloc.
    eexists. split; [reflexivity |]. repeat split; reflexivity.
  - intros Hlat Hlon n Hn.
    destruct (loop_body_trace operation batch arg_float_id st fid)
      as (rest & -> & _ & Hup).
    apply elem_of_app. right. right. apply Hup.
    exists metadata, status, parquet_path, status_model. tauto.
Qed.

Section CommitsSucceed.
Hypothesis commits_succeed : forall n, commit_ok w n = true.







End CommitsSucceed.
End Pipeline.




(** C4, as stated, fails: the status of float 2902225 has a latitude and
    no longitude; the float is skipped all the same: it is counted as
    processed, [batch_upload_data] is not called and the database is left
    as it was. *)
Lemma float_with_latitude_only_is_skipped :
  let step :=
    Main.loop_body Samples.world "WEEKLY_UPDATE" true None
      Samples.fresh_state "2902225" in
  (exists metadata status_model,
      Main.process_directory Samples.world "2902225"
        = Main.Stats (Some metadata)
            (Some Samples.summary_without_longitude) None /\
      Main.model_validate Samples.summary_without_longitude
        = Some status_model /\
      FloatStatus.latitude status_model <> None) /\
  Main.upserted_ids (Main.trace (Main.flow_state step)) = [] /\
  Main.processed_count (Main.flow_state step) = 1%nat /\
  Main.db (Main.flow_state step) = Main.db Samples.fresh_state.
Proof.
  intros step. split.
  - eexists _, _. split; [reflexivity |]. split; [reflexivity |].
    discriminate.
  - repeat split; vm_compute; reflexivity.
Qed.

(** The same float through the theorem: skipped, the database untouched. *)
Lemma float_without_longitude_leaves_db :
  exists status_model st',
    Main.model_validate Samples.summary_without_longitude
      = Some status_model /\
    FloatStatus.longitude status_model = None /\
    Main.loop_body Samples.world "WEEKLY_UPDATE" true None
      Samples.fresh_state "2902225" = Main.Next st' /\
    Main.db st' = Main.db Samples.fresh_state.
Proof.
  assert (Hval : Main.model_validate Samples.summary_without_longitude
                 = Some {| FloatStatus.float_id := 2902225;
                           FloatStatus.latitude := Some 12.5%Q;
                           FloatStatus.longitude := None;
                           FloatStatus.cycle_number := Some 12;
                           FloatStatus.battery_percent := Some 90;
                           FloatStatus.last_update :=
                             Some (mk_datetime 2025 12 1 6 0 0);
                           FloatStatus.last_depth := Some 1000%Q;
                           FloatStatus.last_temp := None;
                           FloatStatus.last_salinity := None |})
    by (vm_compute; reflexivity).
  destruct (proj1 (location_skip Samples.world "WEEKLY_UPDATE" true None
                     Samples.fresh_state "2902225" Samples.metadata_first
                     Samples.summary_without_longitude None _
                     eq_refl Hval) (or_intror eq_refl))
    as (st' & Hstep & _ & _ & _ & Hdb & _).
  eexists _, st'. split; [exact Hval |]. split; [reflexivity |].
  split; [exact Hstep | exact Hdb].
Defined.


(** ** Stripping *)

Section Strip.







End Strip.

Section FloatStatus.
Variable days_since : datetime -> Z.



End FloatStatus.

Section BatteryFallbacks.

Lemma clamp_floor_mono (x y : Q) :
  (x <= y)%Q ->
  Z.max 0 (Z.min 100 (Py.int_of_float x))
  <= Z.max 0 (Z.min 100 (Py.int_of_float y)).
Proof.
  intros H. rewrite !clamp_trunc_is_clamp_floor.
  pose proof (Qfloor_resp_le _ _ H). lia.
Qed.


(** An APEX launched in 2010 or before is rated on the alkaline line:
    the estimate never decreases as the voltage rises, it is 0 up to
    10.5 V and 100 from 15.5 V. *)
Theorem alkaline_percent_monotone
  (platform_type : string) (cycle_number : Z) (m : FloatMetadata.t)
  (launch_date : datetime) (v1 v2 : Q) :
  Py.strip (Py.upper platform_type) = "APEX" ->
  FloatMetadata.launch_date m = Some launch_date ->
  0 < year launch_date <= 2010 ->
  (v1 <= v2)%Q ->
  exists p1 p2,
    Helper.estimate_battery_percent platform_type cycle_number
      (Some v1) (Some m) = Some p1 /\
    Helper.estimate_battery_percent platform_type cycle_number
      (Some v2) (Some m) = Some p2 /\
    p1 <= p2 /\
    ((v1 <= 10.5)%Q -> p1 = 0) /\
    ((15.5 <= v2)%Q -> p2 = 100).
Proof.
  intros Hp Hd Hy Hv. unfold Helper.estimate_battery_percent.
  rewrite Hp. unfold Helper.detect_chemistry. rewrite Hd.
  replace (year launch_date =? 0) with false by (symmetry; apply Z.eqb_neq; lia).
  replace (year launch_date <=? 2010) with true by (symmetry; apply Z.leb_le; lia).
  cbn [String.eqb Ascii.eqb Bool.eqb andb negb].
  eexists _, _. split; [reflexivity |]. split; [reflexivity |].
  split; [| split].
  - apply clamp_floor_mono.
    apply Qmult_le_compat_r; [| discriminate]. lra.
  - intros H. rewrite clamp_trunc_is_clamp_floor.
    assert (Qfloor (100 * (v1 - 10.5) / 5.0) <= 0).
    { rewrite <- (Qfloor_Z 0). apply Qfloor_resp_le.
      change (inject_Z 0) with 0%Q.
      assert (E : (100 * (v1 - 10.5) / 5.0 == 20 * (v1 - 10.5))%Q) by field.
      rewrite E. lra. }
    lia.
  - intros H. rewrite clamp_trunc_is_clamp_floor.
    assert (100 <= Qfloor (100 * (v2 - 10.5) / 5.0)).
    { rewrite <- (Qfloor_Z 100). apply Qfloor_resp_le.
      assert (E : (100 * (v2 - 10.5) / 5.0 == 20 * (v2 - 10.5))%Q) by field.
      rewrite E. unfold inject_Z. lra. }
    lia.
Qed.

(** Without a voltage the estimate falls with the cycle number, from
    the typical life of the platform (280 cycles for APEX, NAVIS and
    SOLO-II, 220 for the others), whatever the metadata says: it never
    rises from one cycle to a later one and is 0 once the typical life
    is reached. *)
Theorem cycle_estimate_decreases
  (platform_type : string) (c1 c2 : Z) (metadata : option FloatMetadata.t) :
  0 < c1 <= c2 ->
  let typical :=
    if Py.mem (Py.strip (Py.upper platform_type)) ["APEX"; "NAVIS"; "SOLO-II"]
    then 280 else 220 in
  exists p1 p2,
    Helper.estimate_battery_percent platform_type c1 None metadata = Some p1 /\
    Helper.estimate_battery_percent platform_type c2 None metadata = Some p2 /\
    p2 <= p1 /\
    (typical <= c2 -> p2 = 0).
Proof.
  intros [H1 H2] typical. unfold Helper.estimate_battery_percent.
  fold typical.
  replace (0 <? c1) with true by (symmetry; apply Z.ltb_lt; lia).
  replace (0 <? c2) with true by (symmetry; apply Z.ltb_lt; lia).
  eexists _, _. split; [reflexivity |]. split; [reflexivity |].
  assert (Ht : 0 < typical) by (subst typical; destruct (Py.mem _ _); lia).
  assert (Hq : (0 < inject_Z typical)%Q)
    by (change 0%Q with (inject_Z 0); now rewrite <- Zlt_Qlt).
  assert (Hdiv : forall a b, a <= b ->
            (inject_Z a / inject_Z typical <= inject_Z b / inject_Z typical)%Q).
  { intros a b Hab. apply Qmult_le_compat_r.
    - now rewrite <- Zle_Qle.
    - apply Qlt_le_weak, Qinv_lt_0_compat, Hq. }
  split.
  - apply clamp_floor_mono. specialize (Hdiv c1 c2 H2). lra.
  - intros Hc. rewrite clamp_trunc_is_clamp_floor.
    assert (Qfloor (100 * (1 - inject_Z c2 / inject_Z typical)) <= 0).
    { rewrite <- (Qfloor_Z 0). apply Qfloor_resp_le.
      change (inject_Z 0) with 0%Q.
      specialize (Hdiv typical c2 Hc).
      assert (E : (inject_Z typical / inject_Z typical == 1)%Q)
        by (field; lra).
      rewrite E in Hdiv. lra. }
    lia.
Qed.

End BatteryFallbacks.

Section LithiumSpans.



End LithiumSpans.

Section ConverterRows.
Variable repr_float : Q -> string.
Variable float_of_text : string -> option Q.
Variable fromtimestamp : Q -> option datetime.
Variable write_table : list ProfileRow.t -> bool.
Variable staging_path : string.
Variable ds : Dataset.
Variable float_id : string.

Abbreviation convert :=
  (ParquetConverter.convert repr_float float_of_text fromtimestamp
     write_table staging_path).
Abbreviation head_of :=
  (ParquetConverter.profile_head repr_float float_of_text fromtimestamp
     ds float_id).
Abbreviation loop :=
  (ParquetConverter.profiles_loop repr_float float_of_text fromtimestamp
     ds float_id).

Lemma decode_cell_clean (v : ncval) :
  Cells.clean (ParquetConverter.decode_cell v) = true.
Proof. now destruct v. Qed.

Lemma get_value_clean (arr : option (list ncval)) (i j : nat) :
  Cells.clean (ParquetConverter.get_value ds arr i j) = true.
Proof.
  unfold ParquetConverter.get_value. destruct arr as [a |]; [| reflexivity].
  cbn. destruct (a !! _); [apply decode_cell_clean | reflexivity].
Qed.

Lemma get_1d_value_clean (arr : option (list ncval)) (i : nat) :
  Cells.clean (ParquetConverter.get_1d_value arr i) = true.
Proof.
  unfold ParquetConverter.get_1d_value. destruct arr as [a |]; [| reflexivity].
  cbn. destruct (a !! _); [apply decode_cell_clean | reflexivity].
Qed.

(** Where each row of the loops comes from. *)
Lemma loop_row_origin
  (req : ParquetConverter.required_arrays) (idxs : list nat)
  (rows : list ProfileRow.t) :
  loop req idxs = Returns rows ->
  forall r, r ∈ rows ->
  exists i h j, i ∈ idxs /\ head_of req i = Returns h /\
    (j < ParquetConverter.n_levels ds)%nat /\
    ParquetConverter.level_row ds h i j = Some r.
Proof.
  revert rows. induction idxs as [| i idxs IH]; intros rows.
  - simpl. intros [= <-] r Hr. inversion Hr.
  - cbn [ParquetConverter.profiles_loop].
    destruct (head_of req i) as [h |] eqn:Eh; [| discriminate].
    cbn [mbind pyres_bind].
    destruct (loop req idxs) as [more |]; [| discriminate].
    cbn [mbind pyres_bind]. intros [= <-] r Hr.
    apply elem_of_app in Hr as [Hr | Hr].
    + apply elem_of_profile_rows in Hr as (j & Hj & Hrow).
      exists i, h, j. split; [left |]. auto.
    + destruct (IH more eq_refl r Hr) as (i' & h' & j & Hi & H).
      exists i', h', j. split; [now right | exact H].
Qed.

Lemma head_of_clean
  (req : ParquetConverter.required_arrays) (i : nat)
  (h : ParquetConverter.profile_header) :
  head_of req i = Returns h ->
  Cells.clean (ParquetConverter.cycle_num h) = true /\
  Cells.clean (ParquetConverter.lat h) = true /\
  Cells.clean (ParquetConverter.lon h) = true /\
  Cells.clean (ParquetConverter.mode_char h) = true /\
  Cells.clean (ParquetConverter.pos_qc_char h) = true.
Proof.
  unfold ParquetConverter.profile_head.
  destruct (raise_if_none _) as [raw |]; [| discriminate].
  cbn [mbind pyres_bind].
  destruct (ParquetConverter.parse_float_int _ _ _ _) as [fi |];
    [| discriminate].
  cbn [mbind pyres_bind]. intros [= <-].
  cbn [ParquetConverter.cycle_num ParquetConverter.lat ParquetConverter.lon
       ParquetConverter.mode_char ParquetConverter.pos_qc_char].
  repeat split;
    first [ exact (get_1d_value_clean (Some (ParquetConverter.cycles req)) i)
          | exact (get_1d_value_clean (Some (ParquetConverter.lats req)) i)
          | exact (get_1d_value_clean (Some (ParquetConverter.lons req)) i)
          | exact (get_1d_value_clean (ParquetConverter.data_mode ds) i)
          | exact (get_1d_value_clean (ParquetConverter.pos_qc ds) i) ].
Qed.

(** Every row of a written table is well formed: its level is below
    N_LEVELS, none of its cells holds a NaN or undecoded bytes, and its
    [year] and [month] are those of its profile timestamp (absent when the
    timestamp is). *)
Theorem convert_rows_well_formed (path : string) (rows : list ProfileRow.t) :
  convert (Some ds) float_id = Some (path, rows) ->
  forall r, r ∈ rows ->
    (ProfileRow.level r < ParquetConverter.n_levels ds)%nat /\
    forallb Cells.clean (Cells.of_row r) = true /\
    ProfileRow.year r = year <$> ProfileRow.profile_timestamp r /\
    ProfileRow.month r = month <$> ProfileRow.profile_timestamp r.
Proof.
  intros Hconv r Hr.
  destruct (convert_Some_inv _ _ _ _ _ _ _ _ _ Hconv) as (req & Hloop).
  destruct (loop_row_origin _ _ _ Hloop r Hr) as (i & h & j & _ & Hh & Hj & Hrow).
  destruct (head_of_clean _ _ _ Hh) as (C1 & C2 & C3 & C4 & C5).
  unfold ParquetConverter.level_row in Hrow.
  pose proof (get_value_clean (ParquetConverter.pressures ds) i j) as Cp.
  destruct (ParquetConverter.get_value ds (ParquetConverter.pressures ds) i j)
    as [p |] eqn:Ep; [| discriminate].
  injection Hrow as <-. cbn [ProfileRow.level ProfileRow.year ProfileRow.month ProfileRow.profile_timestamp].
  split; [exact Hj |]. split; [| split; reflexivity].
  unfold Cells.of_row. cbn [forallb ProfileRow.cycle_number ProfileRow.latitude ProfileRow.longitude
    ProfileRow.pressure ProfileRow.temperature ProfileRow.salinity ProfileRow.position_qc ProfileRow.pres_qc
    ProfileRow.temp_qc ProfileRow.psal_qc ProfileRow.temperature_adj ProfileRow.salinity_adj
    ProfileRow.pressure_adj ProfileRow.temp_adj_qc ProfileRow.psal_adj_qc ProfileRow.data_mode ProfileRow.oxygen
    ProfileRow.oxygen_qc ProfileRow.chlorophyll ProfileRow.chlorophyll_qc ProfileRow.nitrate ProfileRow.nitrate_qc].
  rewrite C1, C2, C3, C4, C5, Cp, !get_value_clean. reflexivity.
Qed.





End ConverterRows.

Section SyncCounts.
Import ArgoSyncWorker.
Variable w : Remote.

Lemma sync_floats_concurrent_spec (float_ids : gset string) :
  _sync_floats_concurrent w float_ids
  = (filter (fun x => (download_with_limit w x).2 = true)
       (elements float_ids),
     filter (fun x => (download_with_limit w x).2 <> true)
       (elements float_ids)).
Proof.
  unfold _sync_floats_concurrent.
  destruct (decide (float_ids = ∅)) as [-> | Hne];
    [now rewrite elements_empty | apply split_results_gather].
Qed.

Lemma fetched_split_length (float_ids : gset string) :
  (length (filter (fun x => (download_with_limit w x).2 = true)
             (elements float_ids))
   + length (filter (fun x => (download_with_limit w x).2 <> true)
               (elements float_ids)))%nat
  = size float_ids.
Proof.
  rewrite <- length_app. unfold size, set_size. cbn.
  now rewrite (filter_app_complement
                 (fun x => (download_with_limit w x).2 = true)).
Qed.

(** [_sync_floats_concurrent] sorts every float of the set into exactly
    one of its two lists: [successful] holds the floats whose [sync]
    returned true, [failed] those whose [sync] returned false or raised;
    together they are the set, each float once. *)
Theorem sync_floats_concurrent_partition (float_ids : gset string) :
  let successful := (_sync_floats_concurrent w float_ids).1 in
  let failed := (_sync_floats_concurrent w float_ids).2 in
  (forall x, x ∈ successful <-> x ∈ float_ids /\ sync w x = Returns true) /\
  (forall x, x ∈ failed <-> x ∈ float_ids /\ sync w x <> Returns true) /\
  (successful ++ failed)%list ≡ₚ elements float_ids /\
  (length successful + length failed = size float_ids)%nat.
Proof.
  intros successful failed.
  subst successful failed. rewrite sync_floats_concurrent_spec.
  cbn [fst snd].
  split; [| split; [| split]].
  - intros x. rewrite list_elem_of_filter, elem_of_elements, fetched_true.
    tauto.
  - intros x. rewrite list_elem_of_filter, elem_of_elements, fetched_true.
    tauto.
  - apply (filter_app_complement
             (fun x => (download_with_limit w x).2 = true)).
  - apply fetched_split_length.
Qed.

(** The counts [syncAll] returns add up: [total] is the size of the
    index, [new] and [failed] together are the floats of the index not yet
    downloaded, each of which a download task was started for, and
    [downloaded] has grown by [new]. *)
Theorem syncAll_summary_adds_up
  (file : option Manifest) (all_floats : gset string) :
  index_global_meta w = Returns all_floats ->
  exists run,
    syncAll w file = Returns run /\
    let m := _load_manifest file in
    let m' := _load_manifest (manifest_file run) in
    let pending := all_floats ∖ list_to_set (C := gset string) (downloaded m) in
    total (summary run) = size all_floats /\
    (new (summary run) + n_failed (summary run) = size pending)%nat /\
    length (synced run) = size pending /\
    (length (downloaded m') = length (downloaded m) + new (summary run))%nat /\
    (NoDup (downloaded m) ->
     n_downloaded (summary run) = length (downloaded m')).
Proof.
  intros Hidx. unfold syncAll. rewrite Hidx. cbn [mbind pyres_bind].
  eexists. split; [reflexivity |]. cbn zeta.
  destruct (sync_pending_spec w file all_floats) as (Hs & Hd & _).
  cbn zeta in Hs, Hd. rewrite Hd, Hs.
  set (m := _load_manifest file) in *.
  set (pending := all_floats ∖ list_to_set (downloaded m)) in *.
  pose proof (fetched_split_length pending) as Hlen.
  unfold sync_pending. fold m. fold pending.
  destruct (decide (pending = ∅)) as [He | Hne].
  - cbn [summary total new n_failed n_downloaded].
    rewrite He, size_empty, elements_empty. cbn.
    split; [reflexivity |]. split; [reflexivity |]. split; [reflexivity |].
    split; [rewrite length_app; cbn; lia |].
    intros Hnd. rewrite app_nil_r.
    unfold size, set_size. cbn.
    apply Permutation_length.
    apply NoDup_Permutation; [apply NoDup_elements | exact Hnd |].
    intros x. now rewrite elem_of_elements, elem_of_list_to_set.
  - rewrite sync_floats_concurrent_spec.
    cbn [summary total new n_failed n_downloaded manifest_file _load_manifest].
    unfold update_manifest.
    destruct (foldl_mark_failed
                (filter (fun x => (download_with_limit w x).2 <> true)
                   (elements pending))
                (foldl mark_successful m
                   (filter (fun x => (download_with_limit w x).2 = true)
                      (elements pending)))) as (Hdown & _).
    rewrite ?Hdown, ?foldl_mark_successful_downloaded, ?length_app.
    split; [reflexivity |]. split; [exact Hlen |].
    split; [reflexivity |]. split; [reflexivity |].
    intros _. reflexivity.
Qed.

End SyncCounts.

(** ** First upload of a float ([PgClient.batch_upload_data]) *)

Section FirstUpload.
Import PgClient.

Lemma lookup_column_update_set (col : string) (cols : list (string * sqlval)) :
  col <> "float_id" ->
  Columns.lookup_column col cols
  = Columns.lookup_column col (update_set cols).
Proof.
  intros Hne. unfold update_set. rewrite lookup_column_filter.
  now rewrite (proj2 (String.eqb_neq col "float_id") Hne).
Qed.

(** The first accepted upload of a float creates one row in each table,
    under the float id of the record: the metadata row holds the id, the
    required columns, [updated_at] and each optional column that has a
    value (NULL otherwise); the status row holds the id, the position as
    one [location] point and never as [latitude] and [longitude] columns,
    [updated_at] and the optional columns likewise.  Rows of other floats
    and the processing log are left as they were, and nothing is
    committed. *)
Theorem first_upload_creates_rows
  (now : datetime) (metadata : FloatMetadata.t) (status : FloatStatus.t)
  (c : conn) :
  argo_float_metadata (current c) !! FloatMetadata.float_id metadata = None ->
  argo_float_status (current c) !! FloatStatus.float_id status = None ->
  exists c' new_m new_s,
    batch_upload_data true now metadata status c = (true, c') /\
    argo_float_metadata (current c') !! FloatMetadata.float_id metadata
      = Some new_m /\
    argo_float_status (current c') !! FloatStatus.float_id status
      = Some new_s /\
    (new_m !! "float_id" = Some (SInt (FloatMetadata.float_id metadata)) /\
     new_m !! "wmo_number" = Some (SText (FloatMetadata.wmo_number metadata)) /\
     new_m !! "data_centre"
       = Some (SText (FloatMetadata.data_centre metadata)) /\
     new_m !! "updated_at" = Some (STimestamp now) /\
     forall col v, (col, v) ∈ Columns.metadata_optional metadata ->
                   new_m !! col = v) /\
    (new_s !! "float_id" = Some (SInt (FloatStatus.float_id status)) /\
     new_s !! "location"
       = Some (SGeom (FloatStatus.longitude status)
                 (FloatStatus.latitude status)) /\
     new_s !! "latitude" = None /\
     new_s !! "longitude" = None /\
     new_s !! "updated_at" = Some (STimestamp now) /\
     forall col v, (col, v) ∈ Columns.status_optional status ->
                   new_s !! col = v) /\
    (forall id, id <> FloatMetadata.float_id metadata ->
       argo_float_metadata (current c') !! id
       = argo_float_metadata (current c) !! id) /\
    (forall id, id <> FloatStatus.float_id status ->
       argo_float_status (current c') !! id
       = argo_float_status (current c) !! id) /\
    processing_log (current c') = processing_log (current c) /\
    committed c' = committed c.
Proof.
  intros Hm Hs.
  destruct (insert_on_conflict_update_new _ (metadata_data now metadata) _ Hm)
    as (new_m & Hnew_m & Hcols_m).
  destruct (insert_on_conflict_update_new _ (status_data now status) _ Hs)
    as (new_s & Hnew_s & Hcols_s).
  destruct (metadata_update_set now metadata) as (_ & M2 & M3 & M4 & M5).
  destruct (status_update_set now status) as (_ & S2 & S3 & S4 & S5 & S6).
  eexists _, new_m, new_s. split; [reflexivity |].
  cbn [current committed argo_float_metadata argo_float_status processing_log].
  split; [exact Hnew_m |]. split; [exact Hnew_s |].
  split; [| split; [| split; [| split; [| split]]]].
  - rewrite !Hcols_m.
    split; [reflexivity |].
    split; [rewrite lookup_column_update_set by discriminate; exact M2 |].
    split; [rewrite lookup_column_update_set by discriminate; exact M3 |].
    split; [rewrite lookup_column_update_set by discriminate; exact M4 |].
    intros col v Hin. rewrite Hcols_m.
    rewrite lookup_column_update_set; [now apply M5 |].
    intros ->. unfold Columns.metadata_optional in Hin.
    repeat (apply elem_of_cons in Hin as [[=] | Hin]). inversion Hin.
  - rewrite !Hcols_s.
    split; [reflexivity |].
    split; [rewrite lookup_column_update_set by discriminate; exact S4 |].
    split; [rewrite lookup_column_update_set by discriminate; exact S2 |].
    split; [rewrite lookup_column_update_set by discriminate; exact S3 |].
    split; [rewrite lookup_column_update_set by discriminate; exact S5 |].
    intros col v Hin. rewrite Hcols_s.
    rewrite lookup_column_update_set; [now apply S6 |].
    intros ->. unfold Columns.status_optional in Hin.
    repeat (apply elem_of_cons in Hin as [[=] | Hin]). inversion Hin.
  - intros id Hne. apply insert_on_conflict_update_other. congruence.
  - intros id Hne. apply insert_on_conflict_update_other. congruence.
  - reflexivity.
  - reflexivity.
Qed.

End FirstUpload.

(** ** Bookkeeping of the pipeline loop ([main.sync]) *)

Section Bookkeeping.
Import Main.
Variable w : World.

(** A rejected upsert rolls the transaction back: in a batch run every
    change made since the last commit is discarded with it, while the ids
    already listed as successful stay listed. *)
Theorem rejected_upload_discards_uncommitted
  (operation : string) (arg_float_id : option string)
  (st : LoopState) (fid : string)
  (metadata : FloatMetadata.t) (status : StatusSummary)
  (parquet_path : option string) (status_model : FloatStatus.t) (n : Z) :
  process_directory w fid = Stats (Some metadata) (Some status) parquet_path ->
  model_validate status = Some status_model ->
  FloatStatus.latitude status_model <> None ->
  FloatStatus.longitude status_model <> None ->
  Py.int_of_str fid = Some n ->
  execute_ok w metadata status_model = false ->
  let st' := flow_state (loop_body w operation true arg_float_id st fid) in
  PgClient.current (db st') = PgClient.committed (db st) /\
  PgClient.committed (db st') = PgClient.committed (db st) /\
  successful_float_ids st' = successful_float_ids st /\
  processed_count st' = processed_count st /\
  process_failed st' = S (process_failed st).
Proof.
  intros Hdir Hval Hlat Hlon Hn Hex st'. subst st'.
  unfold loop_body, process_float. rewrite Hdir, Hval.
  rewrite bool_decide_false by tauto. rewrite Hn, Hex.
  cbn [PgClient.batch_upload_data negb].
  unfold batch_commit. cbn [andb].
  destruct (_ =? _)%nat; [| cbn; auto].
  unfold do_commit. destruct (commit_ok w _); cbn; auto.
Qed.

Lemma upserted_ids_app (l1 l2 : list event) :
  upserted_ids (l1 ++ l2) = (upserted_ids l1 ++ upserted_ids l2)%list.
Proof. apply omap_app. Qed.

(** What the bookkeeping of one [try] block amounts to. *)
Lemma process_float_counts (st : LoopState) (fid : string) :
  match process_float w st fid with
  | Skipped st' =>
      processed_count st' = S (processed_count st) /\
      process_failed st' = process_failed st /\
      successful_float_ids st' = successful_float_ids st /\
      failed_float_ids_list st' = failed_float_ids_list st /\
      upserted_ids (trace st') = upserted_ids (trace st)
  | Done st' =>
      processed_count st' = S (processed_count st) /\
      process_failed st' = process_failed st /\
      failed_float_ids_list st' = failed_float_ids_list st /\
      exists n, successful_float_ids st'
                = (successful_float_ids st ++ [n])%list /\
                upserted_ids (trace st')
                = (upserted_ids (trace st) ++ [n])%list
  | Failed _ st' =>
      processed_count st' = processed_count st /\
      process_failed st' = process_failed st /\
      successful_float_ids st' = successful_float_ids st /\
      failed_float_ids_list st' = failed_float_ids_list st /\
      exists l, upserted_ids (trace st')
                = (upserted_ids (trace st) ++ l)%list
  end.
Proof.
  unfold process_float.
  destruct (process_directory w fid) as [err | [md |] [sd |] pq |];
    try (cbn; rewrite upserted_ids_app; cbn; repeat split;
         exists []; now rewrite app_nil_r).
  destruct (model_validate sd) as [sm |];
    [| cbn; rewrite upserted_ids_app; cbn; repeat split;
       exists []; now rewrite app_nil_r].
  case_bool_decide.
  { cbn. rewrite upserted_ids_app. cbn. now rewrite app_nil_r. }
  destruct (Py.int_of_str fid) as [n |];
    [| cbn; rewrite upserted_ids_app; cbn; repeat split;
       exists []; now rewrite app_nil_r].
  destruct (execute_ok w md sm); cbn [PgClient.batch_upload_data].
  - destruct pq as [p |]; [destruct (Py.truthy p) |]; cbn;
      repeat split; exists n; rewrite ?upserted_ids_app; cbn;
      rewrite ?app_nil_r; split; reflexivity.
  - cbn. repeat split. exists [n]. rewrite !upserted_ids_app. cbn.
    now rewrite app_nil_r.
Qed.

Lemma do_commit_counts (st : LoopState) :
  let st' := flow_state (do_commit w st) in
  processed_count st' = processed_count st /\
  process_failed st' = process_failed st /\
  successful_float_ids st' = successful_float_ids st /\
  failed_float_ids_list st' = failed_float_ids_list st /\
  upserted_ids (trace st') = upserted_ids (trace st).
Proof.
  unfold do_commit. destruct (commit_ok w (commits st)); cbn;
    rewrite ?upserted_ids_app; cbn; rewrite ?app_nil_r; auto.
Qed.

Lemma batch_commit_counts (batch : bool) (st : LoopState) :
  let st' := flow_state (batch_commit w batch st) in
  processed_count st' = processed_count st /\
  process_failed st' = process_failed st /\
  successful_float_ids st' = successful_float_ids st /\
  failed_float_ids_list st' = failed_float_ids_list st /\
  upserted_ids (trace st') = upserted_ids (trace st).
Proof.
  unfold batch_commit. destruct (_ && _); [apply do_commit_counts |].
  cbn. auto.
Qed.

(** One iteration handles one float: it is counted once, as processed or
    as failed; the ids listed as successful grow by at most the float,
    and only with a call of [batch_upload_data] for it. *)
Lemma loop_body_counts
  (operation : string) (batch : bool) (arg_float_id : option string)
  (st : LoopState) (fid : string) :
  let st' := flow_state (loop_body w operation batch arg_float_id st fid) in
  (processed_count st' + process_failed st'
   = S (processed_count st + process_failed st))%nat /\
  (length (successful_float_ids st') + processed_count st
   <= length (successful_float_ids st) + processed_count st')%nat /\
  (length (failed_float_ids_list st') + process_failed st
   <= length (failed_float_ids_list st) + process_failed st')%nat /\
  exists ok rest,
    successful_float_ids st' = (successful_float_ids st ++ ok)%list /\
    upserted_ids (trace st') = (upserted_ids (trace st) ++ rest)%list /\
    ok `sublist_of` rest.
Proof.
  unfold loop_body. pose proof (process_float_counts st fid) as H.
  destruct (process_float w st fid) as [st1 | st1 | e st1].
  - cbn [flow_state]. destruct H as (H1 & H2 & H3 & H4 & H5).
    rewrite H1, H2, H3, H4, H5. repeat split; try lia.
    exists [], []. now rewrite !app_nil_r.
  - destruct (batch_commit_counts batch st1) as (B1 & B2 & B3 & B4 & B5).
    cbn zeta in B1, B2, B3, B4, B5.
    destruct H as (H1 & H2 & H4 & n & H3 & H5).
    rewrite B1, B2, B3, B4, B5, H1, H2, H3, H4, H5, length_app. cbn.
    repeat split; try lia. exists [n], [n]. auto.
  - destruct H as (H1 & H2 & H3 & H4 & l & H5).
    assert (Hfail : (length (failed_float_ids_list (track_failure fid st1))
                     <= S (length (failed_float_ids_list st)))%nat).
    { cbn. rewrite <- H4. destruct (Py.isdigit fid); [| lia].
      rewrite length_app. destruct (Py.int_of_str fid); cbn; lia. }
    destruct batch; cbn [negb].
    + destruct (batch_commit_counts true (track_failure fid st1))
        as (B1 & B2 & B3 & B4 & B5).
      cbn zeta in B1, B2, B3, B4, B5.
      rewrite B1, B2, B3, B4, B5.
      cbn [track_failure processed_count process_failed successful_float_ids
           trace] in *.
      rewrite H1, H2, H3, H5. repeat split; try lia.
      exists [], l. rewrite app_nil_r. split; [reflexivity |].
      split; [reflexivity | apply sublist_nil_l].
    + match goal with
      | |- context [do_commit w ?s] =>
          destruct (do_commit_counts s) as (B1 & B2 & B3 & B4 & B5);
          cbn zeta in B1, B2, B3, B4, B5;
          destruct (do_commit w s) as [st2 | r st2 | st2]
      end;
        cbn [flow_state] in *; rewrite B1, B2, B3, B4, B5;
        cbn [do_log emit with_db track_failure processed_count process_failed
             successful_float_ids failed_float_ids_list trace] in *;
        rewrite ?upserted_ids_app; cbn; rewrite ?app_nil_r;
        rewrite H1, H2, H3, H5; (repeat split; try lia);
        exists [], l; rewrite app_nil_r;
        (split; [reflexivity |]; split; [reflexivity | apply sublist_nil_l]).
Qed.

(** The loop over a work list, as far as it gets. *)
Lemma run_loop_counts
  (operation : string) (batch : bool) (arg_float_id : option string)
  (work : list string) (st : LoopState) :
  let out := run_loop w operation batch arg_float_id st work in
  let st' := flow_state out in
  (length (successful_float_ids st') + processed_count st
   <= length (successful_float_ids st) + processed_count st')%nat /\
  (length (failed_float_ids_list st') + process_failed st
   <= length (failed_float_ids_list st) + process_failed st')%nat /\
  (exists ok rest,
    successful_float_ids st' = (successful_float_ids st ++ ok)%list /\
    upserted_ids (trace st') = (upserted_ids (trace st) ++ rest)%list /\
    ok `sublist_of` rest) /\
  ((exists st2, out = Next st2) ->
   (processed_count st' + process_failed st'
    = processed_count st + process_failed st + length work)%nat).
Proof.
  revert st. induction work as [| fid rest IH]; intros st out st';
    subst st' out; cbn [run_loop].
  - cbn. repeat split; try lia. exists [], []. now rewrite !app_nil_r.
  - destruct (loop_body_counts operation batch arg_float_id st fid)
      as (C1 & C2 & C3 & ok & ups & C4 & C5 & C6).
    cbn zeta in C1, C2, C3, C4, C5.
    destruct (loop_body w operation batch arg_float_id st fid)
      as [st1 | r st1 | st1]; cbn [flow_state] in *.
    + destruct (IH st1) as (I2 & I3 & (ok' & ups' & I4 & I5 & I6) & I1).
      cbn zeta in I1, I2, I3, I4, I5.
      split; [lia |]. split; [lia |]. split.
      * exists (ok ++ ok')%list, (ups ++ ups')%list.
        rewrite I4, I5, C4, C5, <- !app_assoc.
        split; [reflexivity |]. split; [reflexivity |].
        now apply sublist_app.
      * intros Hnext. specialize (I1 Hnext). cbn [length]. lia.
    + split; [lia |]. split; [lia |].
      split; [eauto |]. intros (st2 & [=]).
    + split; [lia |]. split; [lia |].
      split; [eauto |]. intros (st2 & [=]).
Qed.

End Bookkeeping.

Section PhaseBookkeeping.
Import Main.
Variable w : World.

(** The processing phase leaves its lists as the loop left them. *)
Lemma process_phase_state
  (arg_float_id : option string) (sync_all update : bool)
  (work : list string) (total_floats download_failed : nat)
  (stored : PgClient.tables) :
  let st0 :=
    {| processed_count := 0; process_failed := 0;
       successful_float_ids := []; failed_float_ids_list := [];
       db := {| PgClient.current := stored; PgClient.committed := stored |};
       commits := 0; trace := [] |} in
  let operation :=
    if sync_all then "SYNC_ALL"
    else if update then "WEEKLY_UPDATE" else "SYNC" in
  let looped := run_loop w operation (sync_all || update) arg_float_id st0 work in
  exists st,
    (process_phase w arg_float_id sync_all update work total_floats
       download_failed stored).2 = Some st /\
    processed_count st = processed_count (flow_state looped) /\
    process_failed st = process_failed (flow_state looped) /\
    successful_float_ids st = successful_float_ids (flow_state looped) /\
    failed_float_ids_list st = failed_float_ids_list (flow_state looped) /\
    upserted_ids (trace st) = upserted_ids (trace (flow_state looped)).
Proof.
  intros st0 operation looped. unfold process_phase.
  fold st0. fold operation. fold looped.
  destruct looped as [st1 | r st1 | st1]; cbn [flow_state snd close];
    try (eexists; split; [reflexivity |]; cbn;
         rewrite ?upserted_ids_app; cbn; rewrite ?app_nil_r; auto).
  match goal with
  | |- context [do_commit w ?s] =>
      destruct (do_commit_counts w s) as (B1 & B2 & B3 & B4 & B5);
      cbn zeta in B1, B2, B3, B4, B5;
      destruct (do_commit w s) as [st2 | r st2 | st2]
  end;
    [destruct (sync_all || update) | |];
    cbn [flow_state snd close] in *;
    (eexists; split; [reflexivity |]);
    cbn [emit processed_count process_failed successful_float_ids
         failed_float_ids_list trace];
    rewrite ?upserted_ids_app, B1, B2, B3, B4, B5;
    cbn [do_log emit with_db processed_count process_failed
         successful_float_ids failed_float_ids_list trace];
    rewrite ?upserted_ids_app; cbn; rewrite ?app_nil_r; auto.
Qed.

(** Whatever the mode and however the run ends, the ids a run lists as
    successful are ids [batch_upload_data] was called for, in call order;
    there are no more of them than floats counted as processed, and no
    more failed ids than floats counted as failed. *)
Theorem listed_successes_were_uploaded
  (arg_float_id : option string) (sync_all update skip_download : bool)
  (file : option ArgoSyncWorker.Manifest) (stored : PgClient.tables) :
  match final (sync w arg_float_id sync_all update skip_download file stored)
  with
  | Some st =>
      successful_float_ids st `sublist_of` upserted_ids (trace st) /\
      (length (successful_float_ids st) <= processed_count st)%nat /\
      (length (failed_float_ids_list st) <= process_failed st)%nat
  | None => True
  end.
Proof.
  unfold sync. destruct (_ && _); [exact I |].
  destruct (download_phase _ _ _ _ _ _) as [[[r | work total failed] file'] |];
    try exact I.
  destruct work as [| fid rest]; [exact I |].
  destruct (clients_ok w); [| exact I].
  destruct (process_phase_state arg_float_id sync_all update (fid :: rest)
              total failed stored) as (st & Hst & P1 & P2 & P3 & P4 & P5).
  cbn zeta in Hst, P1, P2, P3, P4, P5.
  destruct (process_phase _ _ _ _ _ _ _ _) as [res fin]. cbn [snd] in Hst.
  subst fin. cbn [final].
  match type of P1 with
  | _ = processed_count (flow_state (run_loop w ?op ?b ?a ?s ?l)) =>
      destruct (run_loop_counts w op b a l s)
        as (C2 & C3 & (ok & ups & C4 & C5 & C6) & _)
  end.
  cbn zeta in C2, C3, C4, C5. rewrite <- P1, <- P3 in C2.
  rewrite <- P2, <- P4 in C3. rewrite <- P3 in C4. rewrite <- P5 in C5.
  cbn in C2, C3, C4, C5.
  split; [rewrite C4, C5; exact C6 |]. split; lia.
Qed.

Section CommitsGoThrough.
Hypothesis commits_succeed : forall n, commit_ok w n = true.


End CommitsGoThrough.
End PhaseBookkeeping.

(** ** The index parser ([ArgoSyncWorker._parse_index_for_floats]) *)

Section Index.
Import IndexParser.

Abbreviation lacks sep s :=
  (Py.all_chars (fun c => negb (Ascii.eqb c sep)) s = true).

Lemma string_app_cons (c : ascii) (s t : string) :
  (String c s ++ t)%string = String c (s ++ t).
Proof. reflexivity. Qed.

Lemma string_app_nil_l (t : string) : (EmptyString ++ t)%string = t.
Proof. reflexivity. Qed.

Lemma string_app_nil_r (s : string) : (s ++ EmptyString)%string = s.
Proof.
  induction s as [| c s IH]; [reflexivity |].
  rewrite string_app_cons. now f_equal.
Qed.

Lemma string_app_assoc (a b c : string) :
  ((a ++ b) ++ c)%string = (a ++ (b ++ c))%string.
Proof.
  induction a as [| x a IH]; [reflexivity |].
  rewrite !string_app_cons. now f_equal.
Qed.

Lemma all_chars_app (p : ascii -> bool) (s t : string) :
  Py.all_chars p (s ++ t) = Py.all_chars p s && Py.all_chars p t.
Proof.
  induction s as [| c s IH]; [reflexivity |].
  rewrite string_app_cons. cbn [Py.all_chars]. now rewrite IH, andb_assoc.
Qed.

Lemma split_lacks (sep : ascii) (a : string) :
  lacks sep a -> PyStr.split sep a = [a].
Proof.
  induction a as [| c a IH]; [reflexivity |].
  cbn [Py.all_chars PyStr.split]. intros H.
  apply andb_true_iff in H as [Hc Ha].
  apply negb_true_iff in Hc. rewrite Hc, (IH Ha). reflexivity.
Qed.

Lemma split_app (sep : ascii) (a t : string) :
  lacks sep a ->
  PyStr.split sep (a ++ String sep t) = a :: PyStr.split sep t.
Proof.
  induction a as [| c a IH];
    rewrite ?string_app_cons, ?string_app_nil_l;
    cbn [Py.all_chars PyStr.split].
  - intros _. now rewrite Ascii.eqb_refl.
  - intros H. apply andb_true_iff in H as [Hc Ha].
    apply negb_true_iff in Hc. rewrite Hc, (IH Ha). reflexivity.
Qed.

(** A text either lacks the separator or splits at its first occurrence. *)
Lemma first_separator (sep : ascii) (s : string) :
  lacks sep s \/ exists a t, lacks sep a /\ s = (a ++ String sep t)%string.
Proof.
  induction s as [| c s IH]; [now left |].
  destruct (Ascii.eqb_spec c sep) as [-> | Hne].
  - right. exists EmptyString, s. split; reflexivity.
  - assert (Hc : negb (Ascii.eqb c sep) = true)
      by (apply negb_true_iff, Ascii.eqb_neq, Hne).
    destruct IH as [H | (a & t & Ha & ->)].
    + left. cbn [Py.all_chars]. now rewrite Hc, H.
    + right. exists (String c a), t. split; [| reflexivity].
      cbn [Py.all_chars]. now rewrite Hc, Ha.
Qed.

Lemma plain_lacks (s : string) :
  plain s <-> lacks "/" s /\ lacks "," s.
Proof.
  unfold plain. induction s as [| c s IH]; cbn [Py.all_chars]; [tauto |].
  rewrite !andb_true_iff, IH. tauto.
Qed.

Lemma str_lstrip_nil_iff (s : string) :
  PyStr.lstrip s = EmptyString <-> Py.all_chars PyStr.is_space s = true.
Proof.
  induction s as [| c s IH]; simpl; [tauto |].
  destruct (PyStr.is_space c); simpl; [exact IH |].
  split; discriminate.
Qed.

Lemma str_lstrip_head (s : string) (c : ascii) (r : string) :
  PyStr.lstrip s = String c r -> PyStr.is_space c = false.
Proof.
  induction s as [| a s IH]; simpl; [discriminate |].
  destruct (PyStr.is_space a) eqn:E; [exact IH |].
  now intros [= <- <-].
Qed.

Lemma str_strip_nil_iff (s : string) :
  PyStr.strip s = EmptyString <-> Py.all_chars PyStr.is_space s = true.
Proof.
  unfold PyStr.strip. rewrite <- str_lstrip_nil_iff.
  destruct (PyStr.lstrip s) as [| c r] eqn:E; [simpl; tauto |].
  pose proof (str_lstrip_head _ _ _ E) as Hc.
  cbn [PyStr.rstrip]. rewrite Hc.
  destruct (PyStr.rstrip r); split; discriminate.
Qed.

(** A line with a slash in it is not blank. *)
Lemma slash_not_blank (a b : string) :
  Py.truthy (PyStr.strip (a ++ String "/" b)) = true.
Proof.
  destruct (PyStr.strip (a ++ String "/" b)) eqn:E; [| reflexivity].
  apply str_strip_nil_iff in E. rewrite all_chars_app in E.
  apply andb_true_iff in E as [_ E]. cbn in E. discriminate.
Qed.

(** The lines that name a float of the DAC: not a comment, and starting
    with the DAC's name, a slash and the float id, the id ending at the
    next slash or comma or with the line. *)
Lemma float_id_of_line_spec (dac_name line x : string) :
  float_id_of_line dac_name line = Some x <->
  PyStr.startswith "#" line = false /\
  exists rest,
    line = (dac_name ++ String "/" (x ++ rest))%string /\
    plain dac_name /\ plain x /\
    (rest = EmptyString \/
     exists t, rest = String "/" t \/ rest = String "," t).
Proof.
  unfold float_id_of_line. split.
  - destruct (PyStr.startswith "#" line); [discriminate |].
    destruct (Py.truthy (PyStr.strip line)); [| discriminate].
    cbn [orb negb]. intros H. split; [reflexivity |].
    (* the first field *)
    assert (Hfield : exists fp tail,
              PyStr.split "," line = fp :: tail /\ lacks "," fp /\
              (line = fp \/ exists t, line = (fp ++ String "," t)%string)).
    { destruct (first_separator "," line) as [Hl | (a & t & Ha & ->)].
      - exists line, []. rewrite split_lacks by exact Hl. auto.
      - exists a, (PyStr.split "," t). rewrite split_app by exact Ha.
        split; [reflexivity |]. split; [exact Ha |]. right. now exists t. }
    destruct Hfield as (fp & tail & Hsplit & Hfp & Hline).
    rewrite Hsplit in H.
    destruct (first_separator "/" fp) as [Hl | (a & t & Ha & ->)];
      [rewrite split_lacks in H by exact Hl; discriminate |].
    rewrite split_app in H by exact Ha.
    rewrite all_chars_app in Hfp. apply andb_true_iff in Hfp as [Hac Htc].
    cbn [Py.all_chars] in Htc. apply andb_true_iff in Htc as [_ Htc].
    assert (Hsecond : exists r,
              t = (x ++ r)%string /\ lacks "/" x /\
              (r = EmptyString \/ exists u, r = String "/" u) /\
              String.eqb a dac_name = true).
    { destruct (first_separator "/" t) as [Hl | (b & u & Hb & ->)].
      - rewrite split_lacks in H by exact Hl.
        destruct (String.eqb a dac_name) eqn:Ea; [| discriminate].
        injection H as <-. exists EmptyString.
        rewrite string_app_nil_r. auto.
      - rewrite split_app in H by exact Hb.
        destruct (String.eqb a dac_name) eqn:Ea; [| discriminate].
        injection H as <-. exists (String "/" u). eauto 6. }
    destruct Hsecond as (r & -> & Hx & Hr & Ea).
    apply String.eqb_eq in Ea. subst a.
    rewrite all_chars_app in Htc. apply andb_true_iff in Htc as [Hxc Hrc].
    assert (Hplain : plain dac_name /\ plain x)
      by (rewrite !plain_lacks; auto).
    destruct Hplain as [Hp1 Hp2].
    destruct Hline as [-> | (t' & ->)].
    + exists r. split; [reflexivity |]. split; [exact Hp1 |].
      split; [exact Hp2 |].
      destruct Hr as [-> | (u & ->)]; [now left | right; eauto].
    + exists (r ++ String "," t')%string. split.
      * now rewrite string_app_assoc, string_app_cons, string_app_assoc.
      * split; [exact Hp1 |]. split; [exact Hp2 |]. right.
        destruct Hr as [-> | (u & ->)];
          rewrite ?string_app_cons, ?string_app_nil_l; eauto.
  - intros (Hc & rest & -> & Hd & Hx & Hrest).
    rewrite Hc, slash_not_blank. cbn [orb negb].
    apply plain_lacks in Hd as [Hd1 Hd2]. apply plain_lacks in Hx as [Hx1 Hx2].
    (* the first field is the path up to the first comma *)
    assert (Hfield : exists r' tail,
              PyStr.split "," (dac_name ++ String "/" (x ++ rest))
                = (dac_name ++ String "/" (x ++ r'))%string :: tail /\
              (r' = EmptyString \/ exists u, r' = String "/" u)).
    { destruct Hrest as [-> | (t & [-> | ->])].
      - exists EmptyString, []. split; [| now left].
        apply split_lacks. rewrite all_chars_app. cbn [Py.all_chars].
        rewrite all_chars_app, Hd2, Hx2. reflexivity.
      - destruct (first_separator "," t) as [Hl | (a & u & Ha & ->)].
        + exists (String "/" t), []. split; [| right; eauto].
          apply split_lacks. rewrite all_chars_app. cbn [Py.all_chars].
          rewrite all_chars_app. cbn [Py.all_chars].
          rewrite Hd2, Hx2, Hl. reflexivity.
        + exists (String "/" a), (PyStr.split "," u).
          split; [| right; eauto].
          replace (dac_name ++ String "/" (x ++ String "/" (a ++ String "," u)))%string
            with ((dac_name ++ String "/" (x ++ String "/" a))
                    ++ String "," u)%string.
          * apply split_app. rewrite all_chars_app. cbn [Py.all_chars].
            rewrite all_chars_app. cbn [Py.all_chars].
            rewrite Hd2, Hx2, Ha. reflexivity.
          * now rewrite !string_app_assoc, !string_app_cons,
              !string_app_assoc, !string_app_cons.
      - exists EmptyString, (PyStr.split "," t). split; [| now left].
        replace (dac_name ++ String "/" (x ++ String "," t))%string
          with ((dac_name ++ String "/" (x ++ EmptyString))
                  ++ String "," t)%string.
        + apply split_app. rewrite all_chars_app. cbn [Py.all_chars].
          rewrite all_chars_app, Hd2, Hx2. reflexivity.
        + now rewrite string_app_nil_r, !string_app_assoc, !string_app_cons,
            ?string_app_assoc. }
    destruct Hfield as (r' & tail & -> & Hr').
    rewrite split_app by exact Hd1.
    destruct Hr' as [-> | (u & ->)].
    + rewrite string_app_nil_r, split_lacks by exact Hx1.
      now rewrite String.eqb_refl.
    + rewrite split_app by exact Hx1. now rewrite String.eqb_refl.
Qed.

Lemma parse_index_fold (dac_name : string) (lines : list string)
  (acc : gset string) (x : string) :
  x ∈ foldl (fun float_ids line =>
               match float_id_of_line dac_name line with
               | Some float_id => float_ids ∪ {[float_id]}
               | None => float_ids
               end) acc lines
  <-> x ∈ acc \/ exists line, line ∈ lines
                             /\ float_id_of_line dac_name line = Some x.
Proof.
  revert acc. induction lines as [| l lines IH]; intros acc; cbn [foldl].
  - split; [now left | intros [H | (line & Hin & _)]; [exact H |]].
    inversion Hin.
  - rewrite IH. split.
    + intros [H | (line & Hin & Hl)].
      * destruct (float_id_of_line dac_name l) as [y |] eqn:E; [| now left].
        apply elem_of_union in H as [H | H]; [now left |].
        apply elem_of_singleton in H as ->. right. exists l. split; [left | auto].
      * right. exists line. split; [now right | exact Hl].
    + intros [H | (line & Hin & Hl)].
      * left. destruct (float_id_of_line dac_name l); [| exact H].
        apply elem_of_union. now left.
      * apply elem_of_cons in Hin as [-> | Hin].
        -- left. rewrite Hl. apply elem_of_union. right.
           now apply elem_of_singleton.
        -- right. eauto.
Qed.

(** The float ids read from an index are exactly those named by a line
    that is not a comment and starts with the DAC's name, a slash and the
    id, where the id ends at the next slash, at the next comma or with the
    line; neither name holds a slash or a comma.  Lines of other DACs, the
    header line and blank lines add nothing. *)
Theorem parse_index_for_floats_spec (dac_name content x : string) :
  x ∈ _parse_index_for_floats dac_name content <->
  exists line rest,
    line ∈ PyStr.splitlines content /\
    PyStr.startswith "#" line = false /\
    line = (dac_name ++ String "/" (x ++ rest))%string /\
    plain dac_name /\ plain x /\
    (rest = EmptyString \/
     exists t, rest = String "/" t \/ rest = String "," t).
Proof.
  unfold _parse_index_for_floats. rewrite parse_index_fold. split.
  - intros [H | (line & Hin & Hl)]; [now apply elem_of_empty in H |].
    apply float_id_of_line_spec in Hl as (Hc & rest & H).
    exists line, rest. tauto.
  - intros (line & rest & Hin & Hc & H). right. exists line.
    split; [exact Hin |]. apply float_id_of_line_spec. eauto.
Qed.

End Index.

(** ** The battery voltage of a tech file
       ([_extract_latest_battery_voltage]) *)

Section TechVoltage.
Variable lib : Env.Library.
Variables values cycle_nums : list ncval.

Abbreviation scan := (ProfileStats.scan lib values cycle_nums).
Abbreviation reads names i v c :=
  (Readings.battery_reading lib names values cycle_nums i v c).

Lemma reading_in_range (i : nat) (v : Q) (c : Z) :
  ProfileStats.reading lib values cycle_nums i = Returns (Some (v, c)) ->
  (5 <= v)%Q /\ (v <= 35)%Q.
Proof.
  unfold ProfileStats.reading.
  destruct (raise_if_none (values !! i)) as [val |]; [| discriminate].
  cbn [mbind pyres_bind].
  destruct (Np.to_float _ _ val) as [[x |] |]; cbn [mbind pyres_bind];
    try discriminate.
  destruct (Py.le 5.0 x && Py.le x 35.0) eqn:E; [| discriminate].
  apply andb_true_iff in E as [E1 E2].
  unfold Py.le in E1, E2. apply Qle_bool_iff in E1, E2.
  destruct (match cycle_nums !! i with Some c0 => _ | None => _ end);
    cbn [mbind pyres_bind]; [| discriminate].
  intros [= <- <-]. split; lra.
Qed.

Abbreviation reads_at := (Readings.reading_from lib values cycle_nums).

Lemma reads_at_S (i0 : nat) (n : ncval) (rest : list ncval)
  (k : nat) (v : Q) (c : Z) :
  reads_at i0 (n :: rest) (S k) v c <-> reads_at (S i0) rest k v c.
Proof.
  unfold Readings.reading_from. cbn [lookup list_lookup].
  replace (i0 + S k)%nat with (S i0 + k)%nat by lia. reflexivity.
Qed.

(** The loop keeps the reading of the highest cycle, the later one among
    equals, and no reading below the cycle it started with. *)
Lemma scan_spec (names : list ncval) (i0 : nat) (lv : option Q) (lc : Z) :
  let out := scan i0 names (lv, lc) in
  lc <= out.2 /\
  (forall k v c, reads_at i0 names k v c -> c <= out.2) /\
  ((out = (lv, lc) /\ forall k v c, reads_at i0 names k v c -> c < lc)
   \/ exists k v,
        reads_at i0 names k v out.2 /\ out.1 = Some v /\
        forall k' v' c', (k < k')%nat -> reads_at i0 names k' v' c' ->
                         c' < out.2).
Proof.
  revert i0 lv lc. induction names as [| n rest IH]; intros i0 lv lc out.
  - subst out. cbn. split; [lia |].
    split; [intros k v c (x & Hx & _); discriminate |].
    left. split; [reflexivity |]. intros k v c (x & Hx & _). discriminate.
  - subst out. cbn [ProfileStats.scan].
    set (st1 := ProfileStats.scan_step lib values cycle_nums (lv, lc) i0 n).
    (* what the first entry does *)
    assert (Hstep :
      (st1 = (lv, lc) /\ forall v c, reads_at i0 (n :: rest) 0 v c -> c < lc)
      \/ exists v0 c0, st1 = (Some v0, c0) /\ lc <= c0 /\
            reads_at i0 (n :: rest) 0 v0 c0).
    { subst st1. unfold ProfileStats.scan_step. cbn [snd].
      destruct (existsb _ _) eqn:Em;
        [| left; split; [reflexivity |];
           intros v c (x & [= <-] & Hm & _); congruence].
      destruct (ProfileStats.reading lib values cycle_nums i0)
        as [[[v0 c0] |] |] eqn:Er;
        try (left; split; [reflexivity |];
             intros v c (x & _ & _ & Hr);
             rewrite Nat.add_0_r in Hr; congruence).
      destruct (Z.leb_spec lc c0) as [Hle | Hlt].
      - right. exists v0, c0. split; [reflexivity |]. split; [exact Hle |].
        exists n. rewrite Nat.add_0_r. auto.
      - left. split; [reflexivity |].
        intros v c (x & _ & _ & Hr). rewrite Nat.add_0_r in Hr.
        assert (c = c0) by congruence. lia. }
    destruct Hstep as [[E Hnone] | (v0 & c0 & E & Hle & Hread)]; rewrite E.
    + destruct (IH (S i0) lv lc) as (H1 & H2 & H3). cbn zeta in H1, H2, H3.
      split; [exact H1 |]. split.
      * intros [| k] v c Hr; [specialize (Hnone v c Hr); lia |].
        apply reads_at_S in Hr. eauto.
      * destruct H3 as [[Eo Hall] | (k & v & Hr & Hv & Hlater)].
        -- left. split; [exact Eo |].
           intros [| k] v c Hr; [eauto |]. apply reads_at_S in Hr. eauto.
        -- right. exists (S k), v. split; [now apply reads_at_S |].
           split; [exact Hv |]. intros [| k'] v' c' Hk Hr'; [lia |].
           apply reads_at_S in Hr'. apply (Hlater k' v' c'); [lia | exact Hr'].
    + destruct (IH (S i0) (Some v0) c0) as (H1 & H2 & H3).
      cbn zeta in H1, H2, H3.
      split; [lia |]. split.
      * intros [| k] v c Hr.
        -- destruct Hr as (x & _ & _ & Hrx), Hread as (y & _ & _ & Hry).
           assert (c = c0) by congruence. lia.
        -- apply reads_at_S in Hr. eauto.
      * right. destruct H3 as [[Eo Hall] | (k & v & Hr & Hv & Hlater)].
        -- exists 0%nat, v0. rewrite Eo. cbn [fst snd].
           split; [exact Hread |]. split; [reflexivity |].
           intros [| k'] v' c' Hk Hr; [lia |].
           apply reads_at_S in Hr. eauto.
        -- exists (S k), v. split; [now apply reads_at_S |].
           split; [exact Hv |]. intros [| k'] v' c' Hk Hr'; [lia |].
           apply reads_at_S in Hr'. apply (Hlater k' v' c'); [lia | exact Hr'].
Qed.

End TechVoltage.

Section TechFile.
Variable lib : Env.Library.
Variable fs : Env.Staging.

(** The voltage taken from a tech file is a battery reading of the
    file, between 5 and 35 V, of the highest cycle that has one (from
    cycle -1 on), and the last such reading in file order; none is
    returned exactly when the file has no battery reading at cycle -1 or
    later. *)
Theorem latest_battery_voltage_spec
  (tech_file : Env.Path fs) (ds : Dataset) (names values : ncvar) :
  Env.open_dataset fs tech_file = Some ds ->
  variables ds !! "TECHNICAL_PARAMETER_NAME" = Some names ->
  variables ds !! "TECHNICAL_PARAMETER_VALUE" = Some values ->
  let cycle_nums :=
    match variables ds !! "CYCLE_NUMBER" with
    | Some c => data c
    | None => []
    end in
  let reads :=
    Readings.battery_reading lib (data names) (data values) cycle_nums in
  let result := ProfileStats._extract_latest_battery_voltage lib fs tech_file in
  (result = None <-> forall i v c, reads i v c -> c < -1) /\
  (forall v, result = Some v ->
     (5 <= v)%Q /\ (v <= 35)%Q /\
     exists i c, reads i v c /\ -1 <= c /\
       (forall j v' c', reads j v' c' -> c' <= c) /\
       (forall j v' c', (i < j)%nat -> reads j v' c' -> c' < c)).
Proof.
  intros Hopen Hnames Hvalues cycle_nums reads result.
  subst result. unfold ProfileStats._extract_latest_battery_voltage.
  rewrite Hopen, Hnames, Hvalues. fold cycle_nums.
  destruct (scan_spec lib (data values) cycle_nums (data names) 0 None (-1))
    as (Hge & Hmax & Hcases).
  cbn zeta in Hge, Hmax, Hcases.
  set (out := ProfileStats.scan lib (data values) cycle_nums 0 (data names)
                (None, -1)) in *.
  assert (Hreads : forall i v c,
            reads i v c <-> Readings.reading_from lib (data values) cycle_nums 0
                              (data names) i v c) by (intros; reflexivity).
  split.
  - split.
    + intros Hnone i v c Hr. apply Hreads in Hr.
      destruct Hcases as [[_ Hall] | (k & v' & _ & Hv & _)];
        [eauto | congruence].
    + intros Hall.
      destruct Hcases as [[-> _] | (k & v & Hr & _ & _)]; [reflexivity |].
      apply Hreads, Hall in Hr. lia.
  - intros v Hv.
    destruct Hcases as [[Eo _] | (k & v' & Hr & Hv' & Hlater)];
      [rewrite Eo in Hv; discriminate |].
    assert (v' = v) by congruence. subst v'.
    destruct Hr as (x & Hx & Hm & Hread).
    destruct (reading_in_range _ _ _ _ _ _ Hread) as [H5 H35].
    split; [exact H5 |]. split; [exact H35 |].
    exists k, out.2. split; [exists x; auto |]. split; [exact Hge |].
    split.
    + intros j v' c' Hj. apply Hreads in Hj. eauto.
    + intros j v' c' Hlt Hj. apply Hreads in Hj. eauto.
Qed.

End TechFile.

(** ** The status summary ([get_profile_stats]) *)

Section Summary.
Variable lib : Env.Library.
Variable fs : Env.Staging.

Abbreviation get_profile_stats := (ProfileStats.get_profile_stats lib fs).

Abbreviation last_index := Readings.last_index.

(** What the summary holds when there is one. *)
Lemma get_profile_stats_fields
  (file_path : Env.Path fs) (metadata : option FloatMetadata.t)
  (s : Main.StatusSummary) :
  get_profile_stats file_path metadata = Some s ->
  exists ds,
    Env.open_dataset fs file_path = Some ds /\
    default 0%nat (sizes ds !! "N_PROF") <> 0%nat /\
    Main.float_id s
      = PyStr.replace "_prof" EmptyString (Env.stem fs file_path) /\
    ProfileStats.coordinate lib ds "LATITUDE" (last_index ds)
      = Returns (Main.latitude s) /\
    ProfileStats.coordinate lib ds "LONGITUDE" (last_index ds)
      = Returns (Main.longitude s) /\
    ProfileStats.last_cycle lib ds (last_index ds)
      = Returns (Main.cycle_number s) /\
    Main.profile_time s = ProfileStats.last_profile_time lib ds (last_index ds) /\
    ProfileStats.sensor ds "PRES" (last_index ds) ProfileStats.deepest
      = Returns (Main.last_depth s) /\
    ProfileStats.sensor ds "TEMP" (last_index ds) last
      = Returns (Main.last_temp s) /\
    ProfileStats.sensor ds "PSAL" (last_index ds) last
      = Returns (Main.last_salinity s) /\
    Main.battery_percent s
      = metadata ≫= ProfileStats.battery lib fs file_path (Main.float_id s)
                      (Main.cycle_number s).
Proof.
  unfold ProfileStats.get_profile_stats, ProfileStats.build_summary, Readings.last_index.
  destruct (Env.open_dataset fs file_path) as [ds |]; [| discriminate].
  destruct (Nat.eqb_spec (default 0%nat (sizes ds !! "N_PROF")) 0) as [| Hn];
    [discriminate |].
  destruct (ProfileStats.coordinate lib ds "LATITUDE" _) as [lat |] eqn:Elat;
    [| discriminate]. cbn [mbind pyres_bind].
  destruct (ProfileStats.coordinate lib ds "LONGITUDE" _) as [lon |] eqn:Elon;
    [| discriminate]. cbn [mbind pyres_bind].
  destruct (ProfileStats.last_cycle lib ds _) as [cyc |] eqn:Ecyc;
    [| discriminate]. cbn [mbind pyres_bind].
  destruct (ProfileStats.sensor ds "PRES" _ _) as [dep |] eqn:Edep;
    [| discriminate]. cbn [mbind pyres_bind].
  destruct (ProfileStats.sensor ds "TEMP" _ _) as [tmp |] eqn:Etmp;
    [| discriminate]. cbn [mbind pyres_bind].
  destruct (ProfileStats.sensor ds "PSAL" _ _) as [sal |] eqn:Esal;
    [| discriminate]. cbn [mbind pyres_bind try_except].
  intros [= <-]. exists ds. cbn. repeat split; first [reflexivity | assumption].
Qed.

Abbreviation kept := Readings.kept.

Lemma valid_levels_omap (arr : list ncval) (valid : list Q) :
  ProfileStats.valid_levels arr = Returns valid -> valid = omap kept arr.
Proof.
  revert valid. induction arr as [| x arr IH]; intros valid.
  - now intros [= <-].
  - cbn [ProfileStats.valid_levels].
    destruct (ProfileStats.valid_levels arr) as [more |]; [| discriminate].
    cbn [mbind pyres_bind]. specialize (IH more eq_refl). subst more.
    destruct x as [b | t | q | | n | secs |]; try discriminate;
      intros [= <-]; cbn [omap list_omap Readings.kept Readings.number].
    + now destruct (Qle_bool 99999 q).
    + reflexivity.
    + unfold Qle_bool. cbn [Qnum Qden inject_Z].
      replace (99999 * 1 <=? n * 1) with (99999 <=? n)
        by (f_equal; lia).
      now destruct (99999 <=? n).
Qed.

Lemma kept_valid (x : ncval) (q : Q) :
  kept x = Some q <-> Readings.number x = Some q /\ (q < 99999)%Q.
Proof.
  unfold Readings.kept. destruct (Readings.number x) as [r |];
    [| split; [discriminate | intros [[=] _]]].
  destruct (Qle_bool 99999 r) eqn:E.
  - apply Qle_bool_iff in E. split; [discriminate |].
    intros [[= ->] H]. lra.
  - assert (r < 99999)%Q.
    { apply Qnot_le_lt. intros H. apply Qle_bool_iff in H. congruence. }
    split; [intros [= <-]; auto | intros [[= ->] _]; reflexivity].
Qed.

Lemma elem_of_kept (arr : list ncval) (q : Q) :
  q ∈ omap kept arr <-> Readings.valid_in arr q.
Proof.
  rewrite list_elem_of_omap. unfold Readings.valid_in.
  split; intros (x & Hx & H); exists x; (split; [exact Hx |]);
    now apply kept_valid.
Qed.

Lemma qmax_cases (a b : Q) :
  (a <= ProfileStats.qmax a b)%Q /\ (b <= ProfileStats.qmax a b)%Q /\
  (ProfileStats.qmax a b = a \/ ProfileStats.qmax a b = b).
Proof.
  unfold ProfileStats.qmax. destruct (Qle_bool a b) eqn:E.
  - apply Qle_bool_iff in E. repeat split; [exact E | lra | now right].
  - assert (b < a)%Q.
    { apply Qnot_le_lt. intros H. apply Qle_bool_iff in H. congruence. }
    repeat split; [lra | lra | now left].
Qed.

Lemma foldl_qmax (x : Q) (rest : list Q) :
  let m := foldl ProfileStats.qmax x rest in
  m ∈ x :: rest /\ forall q, q ∈ x :: rest -> (q <= m)%Q.
Proof.
  revert x. induction rest as [| y rest IH]; intros x m; subst m; cbn [foldl].
  - split; [left |]. intros q Hq. apply list_elem_of_singleton in Hq as ->. lra.
  - destruct (IH (ProfileStats.qmax x y)) as [Hin Hmax]. cbn zeta in Hin, Hmax.
    destruct (qmax_cases x y) as (Hx & Hy & Hc).
    split.
    + apply elem_of_cons in Hin as [-> | Hin].
      * destruct Hc as [-> | ->]; [left | right; left].
      * right. now right.
    + intros q Hq.
      assert (Hm : (ProfileStats.qmax x y
                    <= foldl ProfileStats.qmax (ProfileStats.qmax x y) rest)%Q)
        by (apply Hmax; left).
      apply elem_of_cons in Hq as [-> | Hq]; [lra |].
      apply elem_of_cons in Hq as [-> | Hq]; [lra |].
      apply Hmax. now right.
Qed.

Lemma deepest_spec (arr : list ncval) :
  Readings.deepest_valid arr (ProfileStats.deepest (omap kept arr)).
Proof.
  unfold Readings.deepest_valid, ProfileStats.deepest.
  destruct (omap kept arr) as [| x rest] eqn:E.
  - intros q Hq. apply elem_of_kept in Hq. rewrite E in Hq. inversion Hq.
  - destruct (foldl_qmax x rest) as [Hin Hmax]. cbn zeta in Hin, Hmax.
    rewrite <- E in Hin. split; [now apply elem_of_kept |].
    intros q Hq. apply Hmax. rewrite <- E. now apply elem_of_kept.
Qed.

Lemma omap_last_origin {A B : Type} (f : A -> option B) (l : list A) (t : B) :
  last (omap f l) = Some t ->
  exists pre x post,
    l = (pre ++ x :: post)%list /\ f x = Some t /\ omap f post = [].
Proof.
  induction l as [| y l IH] using rev_ind; [discriminate |].
  rewrite omap_app. cbn [omap list_omap].
  destruct (f y) as [t' |] eqn:Ey.
  - rewrite last_snoc. intros [= ->]. exists l, y, []. auto.
  - rewrite app_nil_r. intros H.
    destruct (IH H) as (pre & x & post & -> & Hx & Hpost).
    exists pre, x, (post ++ [y])%list. split; [now rewrite <- app_assoc |].
    split; [exact Hx |]. rewrite omap_app, Hpost. cbn. now rewrite Ey.
Qed.

Lemma last_spec (arr : list ncval) :
  Readings.last_valid arr (last (omap kept arr)).
Proof.
  unfold Readings.last_valid.
  destruct (last (omap kept arr)) as [t |] eqn:E.
  - destruct (omap_last_origin _ _ _ E) as (pre & x & post & -> & Hx & Hpost).
    apply kept_valid in Hx as [Hx Ht].
    exists pre, x, post. repeat split; try assumption.
    intros q Hq. apply elem_of_kept in Hq. rewrite Hpost in Hq. inversion Hq.
  - apply last_None in E. intros q Hq. apply elem_of_kept in Hq.
    rewrite E in Hq. inversion Hq.
Qed.

Lemma sensor_spec (ds : Dataset) (var : string) (i : nat)
  (pick : list Q -> option Q) (o : option Q) :
  ProfileStats.sensor ds var i pick = Returns o ->
  match variables ds !! var with
  | None => o = None
  | Some v => exists arr, Np.index v i = Returns arr
                          /\ o = pick (omap kept arr)
  end.
Proof.
  unfold ProfileStats.sensor. destruct (variables ds !! var) as [v |];
    [| now intros [= <-]].
  destruct (Np.index v i) as [arr |]; [| discriminate].
  cbn [mbind pyres_bind].
  destruct (ProfileStats.valid_levels arr) as [valid |] eqn:Ev;
    [| discriminate].
  cbn [mbind pyres_bind]. intros [= <-]. exists arr.
  now rewrite (valid_levels_omap _ _ Ev).
Qed.

(** The sensor values of a summary come from the last profile alone:
    [last_depth] is the greatest pressure of its PRES row that is neither
    NaN nor at or above the fill value 99999, [last_temp] and
    [last_salinity] are the last such readings of its TEMP and PSAL rows;
    each is absent when its variable is missing or its row has no such
    reading. *)
Theorem summary_sensor_readings
  (file_path : Env.Path fs) (metadata : option FloatMetadata.t)
  (ds : Dataset) (s : Main.StatusSummary) :
  Env.open_dataset fs file_path = Some ds ->
  get_profile_stats file_path metadata = Some s ->
  let row name :=
    v ← variables ds !! name;
    match Np.index v (last_index ds) with
    | Returns arr => Some arr
    | Raises => None
    end in
  (match variables ds !! "PRES" with
   | Some _ => exists arr, row "PRES" = Some arr
                           /\ Readings.deepest_valid arr (Main.last_depth s)
   | None => Main.last_depth s = None
   end) /\
  (match variables ds !! "TEMP" with
   | Some _ => exists arr, row "TEMP" = Some arr
                           /\ Readings.last_valid arr (Main.last_temp s)
   | None => Main.last_temp s = None
   end) /\
  (match variables ds !! "PSAL" with
   | Some _ => exists arr, row "PSAL" = Some arr
                           /\ Readings.last_valid arr (Main.last_salinity s)
   | None => Main.last_salinity s = None
   end).
Proof.
  intros Hopen Hs row.
  destruct (get_profile_stats_fields _ _ _ Hs)
    as (ds' & Hopen' & _ & _ & _ & _ & _ & _ & Hp & Ht & Hsal & _).
  assert (ds' = ds) by congruence. subst ds'.
  apply sensor_spec in Hp, Ht, Hsal. subst row. cbn beta.
  split; [| split].
  - destruct (variables ds !! "PRES") as [v |]; [| exact Hp].
    destruct Hp as (arr & Hi & ->). exists arr. cbn. rewrite Hi.
    split; [reflexivity | apply deepest_spec].
  - destruct (variables ds !! "TEMP") as [v |]; [| exact Ht].
    destruct Ht as (arr & Hi & ->). exists arr. cbn. rewrite Hi.
    split; [reflexivity | apply last_spec].
  - destruct (variables ds !! "PSAL") as [v |]; [| exact Hsal].
    destruct Hsal as (arr & Hi & ->). exists arr. cbn. rewrite Hi.
    split; [reflexivity | apply last_spec].
Qed.

(** The two passes over a profile file side by side. *)
Lemma get_profile_stats_passes
  (file_path : Env.Path fs) (metadata : FloatMetadata.t) :
  match get_profile_stats file_path None,
        get_profile_stats file_path (Some metadata) with
  | Some s0, Some s1 =>
      Main.battery_percent s0 = None /\
      s1 = {| Main.float_id := Main.float_id s0;
              Main.latitude := Main.latitude s0;
              Main.longitude := Main.longitude s0;
              Main.cycle_number := Main.cycle_number s0;
              Main.profile_time := Main.profile_time s0;
              Main.last_depth := Main.last_depth s0;
              Main.last_temp := Main.last_temp s0;
              Main.last_salinity := Main.last_salinity s0;
              Main.battery_percent :=
                ProfileStats.battery lib fs file_path (Main.float_id s0)
                  (Main.cycle_number s0) metadata |}
  | None, None => True
  | _, _ => False
  end.
Proof.
  unfold ProfileStats.get_profile_stats, ProfileStats.build_summary.
  destruct (Env.open_dataset fs file_path) as [ds |]; [| exact I].
  destruct (_ =? _)%nat; [exact I |].
  destruct (ProfileStats.coordinate lib ds "LATITUDE" _) as [lat |];
    [| exact I]. cbn [mbind pyres_bind].
  destruct (ProfileStats.coordinate lib ds "LONGITUDE" _) as [lon |];
    [| exact I]. cbn [mbind pyres_bind].
  destruct (ProfileStats.last_cycle lib ds _) as [cyc |];
    [| exact I]. cbn [mbind pyres_bind].
  destruct (ProfileStats.sensor ds "PRES" _ _) as [dep |];
    [| exact I]. cbn [mbind pyres_bind].
  destruct (ProfileStats.sensor ds "TEMP" _ _) as [tmp |];
    [| exact I]. cbn [mbind pyres_bind].
  destruct (ProfileStats.sensor ds "PSAL" _ _) as [sal |];
    [| exact I]. cbn [mbind pyres_bind try_except].
  split; reflexivity.
Qed.

(** The second pass over the profile file, with the metadata at hand,
    changes nothing but the battery estimate: it gives a summary exactly
    when the first pass does, with the same values in every other field;
    the first pass never has a battery estimate, and the estimate of the
    second is that of [estimate_battery_percent] for the platform type of
    the metadata ("UNKNOWN" when it has none), the cycle number of the
    summary (0 when it has none) and the voltage of the tech file next to
    the profile file. *)
Theorem battery_pass_adds_only_battery
  (file_path : Env.Path fs) (metadata : FloatMetadata.t) :
  (get_profile_stats file_path None = None <->
   get_profile_stats file_path (Some metadata) = None) /\
  forall s0 s1,
    get_profile_stats file_path None = Some s0 ->
    get_profile_stats file_path (Some metadata) = Some s1 ->
    Main.battery_percent s0 = None /\
    s1 = {| Main.float_id := Main.float_id s0;
            Main.latitude := Main.latitude s0;
            Main.longitude := Main.longitude s0;
            Main.cycle_number := Main.cycle_number s0;
            Main.profile_time := Main.profile_time s0;
            Main.last_depth := Main.last_depth s0;
            Main.last_temp := Main.last_temp s0;
            Main.last_salinity := Main.last_salinity s0;
            Main.battery_percent :=
              let tech_file :=
                Env.child fs (Env.parent fs file_path)
                  (Main.float_id s0 ++ "_tech.nc")%string in
              Helper.estimate_battery_percent
                (AggregateParser.or_default
                   (FloatMetadata.platform_type metadata) "UNKNOWN")
                (default 0 (Main.cycle_number s0))
                (if Env.path_exists fs tech_file
                 then ProfileStats._extract_latest_battery_voltage lib fs
                        tech_file
                 else None)
                (Some metadata) |}.
Proof.
  pose proof (get_profile_stats_passes file_path metadata) as H.
  destruct (get_profile_stats file_path None) as [a |],
           (get_profile_stats file_path (Some metadata)) as [b |];
    try contradiction.
  - split; [split; discriminate |].
    intros s0 s1 [= <-] [= <-]. exact H.
  - split; [tauto |]. discriminate.
Qed.

End Summary.

(** ** The extractor ([NetCDFParserWorker.process_directory]) *)

Section Extractor.
Variable lib : Env.Library.
Variable fs : Env.Staging.

Abbreviation get_stats := (ProfileStats.get_profile_stats lib fs).
Abbreviation parse_meta :=
  (AggregateParser.parse_metadata_file (Env.repr_float lib)
     (Env.finite_float_of_text lib) (Env.strptime lib) (Env.days_since lib)).
Abbreviation float_dir float_id := (Env.child fs (Env.stage_path fs) float_id).
Abbreviation prof_file float_id :=
  (Env.child fs (float_dir float_id) (float_id ++ "_prof.nc")%string).
Abbreviation meta_file float_id :=
  (Env.child fs (float_dir float_id) (float_id ++ "_meta.nc")%string).

Ltac next_field :=
  match goal with
  | |- context [AggregateParser.extract_string ?r ?ds ?name] =>
      destruct (AggregateParser.extract_string r ds name);
      cbn [mbind pyres_bind fmap pyres_fmap]; [| discriminate]
  | |- context [AggregateParser.platform_number_int ?a] =>
      destruct (AggregateParser.platform_number_int a);
      cbn [mbind pyres_bind fmap pyres_fmap]; [| discriminate]
  end.

(** The status and the type of a parsed record are those the helper
    computes from the meta file and the profile time handed in. *)
Lemma parse_metadata_file_status
  (file : option Dataset) (recent : option datetime) (m : FloatMetadata.t) :
  parse_meta file recent = Some m ->
  exists ds, file = Some ds /\
    FloatMetadata.status m
      = Some (Helper.determine_float_status (Env.days_since lib) ds recent) /\
    FloatMetadata.float_type m = Some (Helper.classify_float_type ds).
Proof.
  unfold AggregateParser.parse_metadata_file.
  destruct file as [ds |]; [| discriminate].
  unfold AggregateParser.build_metadata, AggregateParser.parse_date.
  repeat next_field.
  cbn. intros [= <-]. exists ds. repeat split; reflexivity.
Qed.

(** What the stats dictionary of a float holds, from the two files. *)
Lemma process_directory_fields
  (float_id : string) (s : NetCDFParserWorker.stats) :
  NetCDFParserWorker.process_directory lib fs float_id
    = NetCDFParserWorker.Processed s ->
  let first :=
    if Env.path_exists fs (prof_file float_id)
    then get_stats (prof_file float_id) None else None in
  Env.path_exists fs (float_dir float_id) = true /\
  Env.staging_ok lib = true /\
  NetCDFParserWorker.metadata s =
    (if Env.path_exists fs (meta_file float_id)
     then parse_meta (Env.open_dataset fs (meta_file float_id))
            (first ≫= Main.profile_time)
     else None) /\
  NetCDFParserWorker.status s =
    match NetCDFParserWorker.metadata s with
    | Some m =>
        match (if Env.path_exists fs (prof_file float_id)
               then get_stats (prof_file float_id) (Some m) else None) with
        | Some second => Some second
        | None => first
        end
    | None => first
    end.
Proof.
  unfold NetCDFParserWorker.process_directory.
  destruct (Env.path_exists fs (float_dir float_id)); [| discriminate].
  destruct (Env.staging_ok lib); [| discriminate].
  cbn [negb]. intros [= <-].
  cbn [NetCDFParserWorker.metadata NetCDFParserWorker.status
       NetCDFParserWorker._prepare_pg_data].
  split; [reflexivity |]. split; [reflexivity |]. split; [reflexivity |].
  destruct (Env.path_exists fs (prof_file float_id));
    destruct (Env.path_exists fs (meta_file float_id));
    try (destruct (parse_meta _ _); reflexivity); reflexivity.
Qed.

(** The summary of a float, whichever pass it is from, is one
    [get_profile_stats] gave for its profile file. *)
Lemma process_directory_status
  (float_id : string) (s : NetCDFParserWorker.stats)
  (sum : Main.StatusSummary) :
  NetCDFParserWorker.process_directory lib fs float_id
    = NetCDFParserWorker.Processed s ->
  NetCDFParserWorker.status s = Some sum ->
  Env.path_exists fs (prof_file float_id) = true /\
  (exists md, get_stats (prof_file float_id) md = Some sum) /\
  exists first, get_stats (prof_file float_id) None = Some first /\
                Main.profile_time first = Main.profile_time sum.
Proof.
  intros Hp Hs. destruct (process_directory_fields _ _ Hp) as (_ & _ & _ & Hst).
  cbn zeta in Hst. rewrite Hs in Hst.
  destruct (Env.path_exists fs (prof_file float_id));
    [| destruct (NetCDFParserWorker.metadata s); discriminate].
  split; [reflexivity |].
  destruct (NetCDFParserWorker.metadata s) as [m |]; [| eauto].
  pose proof (get_profile_stats_passes lib fs (prof_file float_id) m) as Hpass.
  destruct (get_stats (prof_file float_id) (Some m)) as [second |] eqn:E2.
  - injection Hst as ->.
    destruct (get_stats (prof_file float_id) None) as [first |];
      [| contradiction].
    destruct Hpass as [_ ->]. split; [eauto |]. exists first. split; reflexivity.
  - destruct (get_stats (prof_file float_id) None) as [first |];
      [contradiction | discriminate].
Qed.

(** The operational status stored with a float is the one the helper
    derives from its meta file and the profile time stored with it: the
    timestamp of the last profile of its profile file. *)
Theorem status_decided_by_stored_profile_time
  (float_id : string) (s : NetCDFParserWorker.stats)
  (m : FloatMetadata.t) (sum : Main.StatusSummary) :
  NetCDFParserWorker.process_directory lib fs float_id
    = NetCDFParserWorker.Processed s ->
  NetCDFParserWorker.metadata s = Some m ->
  NetCDFParserWorker.status s = Some sum ->
  exists meta prof,
    Env.open_dataset fs (meta_file float_id) = Some meta /\
    Env.open_dataset fs (prof_file float_id) = Some prof /\
    Main.profile_time sum
      = ProfileStats.last_profile_time lib prof (Readings.last_index prof) /\
    FloatMetadata.status m
      = Some (Helper.determine_float_status (Env.days_since lib) meta
                (Main.profile_time sum)).
Proof.
  intros Hp Hm Hs.
  destruct (process_directory_status _ _ _ Hp Hs)
    as (Hprof & (md & Hsum) & first & Hfirst & Htime).
  destruct (process_directory_fields _ _ Hp) as (_ & _ & Hmeta & _).
  cbn zeta in Hmeta. rewrite Hm, Hprof, Hfirst in Hmeta.
  destruct (Env.path_exists fs (meta_file float_id)); [| discriminate].
  symmetry in Hmeta.
  destruct (parse_metadata_file_status _ _ _ Hmeta) as (meta & Hopen & Hst & _).
  destruct (get_profile_stats_fields lib fs _ _ _ Hsum)
    as (prof & Hopenp & _ & _ & _ & _ & _ & Hpt & _).
  exists meta, prof. split; [exact Hopen |]. split; [exact Hopenp |].
  split; [exact Hpt |]. rewrite Hst. cbn. now rewrite Htime.
Qed.

End Extractor.

Section ExtractorInPipeline.
Variable lib : Env.Library.
Variable fs : Env.Staging.
Variable w : Main.World.
Hypothesis extractor :
  forall fid,
    Main.process_directory w fid
    = NetCDFParserWorker.parse_output
        (NetCDFParserWorker.process_directory lib fs fid).

Abbreviation float_dir float_id := (Env.child fs (Env.stage_path fs) float_id).
Abbreviation prof_file float_id :=
  (Env.child fs (float_dir float_id) (float_id ++ "_prof.nc")%string).
Abbreviation meta_file float_id :=
  (Env.child fs (float_dir float_id) (float_id ++ "_meta.nc")%string).

(** What stands behind a float that went through the upsert. *)
Lemma process_float_done_inv
  (st st' : Main.LoopState) (fid : string) :
  Main.process_float w st fid = Main.Done st' ->
  exists metadata status parquet_path status_model,
    Main.process_directory w fid
      = Main.Stats (Some metadata) (Some status) parquet_path /\
    Main.model_validate status = Some status_model /\
    FloatStatus.latitude status_model <> None /\
    FloatStatus.longitude status_model <> None /\
    Main.execute_ok w metadata status_model = true.
Proof.
  unfold Main.process_float.
  destruct (Main.process_directory w fid) as [err | [md |] [sd |] pq |];
    try discriminate.
  destruct (Main.model_validate sd) as [sm |] eqn:Hval; [| discriminate].
  case_bool_decide as Hloc; [discriminate |].
  destruct (Py.int_of_str fid) as [n |]; [| discriminate].
  destruct (Main.execute_ok w md sm) eqn:Hex;
    cbn [PgClient.batch_upload_data]; [| discriminate].
  intros _. exists md, sd, pq, sm. repeat split; try assumption; tauto.
Qed.

(** A float goes through the upsert only if its staging directory holds a
    meta file and a profile file that both open, the profile file has at
    least one profile, and the Parquet staging directory is there. *)
Theorem stored_float_had_both_files
  (st st' : Main.LoopState) (fid : string) :
  Main.process_float w st fid = Main.Done st' ->
  Env.path_exists fs (float_dir fid) = true /\
  Env.staging_ok lib = true /\
  Env.path_exists fs (meta_file fid) = true /\
  Env.path_exists fs (prof_file fid) = true /\
  exists meta prof,
    Env.open_dataset fs (meta_file fid) = Some meta /\
    Env.open_dataset fs (prof_file fid) = Some prof /\
    default 0%nat (sizes prof !! "N_PROF") <> 0%nat.
Proof.
  intros Hdone.
  destruct (process_float_done_inv _ _ _ Hdone)
    as (md & sd & pq & sm & Hdir & _).
  rewrite extractor in Hdir.
  destruct (NetCDFParserWorker.process_directory lib fs fid) as [| s |] eqn:Hp;
    try discriminate.
  cbn in Hdir. injection Hdir as Hm Hs _.
  destruct (process_directory_fields _ _ _ _ Hp) as (Hd & Hst & Hmeta & _).
  cbn zeta in Hmeta. rewrite Hm in Hmeta.
  destruct (process_directory_status _ _ _ _ _ Hp Hs)
    as (Hprof & (md' & Hsum) & _).
  destruct (get_profile_stats_fields lib fs _ _ _ Hsum)
    as (prof & Hopenp & Hn & _).
  destruct (Env.path_exists fs (meta_file fid)); [| discriminate].
  symmetry in Hmeta.
  destruct (parse_metadata_file_status _ _ _ _ Hmeta) as (meta & Hopen & _).
  repeat split; try assumption. exists meta, prof. auto.
Qed.


End ExtractorInPipeline.

(** ** The Lambda entry point ([lambda_handler]) *)

Section Lambda.
Import LambdaHandler.
Variable w : Main.World.

(** A weekly update through the Lambda handler starts from scratch: the
    staging directory is emptied first, so the run is the one against no
    manifest at all, whatever an earlier invocation left; a download task
    is started for every float of the weekly index, the floats processed
    are exactly those fetched in this invocation, and no manifest is left
    behind.  The response carries the result of the run, with status code
    200 exactly when the run reports success. *)
Theorem lambda_update_starts_from_scratch
  (event : Event) (file : option ArgoSyncWorker.Manifest)
  (stored : PgClient.tables) (weekly : gset string) :
  operation event = None \/ operation event = Some "update" ->
  ArgoSyncWorker.index_this_week_prof (Main.remote w) = Returns weekly ->
  let inv := lambda_handler w true true event file stored in
  let out := Main.sync w None false true false None stored in
  let fetched x :=
    (ArgoSyncWorker.download_with_limit (Main.remote w) x).2 = true in
  run inv = Some out /\
  manifest_left inv = None /\
  response inv = Returns (respond out) /\
  (statusCode (respond out) = 200 <->
   exists r, Main.result out = Returns r /\ Main.success r = true) /\
  exists file',
    Main.download_phase w None false true false None
    = Returns (Main.Proceed (filter fetched (elements weekly))
                 (size weekly)
                 (length (filter (fun x => ~ fetched x) (elements weekly))),
               file').
Proof.
  intros Hop Hidx inv out fetched.
  assert (Hinv : lambda_handler w true true event file stored
                 = {| response := Returns (respond out);
                      manifest_left := None; run := Some out |}).
  { unfold lambda_handler. cbn [negb cleanup_tmp].
    destruct Hop as [-> | ->]; reflexivity. }
  subst inv. rewrite Hinv. cbn [run manifest_left response].
  split; [reflexivity |]. split; [reflexivity |]. split; [reflexivity |].
  split.
  - unfold respond. destruct (Main.result out) as [r |]; cbn.
    + destruct (Main.success r) eqn:Es; split; try discriminate; eauto.
      intros (r' & [= <-] & H). congruence.
    + split; [discriminate | intros (r & [=] & _)].
  - unfold Main.download_phase. cbn [negb].
    unfold ArgoSyncWorker.update. rewrite Hidx. cbn [mbind pyres_bind].
    destruct (decide (weekly = ∅)) as [-> | Hne].
    + eexists. cbn. rewrite elements_empty, size_empty. reflexivity.
    + cbn [mbind pyres_bind].
      assert (Hpend : weekly ∖ list_to_set (C := gset string)
                        (ArgoSyncWorker.downloaded
                           (ArgoSyncWorker._load_manifest None)) = weekly).
      { cbn. apply difference_empty_L. }
      destruct (sync_pending_spec (Main.remote w) None weekly)
        as (_ & Hd & _). cbn zeta in Hd. rewrite Hpend in Hd.
      eexists. f_equal. f_equal.
      rewrite Hd. cbn [ArgoSyncWorker._load_manifest ArgoSyncWorker.downloaded
                       app].
      unfold ArgoSyncWorker.sync_pending. rewrite Hpend.
      rewrite decide_False by exact Hne.
      unfold ArgoSyncWorker._sync_floats_concurrent.
      rewrite decide_False by exact Hne.
      rewrite split_results_gather.
      cbn [ArgoSyncWorker.summary ArgoSyncWorker.total
           ArgoSyncWorker.n_failed]. reflexivity.
Qed.

End Lambda.

(** ** Identity of a parsed record ([parse_metadata_file]) *)

Section Identity.
Variable repr_float : Q -> string.
Variable float_of_text : string -> option Q.
Variable strptime : string -> string -> option datetime.
Variable days_since : datetime -> Z.

(** The two identifiers of a parsed record agree: [float_id] is the
    integer [wmo_number] reads as, or both are the placeholders (0 and the
    empty text); the record always carries a status and a float type. *)
Theorem parsed_float_id_matches_wmo_number
  (file : option Dataset) (recent : option datetime) (m : FloatMetadata.t) :
  AggregateParser.parse_metadata_file repr_float float_of_text strptime
    days_since file recent = Some m ->
  (Py.int_of_str (FloatMetadata.wmo_number m) = Some (FloatMetadata.float_id m)
   \/ (FloatMetadata.wmo_number m = EmptyString
       /\ FloatMetadata.float_id m = 0)) /\
  is_Some (FloatMetadata.status m) /\
  is_Some (FloatMetadata.float_type m).
Proof.
  unfold AggregateParser.parse_metadata_file.
  destruct file as [ds |]; [| discriminate].
  destruct (AggregateParser.build_metadata repr_float float_of_text strptime
              days_since ds recent) as [m' |] eqn:Eb; [| discriminate].
  cbn. intros [= ->].
  destruct (build_metadata_fields _ _ _ _ _ _ _ Eb)
    as (pn & dc & _ & _ & Hid & Hwmo & _).
  split.
  - rewrite Hwmo. unfold AggregateParser.platform_number_int in Hid.
    destruct pn as [s |]; [| right; cbn; split; congruence].
    destruct s as [| c s]; cbn [Py.truthy AggregateParser.or_default] in *;
      [right; split; congruence |].
    destruct (Py.int_of_str (String c s)) as [n |]; cbn in Hid;
      [left; congruence | discriminate].
  - revert Eb. unfold AggregateParser.build_metadata,
      AggregateParser.parse_date.
    repeat match goal with
      | |- context [AggregateParser.extract_string ?r ?d ?name] =>
          destruct (AggregateParser.extract_string r d name);
          cbn [mbind pyres_bind fmap pyres_fmap]; [| discriminate]
      | |- context [AggregateParser.platform_number_int ?a] =>
          destruct (AggregateParser.platform_number_int a);
          cbn [mbind pyres_bind fmap pyres_fmap]; [| discriminate]
      end.
    intros [= <-]. cbn. split; eexists; reflexivity.
Qed.

End Identity.

(** ** Sample runs of the properties above *)

(** An APEX launched in 2009 at 11 V and at 13 V. *)
Lemma alkaline_percent_sample :
  exists p1 p2,
    Helper.estimate_battery_percent "APEX" 50 (Some 11%Q)
      (Some Examples.old_apex) = Some p1 /\
    Helper.estimate_battery_percent "APEX" 50 (Some 13%Q)
      (Some Examples.old_apex) = Some p2 /\
    p1 <= p2.
Proof.
  destruct (alkaline_percent_monotone "APEX" 50 Examples.old_apex
              (mk_datetime 2009 6 1 0 0 0) 11 13)
    as (p1 & p2 & H1 & H2 & H3 & _).
  - reflexivity.
  - reflexivity.
  - cbn. lia.
  - lra.
  - exists p1, p2. split; [exact H1 |]. split; [exact H2 | exact H3].
Defined.

(** An ARVOR with no voltage at cycles 100 and 150. *)
Lemma cycle_estimate_sample :
  exists p1 p2,
    Helper.estimate_battery_percent "ARVOR" 100 None None = Some p1 /\
    Helper.estimate_battery_percent "ARVOR" 150 None None = Some p2 /\
    p2 <= p1.
Proof.
  pose proof (cycle_estimate_decreases "ARVOR" 100 150 None ltac:(lia)) as H.
  cbv zeta in H. destruct H as (p1 & p2 & H1 & H2 & H3 & _).
  exists p1, p2. split; [exact H1 |]. split; [exact H2 | exact H3].
Defined.


(** The rows of the sample file of two profiles and five levels. *)
Lemma convert_rows_sample :
  exists path rows,
    ParquetConverter.convert Samples.repr_float Samples.float_of_text
      Samples.fromtimestamp Samples.write_table Samples.staging_path
      (Some Samples.full_profile_file) "2902224" = Some (path, rows) /\
    Forall (fun r =>
              (ProfileRow.level r < ParquetConverter.n_levels Samples.full_profile_file)%nat /\
              forallb Cells.clean (Cells.of_row r) = true) rows.
Proof.
  destruct (ParquetConverter.convert Samples.repr_float Samples.float_of_text
      Samples.fromtimestamp Samples.write_table Samples.staging_path
      (Some Samples.full_profile_file) "2902224") as [[path rows] |] eqn:E;
    [| vm_compute in E; discriminate].
  exists path, rows. split; [reflexivity |].
  apply Forall_forall. intros r Hr.
  destruct (convert_rows_well_formed _ _ _ _ _ _ _ _ _ E r Hr)
    as (H1 & H2 & _).
  split; [exact H1 | exact H2].
Defined.

(** A full sync of the sample store over the sample manifest. *)
Lemma syncAll_summary_sample :
  exists run,
    ArgoSyncWorker.syncAll Samples.remote (Some Samples.manifest)
      = Returns run /\
    (ArgoSyncWorker.new (ArgoSyncWorker.summary run)
     + ArgoSyncWorker.n_failed (ArgoSyncWorker.summary run)
     = length (ArgoSyncWorker.synced run))%nat.
Proof.
  destruct (ArgoSyncWorker.index_global_meta Samples.remote)
    as [all_floats |] eqn:E; [| vm_compute in E; discriminate].
  destruct (syncAll_summary_adds_up Samples.remote (Some Samples.manifest)
              all_floats E) as (run & Hrun & H).
  cbv zeta in H. destruct H as (_ & H2 & H3 & _).
  exists run. split; [exact Hrun |]. rewrite H3. exact H2.
Defined.

(** The first upload of float 2902224 into the empty database. *)
Lemma first_upload_sample :
  exists c',
    PgClient.batch_upload_data true Samples.first_run_time
      Samples.metadata_first Samples.status_first Samples.empty_db
      = (true, c') /\
    is_Some (PgClient.argo_float_metadata (PgClient.current c')
               !! FloatMetadata.float_id Samples.metadata_first) /\
    is_Some (PgClient.argo_float_status (PgClient.current c')
               !! FloatStatus.float_id Samples.status_first).
Proof.
  destruct (first_upload_creates_rows Samples.first_run_time
              Samples.metadata_first Samples.status_first Samples.empty_db)
    as (c' & new_m & new_s & H & Hm & Hs & _).
  - vm_compute. reflexivity.
  - vm_compute. reflexivity.
  - exists c'. split; [exact H |]. split; eexists; eassumption.
Defined.

(** The upsert of float 2902224 is pending when that of float 2902227 is
    rejected: the row of 2902224 is gone, its id stays listed. *)
Lemma rejected_upload_sample :
  let st := Examples.after_first_float in
  let st' :=
    Main.flow_state
      (Main.loop_body Examples.rejecting_world "SYNC_ALL" true None st
         "2902227") in
  Main.successful_float_ids st = [2902224] /\
  is_Some (PgClient.argo_float_metadata (PgClient.current (Main.db st))
             !! 2902224) /\
  PgClient.argo_float_metadata (PgClient.current (Main.db st')) !! 2902224
    = None /\
  Main.successful_float_ids st' = [2902224].
Proof.
  intros st st'.
  assert (Hids : Main.successful_float_ids st = [2902224])
    by (vm_compute; reflexivity).
  destruct (Main.model_validate Examples.summary_other) as [sm |] eqn:Hval;
    [| vm_compute in Hval; discriminate].
  assert (Hlat : FloatStatus.latitude sm <> None)
    by (vm_compute in Hval; injection Hval as <-; discriminate).
  assert (Hlon : FloatStatus.longitude sm <> None)
    by (vm_compute in Hval; injection Hval as <-; discriminate).
  assert (Hex : Main.execute_ok Examples.rejecting_world
                  Examples.metadata_other sm = false)
    by (vm_compute in Hval; injection Hval as <-; vm_compute; reflexivity).
  pose proof (rejected_upload_discards_uncommitted Examples.rejecting_world
                "SYNC_ALL" None st "2902227" Examples.metadata_other
                Examples.summary_other None sm 2902227
                eq_refl Hval Hlat Hlon eq_refl Hex) as H.
  cbv zeta in H. destruct H as (H1 & _ & H3 & _).
  split; [exact Hids |].
  split; [vm_compute; eexists; reflexivity |].
  split.
  - unfold st'. rewrite H1. vm_compute. reflexivity.
  - unfold st'. rewrite H3. exact Hids.
Defined.


(** The voltage read from the sample tech file. *)
Lemma latest_battery_voltage_sample :
  exists v,
    ProfileStats._extract_latest_battery_voltage Examples.lib Examples.fs
      ["2902224"; "2902224_tech.nc"] = Some v /\
    (5 <= v)%Q /\ (v <= 35)%Q.
Proof.
  destruct (ProfileStats._extract_latest_battery_voltage Examples.lib
              Examples.fs ["2902224"; "2902224_tech.nc"]) as [v |] eqn:E;
    [| vm_compute in E; discriminate].
  exists v. split; [reflexivity |].
  destruct (variables Examples.tech_file !! "TECHNICAL_PARAMETER_NAME")
    as [names |] eqn:Hn; [| vm_compute in Hn; discriminate].
  destruct (variables Examples.tech_file !! "TECHNICAL_PARAMETER_VALUE")
    as [values |] eqn:Hv; [| vm_compute in Hv; discriminate].
  pose proof (latest_battery_voltage_spec Examples.lib Examples.fs
                ["2902224"; "2902224_tech.nc"] Examples.tech_file names values
                eq_refl Hn Hv) as H.
  cbv zeta in H. destruct H as [_ H].
  destruct (H v E) as (H1 & H2 & _). split; [exact H1 | exact H2].
Defined.

(** The sensors of the sample profile file: a deepest pressure, no
    salinity. *)
Lemma summary_sensor_sample :
  exists s,
    ProfileStats.get_profile_stats Examples.lib Examples.fs
      ["2902224"; "2902224_prof.nc"] None = Some s /\
    Main.last_salinity s = None /\
    exists arr, Readings.deepest_valid arr (Main.last_depth s).
Proof.
  destruct (ProfileStats.get_profile_stats Examples.lib Examples.fs
              ["2902224"; "2902224_prof.nc"] None) as [s |] eqn:E;
    [| vm_compute in E; discriminate].
  exists s. split; [reflexivity |].
  pose proof (summary_sensor_readings Examples.lib Examples.fs
                ["2902224"; "2902224_prof.nc"] None
                (Examples.prof_file (NFloat 16.42)) s eq_refl E) as H.
  cbv zeta in H. destruct H as (Hp & _ & Hs).
  destruct (variables (Examples.prof_file (NFloat 16.42)) !! "PSAL")
    as [psal |] eqn:Hpsal; [vm_compute in Hpsal; discriminate |].
  destruct (variables (Examples.prof_file (NFloat 16.42)) !! "PRES")
    as [pres |] eqn:Hpres; [| vm_compute in Hpres; discriminate].
  split; [exact Hs |].
  destruct Hp as (arr & _ & Harr). exists arr. exact Harr.
Defined.

(** Float 2902224 of the sample staging directory. *)
Lemma status_decided_sample :
  exists s m sum meta,
    NetCDFParserWorker.process_directory Examples.lib Examples.fs "2902224"
      = NetCDFParserWorker.Processed s /\
    NetCDFParserWorker.metadata s = Some m /\
    NetCDFParserWorker.status s = Some sum /\
    Env.open_dataset Examples.fs ["2902224"; "2902224_meta.nc"] = Some meta /\
    FloatMetadata.status m
      = Some (Helper.determine_float_status (Env.days_since Examples.lib) meta
                (Main.profile_time sum)).
Proof.
  destruct (NetCDFParserWorker.process_directory Examples.lib Examples.fs
              "2902224") as [| s |] eqn:E;
    [vm_compute in E; discriminate | | vm_compute in E; discriminate].
  destruct (NetCDFParserWorker.metadata s) as [m |] eqn:Hm;
    [| vm_compute in E; injection E as <-; discriminate].
  destruct (NetCDFParserWorker.status s) as [sum |] eqn:Hs;
    [| vm_compute in E; injection E as <-; discriminate].
  destruct (status_decided_by_stored_profile_time Examples.lib Examples.fs
              "2902224" s m sum E Hm Hs)
    as (meta & prof & Hmeta & _ & _ & Hstatus).
  exists s, m, sum, meta. split; [reflexivity |]. split; [exact Hm |].
  split; [exact Hs |]. split; [exact Hmeta | exact Hstatus].
Defined.

(** Float 2902224 goes through to the database, and both its files are
    in the staging directory. *)
Lemma stored_float_sample :
  exists st',
    Main.process_float Examples.world Samples.fresh_state "2902224"
      = Main.Done st' /\
    Env.path_exists Examples.fs ["2902224"; "2902224_meta.nc"] = true /\
    Env.path_exists Examples.fs ["2902224"; "2902224_prof.nc"] = true.
Proof.
  destruct (Main.process_float Examples.world Samples.fresh_state "2902224")
    as [st0 | st' | e st0] eqn:Hd.
  1, 3: vm_compute in Hd; discriminate.
  destruct (stored_float_had_both_files Examples.lib Examples.fs
              Examples.world (fun _ => eq_refl) Samples.fresh_state st'
              "2902224" Hd) as (_ & _ & Hm & Hp & _).
  exists st'. split; [reflexivity |]. split; [exact Hm | exact Hp].
Defined.


(** The scheduled invocation over the sample store, with a manifest left
    in the temporary directory by an earlier invocation. *)
Lemma lambda_update_sample :
  let inv :=
    LambdaHandler.lambda_handler Samples.world true true
      {| LambdaHandler.operation := None; LambdaHandler.float_id := None |}
      (Some Samples.manifest) (PgClient.current Samples.empty_db) in
  LambdaHandler.manifest_left inv = None /\
  exists out,
    LambdaHandler.run inv = Some out /\
    LambdaHandler.response inv = Returns (LambdaHandler.respond out).
Proof.
  intros inv.
  pose proof (lambda_update_starts_from_scratch Samples.world
                {| LambdaHandler.operation := None;
                   LambdaHandler.float_id := None |}
                (Some Samples.manifest) (PgClient.current Samples.empty_db)
                (list_to_set (C := gset string) ["2902226"])
                (or_introl eq_refl) eq_refl) as H.
  cbv zeta in H. destruct H as (H1 & H2 & H3 & _).
  split; [exact H2 |]. eexists. split; [exact H1 | exact H3].
Defined.

(** The sample meta file of float 2902224. *)
Lemma parsed_float_id_sample :
  exists m,
    AggregateParser.parse_metadata_file Samples.repr_float
      Samples.float_of_text Samples.strptime Samples.days_since
      (Some (Examples.meta_file "2902224 ")) None = Some m /\
    FloatMetadata.float_id m = 2902224 /\
    Py.int_of_str (FloatMetadata.wmo_number m)
      = Some (FloatMetadata.float_id m).
Proof.
  destruct (AggregateParser.parse_metadata_file Samples.repr_float
              Samples.float_of_text Samples.strptime Samples.days_since
              (Some (Examples.meta_file "2902224 ")) None) as [m |] eqn:E;
    [| vm_compute in E; discriminate].
  exists m. split; [reflexivity |].
  assert (Hid : FloatMetadata.float_id m = 2902224)
    by (vm_compute in E; injection E as <-; reflexivity).
  split; [exact Hid |].
  destruct (parsed_float_id_matches_wmo_number _ _ _ _ _ _ _ E)
    as [[H | [_ H]] _]; [exact H |].
  rewrite Hid in H. discriminate.
Defined.
